(** * NSE F&O breadth analyser: classification and scoring pipeline

    A shallow embedding of [config.py], [analysis.py], [advanced_analysis.py],
    of [load_data] and [calculate_fear_greed_index] from [app.py] and of
    [create_sparkline] from [visualizations.py], with the properties the
    specification states about them.

    Numbers.  A float that the code writes or prints as a decimal (a
    threshold of [config.py], a percentage of the fetcher, a result of
    [round], a number read from JSON) is written here as that decimal, a
    rational of [Q], and a comparison of two floats is the comparison of
    these rationals: every comparison against a threshold of [config.py] is
    the comparison the code makes.  Where a value depends on how floats
    round, the rounding is kept: [binary64 x] is the float nearest to [x],
    and [round(x, n)] is the decimal with [n] places nearest to the float
    nearest to [x].  The quotient of two [int]s under [round], as in the
    breadth score, the bull/bear ratio, the sector score and the ultra
    score, is thereby the float nearest to the exact quotient, so that
    [round(1 / 80, 3)] is [0.013] as in Python; the sum of the moving
    average and the steps of the sparkline are float operations one by one.
    The longer expressions under [round] (participation, market
    temperature, share of explosive moves, means of columns) are written
    with their exact value, and only ranges and comparisons are stated of
    them.  Python [int]s ([len], counters) are [Z].  The fields of a quote
    are finite numbers, as the fetcher delivers them; [float('inf')] only
    arises as the sentinel of a ratio and has a constructor of its own. *)

From Stdlib Require Import QArith Qround Qminmax Qabs Qpower ZArith List Ascii String.
From Stdlib Require Import Bool Lia Lqa Sorted Permutation.
Import ListNotations.

Local Open Scope Q_scope.

(** ** Python numerics *)

Definition Qltb (x y : Q) : bool := negb (Qle_bool y x).
Definition Qgtb (x y : Q) : bool := Qltb y x.
Definition Qleb (x y : Q) : bool := Qle_bool x y.
Definition Qgeb (x y : Q) : bool := Qle_bool y x.

Infix "<?" := Qltb (at level 70, no associativity) : Q_scope.
Infix ">?" := Qgtb (at level 70, no associativity) : Q_scope.
Infix "<=?" := Qleb (at level 70, no associativity) : Q_scope.
Infix ">=?" := Qgeb (at level 70, no associativity) : Q_scope.

(** Nearest integer, ties to the even one. *)
Definition round_half_even (x : Q) : Z :=
  let f := Qfloor x in
  match Qcompare (x - inject_Z f) (1 # 2) with
  | Lt => f
  | Gt => (f + 1)%Z
  | Eq => if Z.even f then f else (f + 1)%Z
  end.

Definition pow10 (n : nat) : Q := inject_Z (10 ^ Z.of_nat n).

(** *** Floats

    A Python float is an IEEE 754 binary64: zero, or plus or minus
    [m * 2 ^ e] with a whole [m] below [2 ^ 53] and [e] from [-1074] on.
    There is no upper limit on [e] here: the floats of the program are
    quotients and sums of counters, percentages and scores, far below the
    overflow threshold [2 ^ 1024]. *)

Definition pow2 (e : Z) : Q := 2 ^ e.

(** The whole part of the base 2 logarithm of a positive [x]. *)
Definition ilog2 (x : Q) : Z :=
  let k := (Z.log2 (Qnum x) - Z.log2 (Zpos (Qden x)))%Z in
  if Qle_bool (pow2 k) x then k else (k - 1)%Z.

(** The exponent of the last place of the floats next to a positive [x]:
    53 significant bits, and the subnormal floats below [2 ^ -1022]. *)
Definition exponent (x : Q) : Z := Z.max (ilog2 x - 52) (-1074).

Definition round_to_exponent (e : Z) (x : Q) : Q :=
  inject_Z (round_half_even (x / pow2 e)) * pow2 e.

(** The float nearest to [x], ties to the even significand: the result of
    every float operation whose exact result is [x], and the float a
    decimal literal stands for. *)
Definition binary64 (x : Q) : Q :=
  match Qcompare x 0 with
  | Eq => 0
  | Gt => round_to_exponent (exponent x) x
  | Lt => - round_to_exponent (exponent (- x)) (- x)
  end.

(** [a + b], [a - b], [a * b] and [a / b] on two floats. *)
Definition float_add (a b : Q) : Q := binary64 (binary64 a + binary64 b).
Definition float_sub (a b : Q) : Q := binary64 (binary64 a - binary64 b).
Definition float_mul (a b : Q) : Q := binary64 (binary64 a * binary64 b).
Definition float_div (a b : Q) : Q := binary64 (binary64 a / binary64 b).

(** The decimal with [ndigits] places nearest to [x], ties to the even one. *)
Definition round_decimal (x : Q) (ndigits : nat) : Q :=
  inject_Z (round_half_even (x * pow10 ndigits)) / pow10 ndigits.

(** [round(x, ndigits)] on a float: [x] is taken as the float nearest to
    it, and the result is the decimal nearest to the exact value of that
    float.  A quotient [a / b] of two [int]s under [round] is therefore
    written as the exact quotient: its float is [binary64 (a / b)]. *)
Definition py_round (x : Q) (ndigits : nat) : Q :=
  round_decimal (binary64 x) ndigits.

(** [len] of a list, a Python [int]. *)
Definition len {A : Type} (l : list A) : Z := Z.of_nat (List.length l).

(** [l[-n:]]: the last [n] elements; [l[-0:]] is [l[0:]], the whole list. *)
Definition py_slice_last {A : Type} (n : nat) (l : list A) : list A :=
  match n with
  | O => l
  | _ => skipn (List.length l - n) l
  end.

Definition Qsum (l : list Q) : Q := fold_right Qplus 0 l.

(** [sum(values)] on a list of floats: the additions from left to right,
    each rounded, as CPython makes them up to version 3.11 (from 3.12 on it
    also carries a correction for the rounding errors); [0 + x] is [x]. *)
Definition float_sum (values : list Q) : Q :=
  match values with
  | [] => 0
  | first :: rest => fold_left float_add rest first
  end.

(** ** Exceptions *)

Inductive exn : Type :=
  | ZeroDivisionError
  | KeyError
  | TypeError
  | IndexError
  | ValueError
  | OSError
  | FileNotFoundError
  | PermissionError.

Inductive result (A : Type) : Type :=
  | Ok (a : A)
  | Raise (e : exn).
Arguments Ok {A} a.
Arguments Raise {A} e.

Definition bind {A B : Type} (m : result A) (k : A -> result B) : result B :=
  match m with
  | Ok a => k a
  | Raise e => Raise e
  end.

Notation "x <- m ;; k" := (bind m (fun x => k))
  (at level 61, m at next level, right associativity).

(** [a / b] on two [int]s: true division, raising on a zero divisor. *)
Definition int_truediv (a b : Z) : result Q :=
  if (b =? 0)%Z then Raise ZeroDivisionError else Ok (inject_Z a / inject_Z b).

(** ** config.py *)

Module Thresholds.
Definition STRONG_MOVE : Q := 2.
Definition MODERATE_MOVE : Q := 1.
Definition EXPLOSIVE_MOVE : Q := 5.
Definition STRONG_EXPLOSIVE : Q := 3.

Definition VOLUME_MULTIPLIER : Q := 1.
Definition HIGH_VOLUME : Q := 15 # 10.

Definition EXTREME_BULL : Q := 8 # 10.
Definition STRONG_BULL : Q := 4 # 10.
Definition WEAK_BULL : Q := 15 # 100.
Definition NO_TRADE_HIGH : Q := 15 # 100.
Definition NO_TRADE_LOW : Q := - (15 # 100).
Definition WEAK_BEAR : Q := - (4 # 10).
Definition STRONG_BEAR : Q := - (8 # 10).

Definition HEALTHY_PARTICIPATION : Q := 60.
Definition WEAK_PARTICIPATION : Q := 40.

Definition HISTORY_DAYS : nat := 30.
Definition AVERAGE_PERIOD : nat := 3.
End Thresholds.

Module Display.
Definition SCORE_DECIMALS : nat := 3.
Definition PERCENT_DECIMALS : nat := 2.
Definition RATIO_DECIMALS : nat := 2.
End Display.

Inductive regime_key : Type :=
  | EXTREME_BULL
  | STRONG_BULL
  | WEAK_BULL
  | NO_TRADE
  | WEAK_BEAR
  | STRONG_BEAR
  | EXTREME_BEAR.

Record regime_info : Type := {
  name : string;
  action : string
}.

Local Open Scope string_scope.

(** The [REGIMES] table ([color] is presentation only and left out). *)
Definition REGIMES (k : regime_key) : regime_info :=
  match k with
  | EXTREME_BULL =>
      {| name := "EXTREME BULL üöÄ";
         action := "üî• MAXIMUM AGGRESSION - Take all long setups, full sizing (100%)" |}
  | STRONG_BULL =>
      {| name := "STRONG BULL ‚úÖ";
         action := "‚úÖ Take all valid long setups, 80-100% sizing" |}
  | WEAK_BULL =>
      {| name := "WEAK BULL ‚ö†Ô∏è";
         action := "‚ö†Ô∏è Selective longs only (high RS stocks), 50% sizing" |}
  | NO_TRADE =>
      {| name := "NO TRADE ZONE üö´";
         action := "üö´ NO NEW ENTRIES - Trail winners, cut losers, cash mode" |}
  | WEAK_BEAR =>
      {| name := "WEAK BEAR ‚ö†Ô∏è";
         action := "‚ö†Ô∏è Selective shorts only, 50% sizing, no longs" |}
  | STRONG_BEAR =>
      {| name := "STRONG BEAR üìâ";
         action := "üìâ Take all short setups, 80-100% sizing, no longs" |}
  | EXTREME_BEAR =>
      {| name := "EXTREME BEAR üíÄ";
         action := "üíÄ MAXIMUM SHORT AGGRESSION - Full sizing, no longs" |}
  end.

Local Close Scope string_scope.
Local Open Scope string_scope.

(** The sector membership map, in the order [config.py] lists it. *)
Definition SECTORS : list (string * list string) :=
  [
    ("Bank",
     [
      "AXISBANK"; "KOTAKBANK"; "HDFCBANK"; "ICICIBANK"; "SBIN";
      "INDUSINDBK"; "IDFCFIRSTB"; "BANDHANBNK"; "AUBANK"; "YESBANK"; "PNB";
      "CANBK"; "UNIONBANK"; "BANKINDIA"; "BANKBARODA"; "INDIANB";
      "FEDERALBNK"; "RBLBANK"
     ]);
    ("IT & Software",
     [
      "TCS"; "INFY"; "WIPRO"; "HCLTECH"; "TECHM"; "LTIM"; "COFORGE";
      "PERSISTENT"; "MPHASIS"; "KPITTECH"; "TATAELXSI"; "CYIENT"; "OFSS"
     ]);
    ("Auto & Auto Components",
     [
      "MARUTI"; "TVSMOTOR"; "BAJAJ-AUTO"; "ASHOKLEY"; "EICHERMOT"; "M&M";
      "HEROMOTOCO"; "EXIDEIND"; "MOTHERSON"; "BHARATFORG"; "SONACOMS";
      "UNOMINDA"
     ]);
    ("Metal & Mining",
     [
      "TATASTEEL"; "JSWSTEEL"; "HINDALCO"; "VEDL"; "JINDALSTEL"; "SAIL";
      "COALINDIA"; "NMDC"; "NATIONALUM"; "HINDZINC"
     ]);
    ("Pharma & Healthcare",
     [
      "SUNPHARMA"; "CIPLA"; "DRREDDY"; "DIVISLAB"; "LUPIN"; "BIOCON";
      "ALKEM"; "AUROPHARMA"; "TORNTPHARM"; "GLENMARK"; "ZYDUSLIFE";
      "LAURUSLABS"; "MANKIND"; "SYNGENE"; "PPLPHARMA"; "APOLLOHOSP";
      "MAXHEALTH"; "FORTIS"
     ]);
    ("Energy & Power",
     [
      "RELIANCE"; "ONGC"; "BPCL"; "IOC"; "HINDPETRO"; "OIL"; "GAIL"; "IGL";
      "PETRONET"; "NTPC"; "POWERGRID"; "TATAPOWER"; "TORNTPOWER";
      "JSWENERGY"; "ADANIGREEN"; "ADANIENSOL"; "SUZLON"; "IREDA"; "NHPC"
     ]);
    ("FMCG & Consumer",
     [
      "HINDUNILVR"; "ITC"; "NESTLEIND"; "BRITANNIA"; "DABUR"; "MARICO";
      "GODREJCP"; "COLPAL"; "TATACONSUM"; "JUBLFOOD"; "VBL"; "PATANJALI"
     ]);
    ("Infrastructure & Construction",
     [
      "LT"; "NCC"; "NBCC"; "RVNL"; "IRFC"; "TITAGARH"; "MAZDOCK";
      "ADANIPORTS"; "CONCOR"; "GMRAIRPORT"
     ]);
    ("Real Estate",
     [
      "DLF"; "GODREJPROP"; "OBEROIRLTY"; "PRESTIGE"; "LODHA"; "PHOENIXLTD"
     ]);
    ("Financial Services",
     [
      "BAJFINANCE"; "BAJAJFINSV"; "SHRIRAMFIN"; "CHOLAFIN"; "MFSL";
      "LICHSGFIN"; "MUTHOOTFIN"; "MANAPPURAM"; "ABCAPITAL"; "IIFL";
      "PNBHOUSING"; "HUDCO"; "RECLTD"; "PFC"; "NUVAMA"; "360ONE";
      "SAMMAANCAP"; "ANGELONE"
     ]);
    ("Insurance",
     [
      "SBILIFE"; "HDFCLIFE"; "ICICIPRULI"; "ICICIGI"; "LICI"; "POLICYBZR"
     ]);
    ("Capital Goods & Defense",
     [
      "SIEMENS"; "ABB"; "BHEL"; "HAL"; "BEL"; "BDL"; "CUMMINSIND";
      "BOSCHLTD"; "VOLTAS"; "BLUESTARCO"; "CROMPTON"; "HAVELLS"; "POLYCAB";
      "KEI"; "PGEL"
     ]);
    ("Telecom",
     [
      "BHARTIARTL"; "IDEA"; "INDUSTOWER"; "HFCL"
     ]);
    ("Cement",
     [
      "ULTRACEMCO"; "SHREECEM"; "AMBUJACEM"; "DALBHARAT"
     ]);
    ("Chemicals",
     [
      "UPL"; "SRF"; "PIDILITIND"; "TATACHEM"; "AARTI"; "DEEPAKNTR"; "GNFC";
      "CHAMBAL"; "COROMANDEL"
     ]);
    ("Retail & E-commerce",
     [
      "DMART"; "TRENT"; "NYKAA"; "TITAN"; "KALYANKJIL"
     ]);
    ("Technology & Platforms",
     [
      "PAYTM"; "NAUKRI"; "JIOFIN"; "INDIGO"; "IRCTC"; "DELHIVERY"; "CDSL";
      "BSE"; "MCX"; "IEX"; "KFINTECH"; "CAMS"
     ]);
    ("Industrials & Materials",
     [
      "GRASIM"; "SUPREMEIND"; "ASTRAL"; "APLAPOLLO"; "DIXON"; "AMBER";
      "CGPOWER"; "SOLARINDS"; "INOXWIND"; "ETERNAL"; "KAYNES"; "TATATECH";
      "UNITDSPR"; "TIINDIA"
     ]);
    ("Hospitality & Leisure",
     [
      "INDHOTEL"
     ]);
    ("Asset Management",
     [
      "HDFCAMC"
     ]);
    ("Diversified",
     [
      "LTF"; "ADANIENT"; "PIIND"; "PAGEIND"
     ])
  ].

Local Close Scope string_scope.

(** ** analysis.py: BreadthAnalyzer *)

(** A row of the fetched table ([data_fetcher.py]). *)
Record Quote : Type := {
  symbol : string;
  price : Q;
  prev_close : Q;
  pct_change : Q;
  volume : Z;
  avg_volume : Z;
  volume_ratio : Q
}.

Inductive Category : Type :=
  | StrongBull
  | WeakBull
  | Neutral
  | WeakBear
  | StrongBear.

Definition Category_eqb (a b : Category) : bool :=
  match a, b with
  | StrongBull, StrongBull | WeakBull, WeakBull | Neutral, Neutral
  | WeakBear, WeakBear | StrongBear, StrongBear => true
  | _, _ => false
  end.

(** A row once the [category] column exists. *)
Record Row : Type := {
  quote :> Quote;
  category : Category
}.

(** A float that may be [float('inf')]. *)
Inductive pyfloat : Type :=
  | Finite (q : Q)
  | Inf.

Definition pyfloat_round (x : pyfloat) (ndigits : nat) : pyfloat :=
  match x with
  | Finite q => Finite (py_round q ndigits)
  | Inf => Inf
  end.

Inductive sector_status : Type :=
  | Bullish
  | Bearish
  | NeutralSector.

Module BreadthAnalyzer.

(** [df.loc[mask, 'category'] = c] *)
Definition loc_set_category (mask : Row -> bool) (c : Category)
    (df : list Row) : list Row :=
  map (fun r => if mask r then {| quote := quote r; category := c |} else r) df.

Definition strong_bull_mask (r : Row) : bool :=
  (pct_change r >? Thresholds.STRONG_MOVE)
  && (volume_ratio r >? Thresholds.VOLUME_MULTIPLIER).

Definition weak_bull_mask (r : Row) : bool :=
  (pct_change r >? Thresholds.STRONG_MOVE)
  && (volume_ratio r <=? Thresholds.VOLUME_MULTIPLIER).

Definition strong_bear_mask (r : Row) : bool :=
  (pct_change r <? - Thresholds.STRONG_MOVE)
  && (volume_ratio r >? Thresholds.VOLUME_MULTIPLIER).

Definition weak_bear_mask (r : Row) : bool :=
  (pct_change r <? - Thresholds.STRONG_MOVE)
  && (volume_ratio r <=? Thresholds.VOLUME_MULTIPLIER).

Definition classify_stocks (df : list Quote) : list Row :=
  let df := map (fun q => {| quote := q; category := Neutral |}) df in
  let df := loc_set_category strong_bull_mask StrongBull df in
  let df := loc_set_category weak_bull_mask WeakBull df in
  let df := loc_set_category strong_bear_mask StrongBear df in
  let df := loc_set_category weak_bear_mask WeakBear df in
  df.

(** [counts.get(c, 0)] of [df['category'].value_counts()] *)
Definition value_count (c : Category) (df : list Row) : Z :=
  len (filter (fun r => Category_eqb (category r) c) df).

Record breadth_data : Type := {
  score : Q;
  strong_bulls : Z;
  weak_bulls : Z;
  strong_bears : Z;
  weak_bears : Z;
  neutral : Z;
  total : Z;
  total_bulls : Z;
  total_bears : Z;
  bull_bear_ratio : pyfloat
}.

(** The weighted numerator of the score. *)
Definition numerator (df : list Row) : Z :=
  (value_count StrongBull df * 2 + value_count WeakBull df * 1
   - value_count StrongBear df * 2 - value_count WeakBear df * 1)%Z.

(** The quotient [numerator / denominator] of [calculate_breadth_score];
    the local [score] is the float nearest to it, which [py_round] takes. *)
Definition unrounded_score (df : list Row) : Q :=
  let denominator := len df in
  if (denominator >? 0)%Z
  then inject_Z (numerator df) / inject_Z denominator
  else 0.

(** The quotient [total_bulls / total_bears]; the local [bull_bear_ratio]
    is the float nearest to it, or the infinite sentinel. *)
Definition unrounded_ratio (df : list Row) : pyfloat :=
  let total_bulls := (value_count StrongBull df + value_count WeakBull df)%Z in
  let total_bears := (value_count StrongBear df + value_count WeakBear df)%Z in
  if (total_bears >? 0)%Z
  then Finite (inject_Z total_bulls / inject_Z total_bears)
  else Inf.

Definition calculate_breadth_score (df : list Row) : breadth_data :=
  let strong_bulls := value_count StrongBull df in
  let weak_bulls := value_count WeakBull df in
  let strong_bears := value_count StrongBear df in
  let weak_bears := value_count WeakBear df in
  let neutral := value_count Neutral df in
  let denominator := len df in
  let score := unrounded_score df in
  let total_bulls := (strong_bulls + weak_bulls)%Z in
  let total_bears := (strong_bears + weak_bears)%Z in
  let bull_bear_ratio := unrounded_ratio df in
  {| score := py_round score Display.SCORE_DECIMALS;
     strong_bulls := strong_bulls;
     weak_bulls := weak_bulls;
     strong_bears := strong_bears;
     weak_bears := weak_bears;
     neutral := neutral;
     total := denominator;
     total_bulls := total_bulls;
     total_bears := total_bears;
     bull_bear_ratio := pyfloat_round bull_bear_ratio Display.RATIO_DECIMALS |}.

Record sector_entry : Type := {
  up_strong : Z;
  up_moderate : Z;
  down_moderate : Z;
  down_strong : Z;
  sector_total : Z;
  net : Z;
  sector_score : Q;
  avg_change : Q;
  status : sector_status
}.

Record sector_data : Type := {
  sectors : list (string * sector_entry);
  bullish_count : Z;
  total_count : Z;
  participation_pct : Q
}.

Definition isin (s : string) (stocks : list string) : bool :=
  existsb (String.eqb s) stocks.

Definition count_rows (p : Row -> bool) (df : list Row) : Z :=
  len (filter p df).

(** The body of the loop over [SECTORS.items()] for a sector with rows. *)
Definition sector_breadth_entry (sector_df : list Row) : sector_entry :=
  let up_strong :=
    count_rows (fun r : Row => pct_change r >? Thresholds.STRONG_MOVE)
      sector_df in
  let up_moderate :=
    count_rows (fun r : Row => (pct_change r >? Thresholds.MODERATE_MOVE)
                               && (pct_change r <=? Thresholds.STRONG_MOVE))
      sector_df in
  let down_moderate :=
    count_rows (fun r : Row => (pct_change r <? - Thresholds.MODERATE_MOVE)
                               && (pct_change r >=? - Thresholds.STRONG_MOVE))
      sector_df in
  let down_strong :=
    count_rows (fun r : Row => pct_change r <? - Thresholds.STRONG_MOVE)
      sector_df in
  let net_breadth := (up_strong - down_strong)%Z in
  let sector_score :=
    inject_Z (up_strong * 2 + up_moderate * 1 - down_strong * 2 - down_moderate * 1)
    / inject_Z (len sector_df) in
  let avg_change :=
    Qsum (map (fun r : Row => pct_change r) sector_df) / inject_Z (len sector_df) in
  {| up_strong := up_strong;
     up_moderate := up_moderate;
     down_moderate := down_moderate;
     down_strong := down_strong;
     sector_total := len sector_df;
     net := net_breadth;
     sector_score := py_round sector_score Display.SCORE_DECIMALS;
     avg_change := py_round avg_change Display.PERCENT_DECIMALS;
     status := if (net_breadth >? 0)%Z then Bullish
               else if (net_breadth <? 0)%Z then Bearish
               else NeutralSector |}.

Fixpoint sector_breadth_loop (items : list (string * list string))
    (df : list Row) : list (string * sector_entry) :=
  match items with
  | [] => []
  | (sector, stocks) :: rest =>
      let sector_df := filter (fun r : Row => isin (symbol r) stocks) df in
      if (len sector_df =? 0)%Z
      then sector_breadth_loop rest df
      else (sector, sector_breadth_entry sector_df) :: sector_breadth_loop rest df
  end.

Definition is_bullish (s : sector_status) : bool :=
  match s with Bullish => true | _ => false end.

Definition calculate_sector_breadth (df : list Row) : sector_data :=
  let sector_breadth := sector_breadth_loop SECTORS df in
  let bullish_sectors :=
    len (filter (fun s => is_bullish (status (snd s))) sector_breadth) in
  let total_sectors := len sector_breadth in
  let participation_pct :=
    if (total_sectors >? 0)%Z
    then inject_Z bullish_sectors / inject_Z total_sectors * 100
    else 0 in
  {| sectors := sector_breadth;
     bullish_count := bullish_sectors;
     total_count := total_sectors;
     participation_pct := py_round participation_pct Display.PERCENT_DECIMALS |}.

Record magnitude_data : Type := {
  ultra_score : Q;
  explosive_up : Z;
  strong_up : Z;
  moderate_up : Z;
  explosive_down : Z;
  strong_down : Z;
  moderate_down : Z
}.

(** The six row filters of [calculate_magnitude_analysis], on [pct_change]. *)
Definition is_explosive_up (pc : Q) : bool := pc >? Thresholds.EXPLOSIVE_MOVE.
Definition is_strong_up (pc : Q) : bool :=
  (pc >=? Thresholds.STRONG_EXPLOSIVE) && (pc <=? Thresholds.EXPLOSIVE_MOVE).
Definition is_moderate_up (pc : Q) : bool :=
  (pc >=? Thresholds.STRONG_MOVE) && (pc <? Thresholds.STRONG_EXPLOSIVE).
Definition is_explosive_down (pc : Q) : bool := pc <? - Thresholds.EXPLOSIVE_MOVE.
Definition is_strong_down (pc : Q) : bool :=
  (pc <=? - Thresholds.STRONG_EXPLOSIVE) && (pc >? - Thresholds.EXPLOSIVE_MOVE).
Definition is_moderate_down (pc : Q) : bool :=
  (pc <=? - Thresholds.STRONG_MOVE) && (pc >? - Thresholds.STRONG_EXPLOSIVE).

Definition calculate_magnitude_analysis (df : list Row) : magnitude_data :=
  let explosive_up := count_rows (fun r : Row => is_explosive_up (pct_change r)) df in
  let strong_up := count_rows (fun r : Row => is_strong_up (pct_change r)) df in
  let moderate_up := count_rows (fun r : Row => is_moderate_up (pct_change r)) df in
  let explosive_down := count_rows (fun r : Row => is_explosive_down (pct_change r)) df in
  let strong_down := count_rows (fun r : Row => is_strong_down (pct_change r)) df in
  let moderate_down := count_rows (fun r : Row => is_moderate_down (pct_change r)) df in
  let numerator :=
    (explosive_up * 3 + strong_up * 2 + moderate_up * 1
     - explosive_down * 3 - strong_down * 2 - moderate_down * 1)%Z in
  let ultra_score :=
    if (len df >? 0)%Z then inject_Z numerator / inject_Z (len df) else 0 in
  {| ultra_score := py_round ultra_score Display.SCORE_DECIMALS;
     explosive_up := explosive_up;
     strong_up := strong_up;
     moderate_up := moderate_up;
     explosive_down := explosive_down;
     strong_down := strong_down;
     moderate_down := moderate_down |}.

(** The [if]/[elif] chain of [classify_regime]. *)
Definition regime_key_of (score : Q) : regime_key :=
  if score >? Thresholds.EXTREME_BULL then EXTREME_BULL
  else if score >=? Thresholds.STRONG_BULL then STRONG_BULL
  else if score >=? Thresholds.WEAK_BULL then WEAK_BULL
  else if score >=? Thresholds.NO_TRADE_LOW then NO_TRADE
  else if score >=? Thresholds.WEAK_BEAR then WEAK_BEAR
  else if score >=? Thresholds.STRONG_BEAR then STRONG_BEAR
  else EXTREME_BEAR.

Definition narrow_leadership_warning : string :=
  "
   ⚠️ WARNING: Narrow leadership (low participation) - Reduce sizing by 30%".

(** [classify_regime] reads [self.breadth_data] and [self.sector_data] and
    returns [(self.regime, self.action)]. *)
Definition classify_regime (bd : breadth_data) (sd : sector_data)
    : string * string :=
  let score := score bd in
  let participation := participation_pct sd in
  let regime_info := REGIMES (regime_key_of score) in
  let regime := name regime_info in
  let action := action regime_info in
  let action :=
    if (participation <? Thresholds.WEAK_PARTICIPATION) && (score >? 0)
    then (action ++ narrow_leadership_warning)%string
    else action in
  (regime, action).

(** [sorted(items, key=..., reverse=True)]: descending and stable, items
    with equal keys stay in their original order. *)
Fixpoint insert_descending {A : Type} (key : A -> Q) (x : A) (sorted : list A)
    : list A :=
  match sorted with
  | [] => [x]
  | y :: rest =>
      if key y >? key x then y :: insert_descending key x rest
      else x :: y :: rest
  end.

Definition sorted_reverse {A : Type} (key : A -> Q) (items : list A) : list A :=
  fold_right (insert_descending key) [] items.

(** [get_sector_leaders_laggards] reads [self.sector_data['sectors']]. *)
Definition get_sector_leaders_laggards (sd : sector_data)
    : list (string * sector_entry) * list (string * sector_entry) :=
  let sorted_sectors :=
    sorted_reverse (fun x => sector_score (snd x)) (sectors sd) in
  let leaders := firstn 3 sorted_sectors in
  let laggards := py_slice_last 3 sorted_sectors in
  (leaders, laggards).

End BreadthAnalyzer.

(** ** analysis.py: HistoryManager *)

(** What [json.load] can return. *)
#[local] Set Warnings "-register-all".
Inductive json : Type :=
  | JNull
  | JBool (b : bool)
  | JNumber (q : Q)
  | JString (s : string)
  | JArray (l : list json)
  | JObject (kv : list (string * json)).
#[local] Set Warnings "register-all".

(** The file behind [self.filepath], as the file system presents it:
    - [Missing]: there is no file, in a directory that can be written;
    - [Unreadable]: the file is there and [open] fails on it;
    - [Malformed]: it holds text that is not JSON, and can be read and
      written;
    - [Holds v]: it holds the JSON document [v], and can be read and written;
    - [ReadOnly v]: it holds [v] and can be read, but not opened for writing;
    - [NoDirectory]: neither the file nor its directory is there;
    - [Inaccessible]: its directory cannot be searched, so that even the
      test whether the file is there fails. *)
Inductive backing_file : Type :=
  | Missing
  | Unreadable
  | Malformed
  | Holds (v : json)
  | ReadOnly (v : json)
  | NoDirectory
  | Inaccessible.

Record datetime : Type := {
  year : nat;
  month : nat;
  day : nat;
  hour : nat;
  minute : nat;
  second : nat
}.

Definition digit (n : nat) : ascii := ascii_of_nat (48 + n mod 10).

(** [date.strftime('%Y-%m-%d')]: month and day with two digits and the
    year with four, as every year from 1000 on is written.  For an earlier
    year the C library decides whether [%Y] pads; here it does. *)
Definition strftime_Ymd (d : datetime) : string :=
  let y := year d in
  let m := month d in
  let dd := day d in
  String (digit (y / 1000)) (String (digit (y / 100)) (String (digit (y / 10))
  (String (digit y) (String "-"%char
  (String (digit (m / 10)) (String (digit m) (String "-"%char
  (String (digit (dd / 10)) (String (digit dd) EmptyString))))))))).

Module HistoryManager.

Local Open Scope string_scope.

(** [self.filepath.exists()]: pathlib answers [False] when the file or its
    directory is missing, and lets every other failure of [stat] through. *)
Definition exists_ (f : backing_file) : result bool :=
  match f with
  | Missing | NoDirectory => Ok false
  | Inaccessible => Raise PermissionError
  | Unreadable | Malformed | Holds _ | ReadOnly _ => Ok true
  end.

(** [open(self.filepath, 'r')] followed by [json.load]; any failure is an
    exception. *)
Definition json_load (f : backing_file) : result json :=
  match f with
  | Holds v | ReadOnly v => Ok v
  | Malformed => Raise ValueError
  | Unreadable => Raise OSError
  | Missing | NoDirectory => Raise FileNotFoundError
  | Inaccessible => Raise PermissionError
  end.

(** [open(self.filepath, 'w')] followed by [json.dump]: the file after the
    write, or the exception [open] raises. *)
Definition json_dump (history : json) (f : backing_file) : result backing_file :=
  match f with
  | Missing | Malformed | Holds _ => Ok (Holds history)
  | Unreadable | ReadOnly _ | Inaccessible => Raise PermissionError
  | NoDirectory => Raise FileNotFoundError
  end.

(** The test [self.filepath.exists()] is outside the [try]: what it raises
    is raised by [load_history]. *)
Definition load_history (f : backing_file) : result json :=
  found <- exists_ f ;;
  if found then
    match json_load f with
    | Ok v => Ok v
    | Raise _ => Ok (JArray [])
    end
  else Ok (JArray []).

(** [h[key]] for a [str] key: only a dict accepts it. *)
Definition getitem (h : json) (key : string) : result json :=
  match h with
  | JObject kv =>
      match find (fun p => String.eqb (fst p) key) kv with
      | Some p => Ok (snd p)
      | None => Raise KeyError
      end
  | _ => Raise TypeError
  end.

(** [for h in history]: a list yields its elements, a dict its keys, a
    string its characters; nothing else is iterable. *)
Definition iter (history : json) : result (list json) :=
  match history with
  | JArray l => Ok l
  | JObject kv => Ok (map (fun p => JString (fst p)) kv)
  | JString s =>
      Ok (map (fun c => JString (String c EmptyString)) (list_ascii_of_string s))
  | _ => Raise TypeError
  end.

(** [v != today_str] *)
Definition ne_str (v : json) (today_str : string) : bool :=
  match v with
  | JString s => negb (String.eqb s today_str)
  | _ => true
  end.

(** [[h for h in history if h['date'] != today_str]] *)
Fixpoint without_date (today_str : string) (history : list json)
    : result (list json) :=
  match history with
  | [] => Ok []
  | h :: rest =>
      d <- getitem h "date" ;;
      kept <- without_date today_str rest ;;
      Ok (if ne_str d today_str then h :: kept else kept)
  end.

Definition new_record (today_str : string) (score : Q) (regime : string) : json :=
  JObject [("date", JString today_str);
           ("score", JNumber score);
           ("regime", JString regime)].

(** [save_score]: the file after the call, or the exception it raises. *)
Definition save_score (date : datetime) (score : Q) (regime : string)
    (f : backing_file) : result backing_file :=
  history <- load_history f ;;
  let today_str := strftime_Ymd date in
  elements <- iter history ;;
  history <- without_date today_str elements ;;
  let history := (history ++ [new_record today_str score regime])%list in
  let history := py_slice_last Thresholds.HISTORY_DAYS history in
  json_dump (JArray history) f.

(** A record of the persisted layout, [{date, score, regime}]. *)
Record HistoryRecord : Type := {
  date : string;
  score : Q;
  regime : string
}.

Definition record_json (r : HistoryRecord) : json :=
  new_record (date r) (score r) (regime r).

Definition history_json (history : list HistoryRecord) : json :=
  JArray (map record_json history).

(** The readers below take [history], the list [load_history] returned,
    in the persisted layout. *)

Definition get_moving_average (history : list HistoryRecord) (period : nat)
    : option Q :=
  if (len history <? 1)%Z then None
  else
    let recent := py_slice_last period history in
    let scores := map score recent in
    Some (py_round (float_sum scores / inject_Z (len scores))
            Display.SCORE_DECIMALS).

Definition get_trend (history : list HistoryRecord) (lookback : nat)
    : result string :=
  if (len history <? Z.of_nat lookback)%Z then Ok "Insufficient data"
  else
    let recent := py_slice_last lookback history in
    let scores := map score recent in
    match scores with
    | [] => Raise IndexError
    | first :: _ =>
        let last := List.last scores first in
        Ok (if (last >? first)%Q then "Improving"
            else if (last <? first)%Q then "Deteriorating"
            else "Stable")
    end.

(** [all(rel(scores[i], scores[i+1]) for i in range(len(scores)-1))] *)
Fixpoint all_adjacent (rel : Q -> Q -> bool) (scores : list Q) : bool :=
  match scores with
  | a :: (b :: _) as rest => rel a b && all_adjacent rel rest
  | _ => true
  end.

Definition detect_divergence (history : list HistoryRecord) (current_score : Q)
    : option string * string :=
  if (len history <? 3)%Z then (None, "Insufficient data")
  else
    let recent := py_slice_last 3 history in
    let scores := map score recent in
    if (current_score >? 0)%Q && all_adjacent Qgtb scores
    then (Some "bearish", "⚠️ Breadth deteriorating - Distribution warning")
    else if (current_score <? 0)%Q && all_adjacent Qltb scores
    then (Some "bullish", "✨ Breadth improving - Accumulation signal")
    else (None, "No divergence").

End HistoryManager.

(** ** advanced_analysis.py: AdvancedAnalysis *)

Module AdvancedAnalysis.

(** [Series.mean()] of a column with at least one row. *)
Definition mean (column : list Q) : Q := Qsum column / inject_Z (len column).

Record temperature_components : Type := {
  breadth : Q;
  momentum : Q;
  volume_component : Q
}.

Record market_temperature : Type := {
  temperature : Q;
  temperature_status : string;
  components : temperature_components
}.

Local Open Scope string_scope.

Definition temperature_band (temperature : Q) : string :=
  if (temperature >? 80)%Q then "🔥 OVERHEATED (Potential reversal)"
  else if (temperature >? 60)%Q then "🌡️ HOT (Strong bullish)"
  else if (temperature >? 40)%Q then "☀️ WARM (Moderate bullish)"
  else if (temperature >? 30)%Q then "🌤️ NEUTRAL"
  else if (temperature >? 20)%Q then "⛅ COOL (Moderate bearish)"
  else "❄️ COLD (Strong bearish)".

(** The first statement divides two [len]s; the means below it are only
    reached when the table has a row. *)
Definition calculate_market_temperature (df : list Quote)
    : result market_temperature :=
  up_frac <- int_truediv (len (filter (fun r => (pct_change r >? 0)%Q) df)) (len df) ;;
  let up_pct := (up_frac * 40)%Q in
  let avg_change := mean (map pct_change df) in
  let momentum_score := Qmin (Qmax ((avg_change + 2) / 4 * 30) 0) 30 in
  let avg_vol_ratio := mean (map volume_ratio df) in
  let volume_score :=
    Qmin (Qmax ((avg_vol_ratio - (5 # 10)) / (15 # 10) * 30) 0) 30 in
  let temperature := (up_pct + momentum_score + volume_score)%Q in
  Ok {| temperature := py_round temperature 1;
        temperature_status := temperature_band temperature;
        components :=
          {| breadth := py_round up_pct 1;
             momentum := py_round momentum_score 1;
             volume_component := py_round volume_score 1 |} |}.

Record magnitude_stats : Type := {
  explosive_up : Z;
  explosive_down : Z
}.

Definition calculate_magnitude_stats (df : list Quote) : magnitude_stats :=
  {| explosive_up := len (filter (fun r => (pct_change r >? 5)%Q) df);
     explosive_down := len (filter (fun r => (pct_change r <? - (5))%Q) df) |}.

Record sentiment : Type := {
  condition : string;
  signal : string;
  explosive_moves_pct : Q;
  sentiment_action : string
}.

Definition detect_capitulation_or_euphoria (df : list Quote) : result sentiment :=
  let magnitude_data := calculate_magnitude_stats df in
  down_frac <- int_truediv (explosive_down magnitude_data) (len df) ;;
  let explosive_down_pct := (down_frac * 100)%Q in
  if (explosive_down_pct >? 15)%Q then
    Ok {| condition := "CAPITULATION";
          signal := "💀 CAPITULATION DETECTED - Potential bottom near";
          explosive_moves_pct := py_round explosive_down_pct 1;
          sentiment_action := "Watch for reversal, prepare long entries" |}
  else
    up_frac <- int_truediv (explosive_up magnitude_data) (len df) ;;
    let explosive_up_pct := (up_frac * 100)%Q in
    if (explosive_up_pct >? 15)%Q then
      Ok {| condition := "EUPHORIA";
            signal := "🚀 EUPHORIA DETECTED - Potential top near";
            explosive_moves_pct := py_round explosive_up_pct 1;
            sentiment_action := "Book profits, tighten stops" |}
    else
      Ok {| condition := "NORMAL";
            signal := "No extreme sentiment detected";
            explosive_moves_pct := 0;
            sentiment_action := "Continue normal trading" |}.

Record trading_signal : Type := {
  signal_type : string;
  strength : string;
  message : string
}.

Definition generate_trading_signals (breadth_score sector_participation : Q)
    : list trading_signal :=
  if (breadth_score >? (5 # 10))%Q && (sector_participation >? 70)%Q then
    [{| signal_type := "BUY";
        strength := "STRONG";
        message := "✅ Strong buy signal - Broad-based rally with high participation" |}]
  else if (breadth_score >? 0)%Q && (sector_participation <? 40)%Q then
    [{| signal_type := "WARNING";
        strength := "MODERATE";
        message := "⚠️ Narrow leadership warning - Reduce exposure" |}]
  else if (breadth_score <? - (5 # 10))%Q then
    [{| signal_type := "SELL";
        strength := "STRONG";
        message := "❌ Strong sell signal - Broad-based decline" |}]
  else if (- (2 # 10) <? breadth_score)%Q && (breadth_score <? (2 # 10))%Q then
    [{| signal_type := "NEUTRAL";
        strength := "WEAK";
        message := "🚫 No clear signal - Stay in cash or tight ranges" |}]
  else [].

End AdvancedAnalysis.

(** ** app.py *)

Module App.

Record session_state : Type := {
  df : list Quote;
  breadth_data : BreadthAnalyzer.breadth_data;
  sector_data : BreadthAnalyzer.sector_data;
  magnitude_data : BreadthAnalyzer.magnitude_data;
  regime : string;
  action : string
}.

(** [load_data], from the fetched table [df] on, at time [now] and with
    the history file [f]: [None] stands for the early [return False] on
    an empty table, which leaves the file as it is. *)
Definition load_data (df : list Quote) (now : datetime) (f : backing_file)
    : result (option session_state * backing_file) :=
  match df with
  | [] => Ok (None, f)
  | _ =>
      let rows := BreadthAnalyzer.classify_stocks df in
      let breadth_data := BreadthAnalyzer.calculate_breadth_score rows in
      let sector_data := BreadthAnalyzer.calculate_sector_breadth rows in
      let magnitude_data := BreadthAnalyzer.calculate_magnitude_analysis rows in
      let '(regime, action) := BreadthAnalyzer.classify_regime breadth_data sector_data in
      f' <- HistoryManager.save_score now (BreadthAnalyzer.score breadth_data) regime f ;;
      Ok (Some {| df := df;
                  breadth_data := breadth_data;
                  sector_data := sector_data;
                  magnitude_data := magnitude_data;
                  regime := regime;
                  action := action |}, f')
  end.

Record fear_greed_components : Type := {
  c1_raw : Q; c1_score : Q;
  c2_raw : Q; c2_score : Q;
  c3_raw : Q; c3_score : Q;
  c4_raw : Q; c4_score : Q;
  c5_raw : Q; c5_score : Q
}.

Record fear_greed : Type := {
  total_index : Q;
  fear_greed_regime : string;
  components : fear_greed_components
}.

(** Component 1, the 3-day breadth average. *)
Definition breadth_subscore (breadth_3day : Q) : Q :=
  if breadth_3day >? (8 # 10) then 975 # 10
  else if breadth_3day >=? (6 # 10) then 87
  else if breadth_3day >=? (4 # 10) then 72
  else if breadth_3day >=? (2 # 10) then 595 # 10
  else if breadth_3day >=? 0 then 495 # 10
  else if breadth_3day >=? - (2 # 10) then 395 # 10
  else if breadth_3day >=? - (4 # 10) then 295 # 10
  else if breadth_3day >=? - (6 # 10) then 17
  else 45 # 10.

(** Component 2, breadth momentum. *)
Definition momentum_subscore (breadth_momentum : Q) : Q :=
  if breadth_momentum >=? (15 # 100) then 100
  else if breadth_momentum >=? (10 # 100) then 92
  else if breadth_momentum >=? (5 # 100) then 77
  else if breadth_momentum >=? 0 then 62
  else if breadth_momentum >=? - (5 # 100) then 495 # 10
  else if breadth_momentum >=? - (10 # 100) then 37
  else if breadth_momentum >=? - (15 # 100) then 22
  else 7.

(** Component 3, the VIX level. *)
Definition vix_level_subscore (vix_3day : Q) : Q :=
  if vix_3day <? 12 then 95
  else if vix_3day <? 14 then 82
  else if vix_3day <? 16 then 67
  else if vix_3day <? 18 then 545 # 10
  else if vix_3day <? 20 then 445 # 10
  else if vix_3day <? 23 then 32
  else if vix_3day <? 27 then 17
  else 45 # 10.

(** Component 4, the VIX direction. *)
Definition vix_direction_subscore (vix_change : Q) : Q :=
  if vix_change <=? - (3) then 100
  else if vix_change <=? - (2) then 85
  else if vix_change <=? - (1) then 70
  else if vix_change <=? 0 then 55
  else if vix_change <=? 1 then 45
  else if vix_change <=? 2 then 30
  else if vix_change <=? 3 then 15
  else 0.

(** Component 5, participation. *)
Definition participation_subscore (participation_3day : Q) : Q :=
  if participation_3day >? 80 then 100
  else if participation_3day >=? 70 then 92
  else if participation_3day >=? 60 then 77
  else if participation_3day >=? 50 then 62
  else if participation_3day >=? 40 then 47
  else if participation_3day >=? 30 then 32
  else 17.

Local Open Scope string_scope.

Definition fear_greed_band (total_index : Q) : string :=
  if (total_index >=? 90)%Q then "EXTREME GREED 🔥"
  else if (total_index >=? 75)%Q then "GREED 🟢"
  else if (total_index >=? 60)%Q then "MODERATE GREED 🟢"
  else if (total_index >=? 50)%Q then "NEUTRAL 🟡"
  else if (total_index >=? 40)%Q then "MILD FEAR 🟡"
  else if (total_index >=? 25)%Q then "FEAR 🟠"
  else if (total_index >=? 10)%Q then "EXTREME FEAR 🔴"
  else "PANIC 💀".

Local Close Scope string_scope.

Definition calculate_fear_greed_index
    (breadth_3day breadth_today vix_3day vix_day1 vix_day3 participation_3day : Q)
    : fear_greed :=
  let c1_raw := breadth_subscore breadth_3day in
  let c1_score := c1_raw * (40 # 100) in
  let breadth_momentum := breadth_today - breadth_3day in
  let c2_raw := momentum_subscore breadth_momentum in
  let c2_score := c2_raw * (15 # 100) in
  let c3_raw := vix_level_subscore vix_3day in
  let c3_score := c3_raw * (25 # 100) in
  let vix_change := vix_day3 - vix_day1 in
  let c4_raw := vix_direction_subscore vix_change in
  let c4_score := c4_raw * (10 # 100) in
  let c5_raw := participation_subscore participation_3day in
  let c5_score := c5_raw * (10 # 100) in
  let total_index := c1_score + c2_score + c3_score + c4_score + c5_score in
  {| total_index := total_index;
     fear_greed_regime := fear_greed_band total_index;
     components :=
       {| c1_raw := c1_raw; c1_score := c1_score;
          c2_raw := c2_raw; c2_score := c2_score;
          c3_raw := c3_raw; c3_score := c3_score;
          c4_raw := c4_raw; c4_score := c4_score;
          c5_raw := c5_raw; c5_score := c5_score |} |}.

End App.

(** ** visualizations.py: BreadthVisualizer *)

(** [int(x)] on a float: truncation towards zero. *)
Definition py_int (x : Q) : Z :=
  if x <? 0 then Qceiling x else Qfloor x.

(** [s * n] on a string and an [int]: empty for [n <= 0]. *)
Fixpoint str_repeat (s : string) (n : nat) : string :=
  match n with
  | O => EmptyString
  | S n' => (s ++ str_repeat s n')%string
  end.

(** [chars[i]] on a string given by its characters: a negative index
    counts from the end, an index out of range raises. *)
Definition str_index (chars : list string) (i : Z) : result string :=
  let i := if (i <? 0)%Z then (i + len chars)%Z else i in
  if (i <? 0)%Z then Raise IndexError
  else match nth_error chars (Z.to_nat i) with
       | Some c => Ok c
       | None => Raise IndexError
       end.

Module BreadthVisualizer.

Local Open Scope string_scope.

Definition ticks : list string := ["▁"; "▂"; "▃"; "▄"; "▅"; "▆"; "▇"; "█"].

(** The [for value in values] loop, [sparkline] being the text so far. *)
Fixpoint sparkline_loop (values : list Q) (min_val range_val : Q)
    (sparkline : string) : result string :=
  match values with
  | [] => Ok sparkline
  | value :: rest =>
      let normalized :=
        py_int (float_mul (float_div (float_sub value min_val) range_val) 7) in
      tick <- str_index ticks normalized ;;
      sparkline_loop rest min_val range_val (sparkline ++ tick)
  end.

Definition create_sparkline (values : list Q) (width : Z) : result string :=
  match values with
  | [] | [_] => Ok "N/A"
  | first :: rest =>
      let min_val := fold_left Qmin rest first in
      let max_val := fold_left Qmax rest first in
      let range_val := float_sub max_val min_val in
      if Qeq_bool range_val 0 then Ok (str_repeat "─" (Z.to_nat width))
      else sparkline_loop values min_val range_val ""
  end.

End BreadthVisualizer.

(** ** The specification's own formulations *)

(** Section 4.1, the classifier as a first-match list of rules. *)
Definition classifier_rule (percent_change volume_ratio : Q) : Category :=
  if (percent_change >? Thresholds.STRONG_MOVE)
     && (volume_ratio >? Thresholds.VOLUME_MULTIPLIER) then StrongBull
  else if percent_change >? Thresholds.STRONG_MOVE then WeakBull
  else if (percent_change <? - Thresholds.STRONG_MOVE)
          && (volume_ratio >? Thresholds.VOLUME_MULTIPLIER) then StrongBear
  else if percent_change <? - Thresholds.STRONG_MOVE then WeakBear
  else Neutral.

(** ** Sample inputs *)

(** A quote of [symbol] that moved by [pct_change] percent from a previous
    close of 100 on [volume_ratio] times an average volume of 1000. *)
Definition sample_quote (symbol : string) (pct_change volume_ratio : Q) : Quote :=
  {| symbol := symbol;
     price := 100 + pct_change;
     prev_close := 100;
     pct_change := pct_change;
     volume := Qfloor (volume_ratio * 1000);
     avg_volume := 1000;
     volume_ratio := volume_ratio |}.

(** One strong bull among three instruments: the quotient is 2/3. *)
Definition one_in_three : list Quote :=
  [sample_quote "RELIANCE" 3 (15 # 10);
   sample_quote "TCS" 0 1;
   sample_quote "INFY" 0 1].

(** Three instruments that did not move. *)
Definition all_flat : list Row :=
  [{| quote := sample_quote "ITC" 0 1; category := Neutral |};
   {| quote := sample_quote "SBIN" (1 # 2) 2; category := Neutral |};
   {| quote := sample_quote "LT" (- (1)) (1 # 2); category := Neutral |}].

(** Section 8, the end-to-end scenario: six instruments up 3% on 1.5 times
    the average volume, four down 3% on half of it. *)
Definition six_up_four_down : list Quote :=
  [sample_quote "RELIANCE" 3 (15 # 10);
   sample_quote "TCS" 3 (15 # 10);
   sample_quote "INFY" 3 (15 # 10);
   sample_quote "HDFCBANK" 3 (15 # 10);
   sample_quote "ITC" 3 (15 # 10);
   sample_quote "LT" 3 (15 # 10);
   sample_quote "SBIN" (- (3)) (5 # 10);
   sample_quote "WIPRO" (- (3)) (5 # 10);
   sample_quote "ONGC" (- (3)) (5 # 10);
   sample_quote "DLF" (- (3)) (5 # 10)].

(** A table of one instrument, already classified. *)
Definition single_row (pct_change : Q) : list Row :=
  BreadthAnalyzer.classify_stocks [sample_quote "SBIN" pct_change 1].

(** Section 4.6, [append_or_replace] on the records of the store: drop the
    record of the same day, append the new record, keep the most recent
    [HISTORY_DAYS] records. *)
Definition other_day (today : string) (r : HistoryManager.HistoryRecord) : bool :=
  negb (String.eqb (HistoryManager.date r) today).

Definition append_or_replace (date : string) (score : Q) (regime : string)
    (history : list HistoryManager.HistoryRecord)
    : list HistoryManager.HistoryRecord :=
  py_slice_last Thresholds.HISTORY_DAYS
    (filter (other_day date) history
     ++ [{| HistoryManager.date := date;
            HistoryManager.score := score;
            HistoryManager.regime := regime |}]).

Definition evening : datetime :=
  {| year := 2026; month := 11; day := 3; hour := 16; minute := 5; second := 0 |}.

Definition two_days : list HistoryManager.HistoryRecord :=
  [{| HistoryManager.date := "2026-11-02";
      HistoryManager.score := 412 # 1000;
      HistoryManager.regime := name (REGIMES STRONG_BULL) |};
   {| HistoryManager.date := "2026-11-03";
      HistoryManager.score := 125 # 1000;
      HistoryManager.regime := name (REGIMES NO_TRADE) |}].

(** Two days whose exact mean, -0.1985, is halfway between two thousandths;
    the float mean lies below it. *)
Definition close_days : list HistoryManager.HistoryRecord :=
  [{| HistoryManager.date := "2026-11-02";
      HistoryManager.score := - (2 # 10);
      HistoryManager.regime := name (REGIMES WEAK_BEAR) |};
   {| HistoryManager.date := "2026-11-03";
      HistoryManager.score := - (197 # 1000);
      HistoryManager.regime := name (REGIMES WEAK_BEAR) |}].

(** The symbols of the sector map. *)
Definition sector_symbols : list string := flat_map snd SECTORS.

(** 187 instruments: 28 up 3% on half the average volume, 159 unchanged.
    The quotient 28/187 is just below [WEAK_BULL] and rounds to 0.15. *)
Definition near_weak_bull : list Quote :=
  map (fun sym => sample_quote sym 3 (5 # 10)) (firstn 28 sector_symbols)
  ++ map (fun sym => sample_quote sym 0 1) (firstn 159 (skipn 28 sector_symbols)).

(** Section 8: three falling scores, three rising scores. *)
Definition falling : list HistoryManager.HistoryRecord :=
  [{| HistoryManager.date := "2026-10-30"; HistoryManager.score := 5 # 10;
      HistoryManager.regime := name (REGIMES STRONG_BULL) |};
   {| HistoryManager.date := "2026-11-02"; HistoryManager.score := 3 # 10;
      HistoryManager.regime := name (REGIMES WEAK_BULL) |};
   {| HistoryManager.date := "2026-11-03"; HistoryManager.score := 1 # 10;
      HistoryManager.regime := name (REGIMES NO_TRADE) |}].

Definition rising : list HistoryManager.HistoryRecord :=
  [{| HistoryManager.date := "2026-10-30"; HistoryManager.score := - (5 # 10);
      HistoryManager.regime := name (REGIMES STRONG_BEAR) |};
   {| HistoryManager.date := "2026-11-02"; HistoryManager.score := - (3 # 10);
      HistoryManager.regime := name (REGIMES WEAK_BEAR) |};
   {| HistoryManager.date := "2026-11-03"; HistoryManager.score := - (1 # 10);
      HistoryManager.regime := name (REGIMES NO_TRADE) |}].

(** [isinstance(v, list)] *)
Definition is_list (v : json) : bool :=
  match v with
  | JArray _ => true
  | _ => false
  end.

(** The volatility index is fetched with the stocks and belongs to no
    sector. *)
Definition vix_only : list Row :=
  [{| quote := sample_quote "^INDIAVIX" (45 # 10) 1; category := WeakBull |}].

(** The regimes from the most bearish (0) to the most bullish (6). *)
Definition regime_rank (k : regime_key) : Z :=
  match k with
  | EXTREME_BEAR => 0
  | STRONG_BEAR => 1
  | WEAK_BEAR => 2
  | NO_TRADE => 3
  | WEAK_BULL => 4
  | STRONG_BULL => 5
  | EXTREME_BULL => 6
  end.

(** A snapshot and a sector report with a positive score in the NO TRADE
    band and a participation below [WEAK_PARTICIPATION]. *)
Definition narrow_rally : BreadthAnalyzer.breadth_data :=
  {| BreadthAnalyzer.score := 1 # 10;
     BreadthAnalyzer.strong_bulls := 3;
     BreadthAnalyzer.weak_bulls := 0;
     BreadthAnalyzer.strong_bears := 1;
     BreadthAnalyzer.weak_bears := 1;
     BreadthAnalyzer.neutral := 25;
     BreadthAnalyzer.total := 30;
     BreadthAnalyzer.total_bulls := 3;
     BreadthAnalyzer.total_bears := 2;
     BreadthAnalyzer.bull_bear_ratio := Finite (15 # 10) |}.

Definition few_sectors_up : BreadthAnalyzer.sector_data :=
  {| BreadthAnalyzer.sectors := [];
     BreadthAnalyzer.bullish_count := 1;
     BreadthAnalyzer.total_count := 4;
     BreadthAnalyzer.participation_pct := 25 |}.

(** A run of [save_score] calls, each on the file the previous one left. *)
Fixpoint save_all (writes : list (datetime * Q * string)) (f : backing_file)
    : result backing_file :=
  match writes with
  | [] => Ok f
  | (d, s, r) :: rest =>
      f' <- HistoryManager.save_score d s r f ;;
      save_all rest f'
  end.

(** The record [save_score] writes for a call. *)
Definition written_record (w : datetime * Q * string)
    : HistoryManager.HistoryRecord :=
  {| HistoryManager.date := strftime_Ymd (fst (fst w));
     HistoryManager.score := snd (fst w);
     HistoryManager.regime := snd w |}.

(** A full store: the thirty days of September 2026. *)
Definition september : list HistoryManager.HistoryRecord :=
  map (fun n =>
         {| HistoryManager.date :=
              strftime_Ymd {| year := 2026; month := 9; day := n;
                              hour := 16; minute := 0; second := 0 |};
            HistoryManager.score := inject_Z (Z.of_nat n) / 100;
            HistoryManager.regime := name (REGIMES NO_TRADE) |})
      (seq 1 30).

Definition three_evenings : list (datetime * Q * string) :=
  [({| year := 2026; month := 11; day := 2;
       hour := 16; minute := 0; second := 0 |}, 412 # 1000,
    name (REGIMES STRONG_BULL));
   (evening, 125 # 1000, name (REGIMES NO_TRADE));
   ({| year := 2026; month := 11; day := 3;
       hour := 18; minute := 30; second := 0 |}, 2 # 10,
    name (REGIMES WEAK_BULL))].

Definition late_evening : datetime :=
  {| year := 2026; month := 11; day := 3; hour := 23; minute := 59; second := 59 |}.

(** The order of [sorted(..., reverse=True)]: no key before a larger one. *)
Definition descending {A : Type} (key : A -> Q) (a b : A) : Prop :=
  key b <= key a.

(** The key [get_sector_leaders_laggards] sorts by. *)
Definition entry_score (x : string * BreadthAnalyzer.sector_entry) : Q :=
  BreadthAnalyzer.sector_score (snd x).

(** The text made of the given pieces. *)
Definition join (pieces : list string) : string :=
  fold_right String.append EmptyString pieces.

(** The place among the eight ticks of a value on a series whose minimum
    is [lo] and whose range, as a float, is [range_val]. *)
Definition tick_index (lo range_val v : Q) : nat :=
  Z.to_nat (py_int (float_mul (float_div (float_sub v lo) range_val) 7)).

Definition tick_of (lo range_val v : Q) : string :=
  nth (tick_index lo range_val v) BreadthVisualizer.ticks EmptyString.

(** Five scores of a week. *)
Definition week_scores : list Q :=
  [2 # 10; - (1 # 10); 45 # 100; 3 # 10; 62 # 100].

(** Three scores whose middle one falls just short of the second tick in
    float arithmetic. *)
Definition close_scores : list Q :=
  [- (3 # 10); - (275 # 1000); - (125 # 1000)].

Definition previous_evening : datetime :=
  {| year := 2026; month := 11; day := 2; hour := 16; minute := 5; second := 0 |}.

(** * Properties *)

(** ** Comparisons *)

Lemma Qltb_lt (x y : Q) : (x <? y) = true <-> x < y.
Proof.
  unfold Qltb. rewrite negb_true_iff, <- not_true_iff_false, Qle_bool_iff.
  split; intro H; [apply Qnot_le_lt | apply Qlt_not_le]; exact H.
Qed.

Lemma Qgtb_gt (x y : Q) : (x >? y) = true <-> y < x.
Proof. apply Qltb_lt. Qed.

Lemma Qleb_le (x y : Q) : (x <=? y) = true <-> x <= y.
Proof. apply Qle_bool_iff. Qed.

Lemma Qgeb_ge (x y : Q) : (x >=? y) = true <-> y <= x.
Proof. apply Qle_bool_iff. Qed.

Lemma Qltb_reflect (x y : Q) : reflect (x < y) (x <? y).
Proof. apply iff_reflect. symmetry. apply Qltb_lt. Qed.

Lemma Qleb_reflect (x y : Q) : reflect (x <= y) (Qle_bool x y).
Proof. apply iff_reflect. symmetry. apply Qle_bool_iff. Qed.

(** Case analysis on every comparison of the goal, closed by [lra]. *)
Ltac by_comparisons :=
  unfold Qgtb, Qgeb, Qleb in *;
  repeat match goal with
  | |- context [Qltb ?x ?y] => destruct (Qltb_reflect x y)
  | |- context [Qle_bool ?x ?y] => destruct (Qleb_reflect x y)
  | H : context [Qltb ?x ?y] |- _ => destruct (Qltb_reflect x y)
  | H : context [Qle_bool ?x ?y] |- _ => destruct (Qleb_reflect x y)
  end;
  simpl in *; try reflexivity; try discriminate; try tauto; try lra.

(** ** Classifier *)

Lemma classify_row (q : Quote) :
  BreadthAnalyzer.classify_stocks [q] =
  [{| quote := q; category := classifier_rule (pct_change q) (volume_ratio q) |}].
Proof.
  unfold BreadthAnalyzer.classify_stocks, BreadthAnalyzer.loc_set_category,
    BreadthAnalyzer.strong_bull_mask, BreadthAnalyzer.weak_bull_mask,
    BreadthAnalyzer.strong_bear_mask, BreadthAnalyzer.weak_bear_mask,
    classifier_rule, Thresholds.STRONG_MOVE, Thresholds.VOLUME_MULTIPLIER.
  cbn [map quote category]. by_comparisons.
Qed.

Lemma classify_stocks_cons (q : Quote) (df : list Quote) :
  BreadthAnalyzer.classify_stocks (q :: df) =
  BreadthAnalyzer.classify_stocks [q] ++ BreadthAnalyzer.classify_stocks df.
Proof. reflexivity. Qed.

Lemma classify_stocks_map (df : list Quote) :
  BreadthAnalyzer.classify_stocks df =
  map (fun q => {| quote := q;
                   category := classifier_rule (pct_change q) (volume_ratio q) |}) df.
Proof.
  induction df as [|q df IH]; [reflexivity|].
  rewrite classify_stocks_cons, classify_row, IH. reflexivity.
Qed.

Lemma classifier_rule_compat (pc pc' vr vr' : Q) :
  pc == pc' -> vr == vr' -> classifier_rule pc vr = classifier_rule pc' vr'.
Proof.
  intros Hp Hv.
  unfold classifier_rule, Thresholds.STRONG_MOVE, Thresholds.VOLUME_MULTIPLIER.
  by_comparisons.
Qed.

(** C1.  [classify_stocks] gives every quote exactly one category, the one
    the first-match rule over strict comparisons selects: the classified
    table is the input table with the column [classifier_rule] computes.  A
    quote whose [pct_change] equals [STRONG_MOVE] or [-STRONG_MOVE] is
    [Neutral] whatever its volume ratio, and two quotes with equal
    [(pct_change, volume_ratio)] receive the same category. *)
Theorem classify_stocks_first_match :
  (forall df : list Quote,
     BreadthAnalyzer.classify_stocks df =
     map (fun q => {| quote := q;
                      category := classifier_rule (pct_change q) (volume_ratio q) |}) df)
  /\ (forall q : Quote,
        pct_change q == Thresholds.STRONG_MOVE
        \/ pct_change q == - Thresholds.STRONG_MOVE ->
        BreadthAnalyzer.classify_stocks [q] = [{| quote := q; category := Neutral |}])
  /\ (forall q1 q2 : Quote,
        pct_change q1 == pct_change q2 ->
        volume_ratio q1 == volume_ratio q2 ->
        map category (BreadthAnalyzer.classify_stocks [q1]) =
        map category (BreadthAnalyzer.classify_stocks [q2])).
Proof.
  split; [exact classify_stocks_map | split].
  - intros q Hq. rewrite classify_row. do 2 f_equal.
    unfold classifier_rule, Thresholds.STRONG_MOVE, Thresholds.VOLUME_MULTIPLIER in *.
    destruct Hq; by_comparisons.
  - intros q1 q2 Hp Hv. rewrite !classify_row. simpl.
    f_equal. apply classifier_rule_compat; assumption.
Qed.

Lemma classify_stocks_first_match_witness :
  BreadthAnalyzer.classify_stocks [sample_quote "RELIANCE" 2 (3 # 2)] =
    [{| quote := sample_quote "RELIANCE" 2 (3 # 2); category := Neutral |}]
  /\ map category (BreadthAnalyzer.classify_stocks [sample_quote "TCS" (6 # 2) 2]) =
     map category (BreadthAnalyzer.classify_stocks [sample_quote "INFY" 3 (4 # 2)]).
Proof.
  split.
  - apply (proj1 (proj2 classify_stocks_first_match)). left. reflexivity.
  - apply (proj2 (proj2 classify_stocks_first_match)); reflexivity.
Defined.

(** ** Rounding *)

(** *** Powers of two *)

Lemma pow2_pos (e : Z) : 0 < pow2 e.
Proof. apply Qpower_0_lt. reflexivity. Qed.

Lemma pow2_plus (a b : Z) : pow2 (a + b) == pow2 a * pow2 b.
Proof. apply Qpower_plus. discriminate. Qed.

Lemma pow2_le (a b : Z) : (a <= b)%Z -> pow2 a <= pow2 b.
Proof. intro H. apply Qpower_le_compat_l; [exact H | discriminate]. Qed.

Lemma pow2_lt (a b : Z) : (a < b)%Z -> pow2 a < pow2 b.
Proof. intro H. apply Qpower_lt_compat_l; [exact H | reflexivity]. Qed.

Lemma pow2_lt_inv (a b : Z) : pow2 a < pow2 b -> (a < b)%Z.
Proof. intro H. apply (Qpower_lt_compat_l_inv 2); [exact H | reflexivity]. Qed.

Lemma pow2_Z (e : Z) : (0 <= e)%Z -> pow2 e == inject_Z (2 ^ e).
Proof. intro H. unfold pow2. rewrite Zpower_Qpower by exact H. reflexivity. Qed.

Lemma pow2_succ (e : Z) : pow2 (e + 1) == 2 * pow2 e.
Proof. rewrite pow2_plus. change (pow2 1) with 2. ring. Qed.

Lemma ilog2_spec (x : Q) :
  0 < x -> pow2 (ilog2 x) <= x /\ x < pow2 (ilog2 x + 1).
Proof.
  intro Hx. destruct x as [n d].
  assert (Hn : (0 < n)%Z).
  { unfold Qlt in Hx. simpl in Hx. lia. }
  pose proof (Z.log2_spec n Hn) as [Hn1 Hn2].
  pose proof (Z.log2_spec (Zpos d) (Pos2Z.is_pos d)) as [Hd1 Hd2].
  pose proof (Z.log2_nonneg n) as Ha.
  pose proof (Z.log2_nonneg (Zpos d)) as Hb.
  set (a := Z.log2 n) in *. set (b := Z.log2 (Zpos d)) in *.
  assert (Ex : (n # d) * inject_Z (Zpos d) == inject_Z n).
  { unfold Qeq. simpl. lia. }
  assert (Hdpos : 0 < inject_Z (Zpos d)).
  { change 0 with (inject_Z 0). rewrite <- Zlt_Qlt. lia. }
  assert (Qn1 : pow2 a <= inject_Z n).
  { rewrite pow2_Z by exact Ha. rewrite <- Zle_Qle. exact Hn1. }
  assert (Qn2 : inject_Z n < pow2 (a + 1)).
  { rewrite pow2_Z by lia. rewrite <- Zlt_Qlt. exact Hn2. }
  assert (Qd1 : pow2 b <= inject_Z (Zpos d)).
  { rewrite pow2_Z by exact Hb. rewrite <- Zle_Qle. exact Hd1. }
  assert (Qd2 : inject_Z (Zpos d) < pow2 (b + 1)).
  { rewrite pow2_Z by lia. rewrite <- Zlt_Qlt. exact Hd2. }
  assert (Hlow : pow2 (a - b - 1) < n # d).
  { apply Qmult_lt_r with (inject_Z (Zpos d)); [exact Hdpos|].
    rewrite Ex.
    apply Qlt_le_trans with (pow2 (a - b - 1) * pow2 (b + 1)).
    - apply Qmult_lt_l; [apply pow2_pos | exact Qd2].
    - rewrite <- pow2_plus. replace (a - b - 1 + (b + 1))%Z with a by lia.
      exact Qn1. }
  assert (Hup : n # d < pow2 (a - b + 1)).
  { apply Qmult_lt_r with (inject_Z (Zpos d)); [exact Hdpos|].
    rewrite Ex.
    apply Qlt_le_trans with (pow2 (a + 1)); [exact Qn2|].
    replace (a + 1)%Z with (a - b + 1 + b)%Z by lia.
    rewrite pow2_plus.
    apply Qmult_le_l; [apply pow2_pos | exact Qd1]. }
  unfold ilog2. cbn [Qnum Qden]. fold a. fold b.
  destruct (Qle_bool (pow2 (a - b)) (n # d)) eqn:E.
  - split; [apply Qle_bool_iff; exact E | exact Hup].
  - split; [apply Qlt_le_weak; exact Hlow|].
    replace (a - b - 1 + 1)%Z with (a - b)%Z by lia.
    apply Qnot_le_lt. intro H. apply Qle_bool_iff in H. congruence.
Qed.

Lemma ilog2_unique (x : Q) (k : Z) :
  pow2 k <= x -> x < pow2 (k + 1) -> ilog2 x = k.
Proof.
  intros H1 H2.
  assert (Hx : 0 < x) by (pose proof (pow2_pos k); lra).
  destruct (ilog2_spec x Hx) as [S1 S2].
  assert (k < ilog2 x + 1)%Z by (apply pow2_lt_inv; lra).
  assert (ilog2 x < k + 1)%Z by (apply pow2_lt_inv; lra).
  lia.
Qed.

Lemma ilog2_compat (x y : Q) : 0 < x -> x == y -> ilog2 x = ilog2 y.
Proof.
  intros Hx E. destruct (ilog2_spec y) as [S1 S2]; [lra|].
  apply ilog2_unique; lra.
Qed.

Lemma ilog2_mono (x y : Q) : 0 < x -> x <= y -> (ilog2 x <= ilog2 y)%Z.
Proof.
  intros Hx Hxy.
  destruct (ilog2_spec x Hx) as [X1 X2].
  destruct (ilog2_spec y) as [Y1 Y2]; [lra|].
  assert (ilog2 x < ilog2 y + 1)%Z by (apply pow2_lt_inv; lra).
  lia.
Qed.

Lemma ilog2_le (x : Q) (j : Z) : 0 < x -> x <= pow2 j -> (ilog2 x <= j)%Z.
Proof.
  intros Hx Hj. destruct (ilog2_spec x Hx) as [X1 X2].
  destruct (Z_le_gt_dec (ilog2 x) j) as [H|H]; [exact H|].
  exfalso. assert (pow2 j < pow2 (ilog2 x)) by (apply pow2_lt; lia).
  pose proof (pow2_le (j + 1) (ilog2 x) ltac:(lia)).
  assert (x < pow2 (ilog2 x)); [|lra].
  destruct (Qle_lt_or_eq _ _ Hj) as [Hlt|Heq]; [lra|].
  (* x == pow2 j: then ilog2 x = j *)
  assert (ilog2 x = j); [|lia].
  apply ilog2_unique; [lra|]. rewrite Heq. apply pow2_lt. lia.
Qed.

Lemma round_half_even_near (x : Q) :
  inject_Z (round_half_even x) - (1 # 2) <= x
  /\ x <= inject_Z (round_half_even x) + (1 # 2).
Proof.
  unfold round_half_even.
  pose proof (Qfloor_le x) as Hf. pose proof (Qlt_floor x) as Hc.
  rewrite inject_Z_plus in Hc. change (inject_Z 1) with 1 in Hc.
  destruct (Qcompare_spec (x - inject_Z (Qfloor x)) (1 # 2)) as [He|Hl|Hg].
  - destruct (Z.even (Qfloor x)).
    + lra.
    + rewrite inject_Z_plus. change (inject_Z 1) with 1. lra.
  - lra.
  - rewrite inject_Z_plus. change (inject_Z 1) with 1. lra.
Qed.

Lemma round_half_even_within (x : Q) (k : Z) :
  inject_Z k - (1 # 2) < x -> x < inject_Z k + (1 # 2) ->
  round_half_even x = k.
Proof.
  intros H1 H2. destruct (round_half_even_near x) as [N1 N2].
  set (m := round_half_even x) in *.
  assert (A : inject_Z m < inject_Z k + 1) by lra.
  assert (B : inject_Z k < inject_Z m + 1) by lra.
  change 1 with (inject_Z 1) in A, B.
  rewrite <- inject_Z_plus in A, B. rewrite <- Zlt_Qlt in A, B. lia.
Qed.

Lemma round_half_even_mono (x y : Q) :
  x <= y -> (round_half_even x <= round_half_even y)%Z.
Proof.
  intro Hxy.
  destruct (Z_lt_le_dec (Qfloor x) (Qfloor y)) as [Hlt|Hge].
  - apply Z.le_trans with (Qfloor x + 1)%Z.
    + unfold round_half_even.
      destruct (Qcompare (x - inject_Z (Qfloor x)) (1 # 2));
        [destruct (Z.even (Qfloor x))| |]; lia.
    + apply Z.le_trans with (Qfloor y); [lia|].
      unfold round_half_even.
      destruct (Qcompare (y - inject_Z (Qfloor y)) (1 # 2));
        [destruct (Z.even (Qfloor y))| |]; lia.
  - assert (E : Qfloor x = Qfloor y).
    { pose proof (Qfloor_resp_le x y Hxy). lia. }
    unfold round_half_even. rewrite E.
    destruct (Qcompare_spec (x - inject_Z (Qfloor y)) (1 # 2)) as [He|Hl|Hg];
      destruct (Qcompare_spec (y - inject_Z (Qfloor y)) (1 # 2)) as [He'|Hl'|Hg'];
      try destruct (Z.even (Qfloor y)); try lia; lra.
Qed.

Lemma round_half_even_le (x : Q) (k : Z) :
  x <= inject_Z k -> (round_half_even x <= k)%Z.
Proof.
  intro Hx. unfold round_half_even.
  pose proof (Qfloor_le x) as Hf.
  assert (Hlow : (Qfloor x <= k)%Z).
  { rewrite Zle_Qle. apply Qle_trans with x; assumption. }
  assert (Hup : inject_Z (Qfloor x) < x -> (Qfloor x + 1 <= k)%Z).
  { intro Hlt. assert (Qfloor x < k)%Z; [|lia].
    rewrite Zlt_Qlt. apply Qlt_le_trans with x; assumption. }
  destruct (Qcompare_spec (x - inject_Z (Qfloor x)) (1 # 2)) as [He|Hl|Hg].
  - destruct (Z.even (Qfloor x)); [assumption|]. apply Hup. lra.
  - assumption.
  - apply Hup. lra.
Qed.

Lemma round_half_even_ge (x : Q) (k : Z) :
  inject_Z k <= x -> (k <= round_half_even x)%Z.
Proof.
  intro Hx. unfold round_half_even.
  pose proof (Qlt_floor x) as Hf.
  assert (Hlow : (k <= Qfloor x)%Z).
  { assert (k < Qfloor x + 1)%Z; [|lia].
    rewrite Zlt_Qlt. apply Qle_lt_trans with x; assumption. }
  destruct (Qcompare (x - inject_Z (Qfloor x)) (1 # 2));
    [destruct (Z.even (Qfloor x))| |]; lia.
Qed.

Lemma round_half_even_compat (x y : Q) :
  x == y -> round_half_even x = round_half_even y.
Proof.
  intro H. apply Z.le_antisymm; apply round_half_even_mono; lra.
Qed.

Lemma round_half_even_Z (k : Z) : round_half_even (inject_Z k) = k.
Proof. apply round_half_even_within; lra. Qed.

(** *** Rounding to a multiple of a power of two *)

Lemma round_to_exponent_compat (e : Z) (x y : Q) :
  x == y -> round_to_exponent e x == round_to_exponent e y.
Proof.
  intro H. unfold round_to_exponent.
  rewrite (round_half_even_compat (x / pow2 e) (y / pow2 e)); [reflexivity|].
  rewrite H. reflexivity.
Qed.

Lemma div_pow2_le (e : Z) (x y : Q) : x <= y -> x / pow2 e <= y / pow2 e.
Proof.
  intro H. pose proof (pow2_pos e) as Hp.
  apply Qle_shift_div_l; [exact Hp|].
  setoid_replace (x / pow2 e * pow2 e) with x by (field; lra). exact H.
Qed.

Lemma round_to_exponent_mono (e : Z) (x y : Q) :
  x <= y -> round_to_exponent e x <= round_to_exponent e y.
Proof.
  intro H. unfold round_to_exponent. pose proof (pow2_pos e) as Hp.
  apply Qmult_le_compat_r; [|lra].
  rewrite <- Zle_Qle. apply round_half_even_mono, div_pow2_le, H.
Qed.

Lemma pow2_quotient (e j : Z) :
  (e <= j)%Z -> pow2 j / pow2 e == inject_Z (2 ^ (j - e)).
Proof.
  intro H. rewrite <- pow2_Z by lia. pose proof (pow2_pos e).
  replace j with (j - e + e)%Z at 1 by lia. rewrite pow2_plus. field. lra.
Qed.

Lemma round_to_exponent_pow2 (e j : Z) :
  (e <= j)%Z -> round_to_exponent e (pow2 j) == pow2 j.
Proof.
  intro H. unfold round_to_exponent.
  rewrite (round_half_even_compat _ _ (pow2_quotient e j H)), round_half_even_Z.
  rewrite <- pow2_quotient by exact H. pose proof (pow2_pos e). field. lra.
Qed.

Lemma round_to_exponent_le_pow2 (e j : Z) (x : Q) :
  (e <= j)%Z -> x <= pow2 j -> round_to_exponent e x <= pow2 j.
Proof.
  intros He Hx. rewrite <- (round_to_exponent_pow2 e j He).
  apply round_to_exponent_mono, Hx.
Qed.

Lemma round_to_exponent_ge_pow2 (e j : Z) (x : Q) :
  (e <= j)%Z -> pow2 j <= x -> pow2 j <= round_to_exponent e x.
Proof.
  intros He Hx. rewrite <- (round_to_exponent_pow2 e j He) at 1.
  apply round_to_exponent_mono, Hx.
Qed.

Lemma round_to_exponent_0 (e : Z) (x : Q) : x == 0 -> round_to_exponent e x == 0.
Proof.
  intro H. unfold round_to_exponent.
  rewrite (round_half_even_compat _ 0); [reflexivity|].
  rewrite H. unfold Qdiv. ring.
Qed.

Lemma round_to_exponent_nonneg (e : Z) (x : Q) :
  0 <= x -> 0 <= round_to_exponent e x.
Proof.
  intro H. rewrite <- (round_to_exponent_0 e 0) by reflexivity.
  apply round_to_exponent_mono, H.
Qed.

Lemma round_to_exponent_near (e : Z) (x : Q) :
  round_to_exponent e x - pow2 (e - 1) <= x
  /\ x <= round_to_exponent e x + pow2 (e - 1).
Proof.
  unfold round_to_exponent. pose proof (pow2_pos e) as Hp.
  destruct (round_half_even_near (x / pow2 e)) as [N1 N2].
  set (m := inject_Z (round_half_even (x / pow2 e))) in *.
  assert (Eh : pow2 (e - 1) == (1 # 2) * pow2 e).
  { assert (E := pow2_succ (e - 1)). replace (e - 1 + 1)%Z with e in E by lia.
    lra. }
  assert (Ex : x == x / pow2 e * pow2 e) by (field; lra).
  assert (A : (m - (1 # 2)) * pow2 e <= x / pow2 e * pow2 e)
    by (apply Qmult_le_compat_r; lra).
  assert (B : x / pow2 e * pow2 e <= (m + (1 # 2)) * pow2 e)
    by (apply Qmult_le_compat_r; lra).
  rewrite <- Ex in A, B. rewrite Eh. split; lra.
Qed.

(** A multiple of [pow2 e'] with [e <= e'] is kept. *)
Lemma round_to_exponent_exact (e e' : Z) (m : Z) (x : Q) :
  (e <= e')%Z -> x == inject_Z m * pow2 e' -> round_to_exponent e x == x.
Proof.
  intros He Hx. unfold round_to_exponent. pose proof (pow2_pos e) as Hp.
  assert (E : x / pow2 e == inject_Z (m * 2 ^ (e' - e))).
  { rewrite inject_Z_mult, <- pow2_quotient by exact He. rewrite Hx. field. lra. }
  rewrite (round_half_even_compat _ _ E), round_half_even_Z, <- E. field. lra.
Qed.

(** *** The nearest float *)

Lemma binary64_pos (x : Q) :
  0 < x -> binary64 x = round_to_exponent (exponent x) x.
Proof.
  intro H. unfold binary64.
  destruct (Qcompare_spec x 0); [lra | lra | reflexivity].
Qed.

Lemma binary64_neg (x : Q) :
  x < 0 -> binary64 x = - round_to_exponent (exponent (- x)) (- x).
Proof.
  intro H. unfold binary64.
  destruct (Qcompare_spec x 0); [lra | reflexivity | lra].
Qed.

Lemma binary64_zero (x : Q) : x == 0 -> binary64 x = 0.
Proof.
  intro H. unfold binary64.
  destruct (Qcompare_spec x 0); [reflexivity | lra | lra].
Qed.

Lemma exponent_compat (x y : Q) : 0 < x -> x == y -> exponent x = exponent y.
Proof. intros Hx E. unfold exponent. rewrite (ilog2_compat x y Hx E). reflexivity. Qed.

Lemma binary64_compat (x y : Q) : x == y -> binary64 x == binary64 y.
Proof.
  intro E. destruct (Qlt_le_dec 0 x) as [Hp|Hn].
  - rewrite !binary64_pos by lra. rewrite (exponent_compat x y Hp E).
    apply round_to_exponent_compat, E.
  - destruct (Qle_lt_or_eq _ _ Hn) as [Hlt|Hz].
    + rewrite !binary64_neg by lra.
      rewrite (exponent_compat (- x) (- y)) by lra.
      rewrite (round_to_exponent_compat _ (- x) (- y)) by lra. reflexivity.
    + rewrite !binary64_zero by lra. reflexivity.
Qed.

Lemma binary64_opp (x : Q) : binary64 (- x) == - binary64 x.
Proof.
  destruct (Qlt_le_dec 0 x) as [Hp|Hn].
  - rewrite binary64_neg by lra. rewrite (binary64_pos x Hp).
    rewrite (exponent_compat (- - x) x) by lra.
    rewrite (round_to_exponent_compat _ (- - x) x) by lra. reflexivity.
  - destruct (Qle_lt_or_eq _ _ Hn) as [Hlt|Hz].
    + rewrite binary64_pos by lra. rewrite (binary64_neg x Hlt). ring.
    + rewrite !binary64_zero by lra. reflexivity.
Qed.

Lemma binary64_nonneg (x : Q) : 0 <= x -> 0 <= binary64 x.
Proof.
  intro H. destruct (Qle_lt_or_eq _ _ H) as [Hlt|Hz].
  - rewrite binary64_pos by exact Hlt. apply round_to_exponent_nonneg, H.
  - rewrite binary64_zero by lra. lra.
Qed.

Lemma binary64_mono_pos (x y : Q) :
  0 < x -> x <= y -> binary64 x <= binary64 y.
Proof.
  intros Hx Hxy. rewrite !binary64_pos by lra.
  pose proof (ilog2_mono x y Hx Hxy) as Hk.
  destruct (ilog2_spec x Hx) as [X1 X2].
  destruct (ilog2_spec y) as [Y1 Y2]; [lra|].
  unfold exponent.
  destruct (Z.eq_dec (Z.max (ilog2 x - 52) (-1074)) (Z.max (ilog2 y - 52) (-1074)))
    as [E|N].
  - rewrite E. apply round_to_exponent_mono, Hxy.
  - apply Qle_trans with (pow2 (ilog2 y)).
    + apply round_to_exponent_le_pow2; [lia|].
      apply Qle_trans with (pow2 (ilog2 x + 1)); [lra|].
      apply pow2_le. lia.
    + apply round_to_exponent_ge_pow2; [lia | exact Y1].
Qed.

Lemma binary64_mono (x y : Q) : x <= y -> binary64 x <= binary64 y.
Proof.
  intro Hxy. destruct (Qlt_le_dec 0 x) as [Hp|Hn].
  - apply binary64_mono_pos; assumption.
  - destruct (Qlt_le_dec y 0) as [Hy|Hy].
    + assert (H : binary64 (- y) <= binary64 (- x))
        by (apply binary64_mono_pos; lra).
      rewrite !binary64_opp in H. lra.
    + apply Qle_trans with 0; [|apply binary64_nonneg, Hy].
      assert (H : 0 <= binary64 (- x)) by (apply binary64_nonneg; lra).
      rewrite binary64_opp in H. lra.
Qed.

(** A number that is a float already is kept. *)
Lemma binary64_idempotent (x : Q) : binary64 (binary64 x) == binary64 x.
Proof.
  assert (Hpos : forall x, 0 < x -> binary64 (binary64 x) == binary64 x).
  { clear x. intros x Hx. rewrite (binary64_pos x Hx).
    set (e := exponent x). set (y := round_to_exponent e x).
    assert (Hy : 0 <= y) by (apply round_to_exponent_nonneg; lra).
    destruct (Qle_lt_or_eq _ _ Hy) as [Hlt|Hz];
      [|rewrite binary64_zero by lra; lra].
    rewrite (binary64_pos y Hlt).
    destruct (ilog2_spec x Hx) as [X1 X2].
    destruct (ilog2_spec y Hlt) as [Y1 Y2].
    destruct (Z_le_gt_dec (exponent y) e) as [Hle|Hgt].
    - apply (round_to_exponent_exact _ e (round_half_even (x / pow2 e))).
      + exact Hle.
      + reflexivity.
    - assert (He : (e <= ilog2 x + 1)%Z).
      { destruct (Z_le_gt_dec e (ilog2 x + 1)) as [H|H]; [exact H|].
        exfalso. assert (Hsmall : x / pow2 e < 1 # 2).
        { pose proof (pow2_pos e) as Hp.
          apply Qlt_shift_div_r; [exact Hp|].
          assert (E := pow2_succ (e - 1)).
          replace (e - 1 + 1)%Z with e in E by lia.
          pose proof (pow2_le (ilog2 x + 1) (e - 1) ltac:(lia)). lra. }
        assert (H0 : round_half_even (x / pow2 e) = 0%Z).
        { apply round_half_even_within; change (inject_Z 0) with 0.
          - pose proof (pow2_pos e) as Hp.
            assert (0 < x / pow2 e) by (apply Qlt_shift_div_l; lra). lra.
          - lra. }
        unfold y, round_to_exponent in Hlt. rewrite H0 in Hlt.
        change (inject_Z 0) with 0 in Hlt. lra. }
      assert (Hup : y <= pow2 (ilog2 x + 1)).
      { apply round_to_exponent_le_pow2; [exact He | lra]. }
      assert (Hky : (ilog2 y <= ilog2 x + 1)%Z) by (apply ilog2_le; assumption).
      unfold exponent in Hgt. fold e in Hgt. unfold e, exponent in Hgt, He.
      assert (Ek : ilog2 y = (ilog2 x + 1)%Z) by lia.
      assert (Ey : y == pow2 (ilog2 x + 1)).
      { rewrite Ek in Y1. lra. }
      apply Qeq_trans with (round_to_exponent (exponent y) (pow2 (ilog2 x + 1)));
        [apply round_to_exponent_compat, Ey|].
      apply Qeq_trans with (pow2 (ilog2 x + 1)); [|symmetry; exact Ey].
      apply round_to_exponent_pow2. unfold exponent. rewrite Ek. lia. }
  destruct (Qlt_le_dec 0 x) as [Hp|Hn]; [apply Hpos, Hp|].
  destruct (Qle_lt_or_eq _ _ Hn) as [Hlt|Hz].
  - assert (H := Hpos (- x) ltac:(lra)).
    rewrite (binary64_compat (binary64 (- x)) (- binary64 x) (binary64_opp x)) in H.
    rewrite !binary64_opp in H. lra.
  - rewrite (binary64_zero x) by lra. reflexivity.
Qed.

(** Half a unit in the last place bounds the error. *)
Lemma binary64_near (x : Q) (j : Z) :
  (-1022 <= j)%Z -> - pow2 j <= x -> x <= pow2 j ->
  binary64 x - pow2 (j - 53) <= x /\ x <= binary64 x + pow2 (j - 53).
Proof.
  intros Hj Hlo Hhi.
  assert (Hpos : forall x, 0 < x -> x <= pow2 j ->
            binary64 x - pow2 (j - 53) <= x /\ x <= binary64 x + pow2 (j - 53)).
  { clear x Hlo Hhi. intros x Hx Hhi. rewrite (binary64_pos x Hx).
    pose proof (ilog2_le x j Hx Hhi) as Hk.
    destruct (round_to_exponent_near (exponent x) x) as [N1 N2].
    pose proof (pow2_le (exponent x - 1) (j - 53)
                  ltac:(unfold exponent; lia)) as Hp.
    split; lra. }
  destruct (Qlt_le_dec 0 x) as [Hp|Hn]; [apply Hpos; assumption|].
  destruct (Qle_lt_or_eq _ _ Hn) as [Hlt|Hz].
  - destruct (Hpos (- x) ltac:(lra) ltac:(lra)) as [A B].
    rewrite binary64_opp in A, B. split; lra.
  - rewrite (binary64_zero x) by lra. pose proof (pow2_pos (j - 53)). split; lra.
Qed.

(** Integers and bounds that are floats are not crossed. *)
Lemma binary64_between (lo hi x : Q) :
  binary64 lo == lo -> binary64 hi == hi -> lo <= x <= hi ->
  lo <= binary64 x <= hi.
Proof.
  intros Hlo Hhi [H1 H2]. split.
  - rewrite <- Hlo. apply binary64_mono, H1.
  - rewrite <- Hhi. apply binary64_mono, H2.
Qed.

Lemma binary64_Z (z : Z) :
  (Z.abs z < 2 ^ 53)%Z -> binary64 (inject_Z z) == inject_Z z.
Proof.
  assert (Hpos : forall z : Z, (0 < z < 2 ^ 53)%Z ->
            binary64 (inject_Z z) == inject_Z z).
  { clear z. intros z [Hz Hb].
    assert (Hq : 0 < inject_Z z).
    { change 0 with (inject_Z 0). rewrite <- Zlt_Qlt. exact Hz. }
    rewrite (binary64_pos _ Hq).
    apply (round_to_exponent_exact _ 0 z).
    - destruct (ilog2_spec _ Hq) as [S1 _].
      assert (Hlt : inject_Z z < pow2 53).
      { rewrite pow2_Z by lia. rewrite <- Zlt_Qlt. exact Hb. }
      assert (ilog2 (inject_Z z) < 53)%Z by (apply pow2_lt_inv; lra).
      unfold exponent. lia.
    - change (pow2 0) with 1. ring. }
  intro Hz. destruct (Z.lt_trichotomy z 0) as [Hn|[->|Hp]].
  - assert (E : inject_Z z == - inject_Z (- z)) by (rewrite inject_Z_opp; ring).
    rewrite (binary64_compat _ _ E), binary64_opp, Hpos by lia.
    symmetry. exact E.
  - reflexivity.
  - apply Hpos. lia.
Qed.

(** *** Rounding to decimals *)

Lemma pow10_pos (n : nat) : 0 < pow10 n.
Proof.
  unfold pow10. change 0 with (inject_Z 0). rewrite <- Zlt_Qlt.
  apply Z.pow_pos_nonneg; lia.
Qed.

(** Rounding to [n] decimals never crosses a number with [n] decimals. *)
Lemma round_decimal_bounds (a b : Z) (x : Q) (n : nat) :
  inject_Z a / pow10 n <= x <= inject_Z b / pow10 n ->
  inject_Z a / pow10 n <= round_decimal x n <= inject_Z b / pow10 n.
Proof.
  intros [Ha Hb]. pose proof (pow10_pos n) as Hp.
  assert (Hne : ~ pow10 n == 0) by lra.
  assert (E : forall z : Z, inject_Z z / pow10 n * pow10 n == inject_Z z).
  { intro z. field. assumption. }
  unfold round_decimal. split.
  - apply Qle_shift_div_l; [assumption|].
    rewrite E, <- Zle_Qle. apply round_half_even_ge.
    rewrite <- E. apply Qmult_le_compat_r; [assumption | lra].
  - apply Qle_shift_div_r; [assumption|].
    rewrite E, <- Zle_Qle. apply round_half_even_le.
    rewrite <- E. apply Qmult_le_compat_r; [assumption | lra].
Qed.

Lemma round_decimal_between (lo hi : Z) (x : Q) (n : nat) :
  inject_Z lo <= x <= inject_Z hi ->
  inject_Z lo <= round_decimal x n <= inject_Z hi.
Proof.
  intros [Hlo Hhi]. pose proof (pow10_pos n) as Hp.
  assert (E : forall z : Z,
             inject_Z z == inject_Z (z * 10 ^ Z.of_nat n) / pow10 n).
  { intro z. rewrite inject_Z_mult. fold (pow10 n). field. lra. }
  destruct (round_decimal_bounds (lo * 10 ^ Z.of_nat n) (hi * 10 ^ Z.of_nat n) x n)
    as [A B].
  { rewrite <- !E. split; assumption. }
  rewrite <- E in A. rewrite <- E in B. split; assumption.
Qed.

(** The rounded decimal is within half a unit of its last place. *)
Lemma round_decimal_near (x : Q) (n : nat) :
  round_decimal x n - (1 # 2) / pow10 n <= x
  /\ x <= round_decimal x n + (1 # 2) / pow10 n.
Proof.
  pose proof (pow10_pos n) as Hp. unfold round_decimal.
  destruct (round_half_even_near (x * pow10 n)) as [N1 N2].
  set (m := inject_Z (round_half_even (x * pow10 n))) in *.
  assert (A : (m - (1 # 2)) / pow10 n <= x)
    by (apply Qle_shift_div_r; assumption).
  assert (B : x <= (m + (1 # 2)) / pow10 n)
    by (apply Qle_shift_div_l; assumption).
  assert (E1 : (m - (1 # 2)) / pow10 n == m / pow10 n - (1 # 2) / pow10 n)
    by (field; lra).
  assert (E2 : (m + (1 # 2)) / pow10 n == m / pow10 n + (1 # 2) / pow10 n)
    by (field; lra).
  rewrite E1 in A. rewrite E2 in B. split; assumption.
Qed.

(** *** [round] *)

Lemma py_round_compat (x y : Q) (n : nat) : x == y -> py_round x n = py_round y n.
Proof.
  intro H. unfold py_round, round_decimal. f_equal. f_equal.
  apply round_half_even_compat. rewrite (binary64_compat x y H). reflexivity.
Qed.

(** [round] never crosses a whole number that is a float. *)
Lemma py_round_between (lo hi : Z) (x : Q) (n : nat) :
  (Z.abs lo < 2 ^ 53)%Z -> (Z.abs hi < 2 ^ 53)%Z ->
  inject_Z lo <= x <= inject_Z hi ->
  inject_Z lo <= py_round x n <= inject_Z hi.
Proof.
  intros Hl Hh Hx. unfold py_round. apply round_decimal_between.
  apply binary64_between; [apply binary64_Z, Hl | apply binary64_Z, Hh | exact Hx].
Qed.

(** The float nearest to 1/80 lies above 0.0125 and the one nearest to 3/80
    below 0.0375: [round] does not see a tie there, as the rounding of the
    exact quotients would. *)
Lemma py_round_of_quotients :
  py_round (1 # 80) 3 == 13 # 1000 /\ round_decimal (1 # 80) 3 == 12 # 1000
  /\ py_round (3 # 80) 3 == 37 # 1000 /\ round_decimal (3 # 80) 3 == 38 # 1000
  /\ py_round (1 # 40) 2 == 3 # 100 /\ py_round (3 # 40) 2 == 7 # 100
  /\ py_round (2 # 3) 3 == 667 # 1000 /\ py_round (1 # 8) 2 == 12 # 100.
Proof. repeat split. Qed.

Lemma py_round_nonneg (x : Q) (n : nat) : 0 <= x -> 0 <= py_round x n.
Proof.
  intro H. pose proof (pow10_pos n) as Hp. unfold py_round, round_decimal.
  apply Qle_shift_div_l; [exact Hp|]. rewrite Qmult_0_l.
  change 0 with (inject_Z 0). rewrite <- Zle_Qle. apply round_half_even_ge.
  change (inject_Z 0) with 0.
  apply Qmult_le_0_compat; [apply binary64_nonneg, H | lra].
Qed.

Ltac round_between lo hi :=
  apply (py_round_between lo hi); [reflexivity | reflexivity |].

(** The result of [round] is within half a unit of the last decimal place,
    and half a unit of the last binary place, of its argument. *)
Lemma py_round_near (x : Q) (n : nat) (j : Z) :
  (-1022 <= j)%Z -> - pow2 j <= x -> x <= pow2 j ->
  py_round x n - ((1 # 2) / pow10 n + pow2 (j - 53)) <= x
  /\ x <= py_round x n + ((1 # 2) / pow10 n + pow2 (j - 53)).
Proof.
  intros Hj Hlo Hhi. unfold py_round.
  destruct (binary64_near x j Hj Hlo Hhi) as [B1 B2].
  destruct (round_decimal_near (binary64 x) n) as [D1 D2].
  split; lra.
Qed.

(** Rounding a rounded number again changes nothing, as long as the
    decimal places are coarser than the binary ones. *)
Lemma py_round_idempotent (x : Q) (n : nat) (j : Z) :
  (-1022 <= j)%Z -> pow10 n * pow2 (j - 53) < 1 # 2 ->
  - pow2 j <= py_round x n <= pow2 j ->
  py_round (py_round x n) n = py_round x n.
Proof.
  intros Hj Hfine [Hlo Hhi]. pose proof (pow10_pos n) as Hp.
  destruct (binary64_near (py_round x n) j Hj Hlo Hhi) as [B1 B2].
  set (k := round_half_even (binary64 x * pow10 n)).
  assert (Hd : py_round x n = inject_Z k / pow10 n) by reflexivity.
  rewrite Hd in *. clear Hd.
  set (d := inject_Z k / pow10 n) in *.
  assert (Ek : d * pow10 n == inject_Z k) by (unfold d; field; lra).
  unfold py_round, round_decimal. fold d.
  set (y := binary64 d) in *.
  change (inject_Z (round_half_even (y * pow10 n)) / pow10 n
          = inject_Z k / pow10 n).
  f_equal. f_equal.
  assert (A : (y - pow2 (j - 53)) * pow10 n <= d * pow10 n)
    by (apply Qmult_le_compat_r; lra).
  assert (B : d * pow10 n <= (y + pow2 (j - 53)) * pow10 n)
    by (apply Qmult_le_compat_r; lra).
  apply round_half_even_within; lra.
Qed.

(** ** Breadth score *)

Lemma len_nonneg {A : Type} (l : list A) : (0 <= len l)%Z.
Proof. unfold len. lia. Qed.

Lemma len_cons {A : Type} (a : A) (l : list A) : len (a :: l) = (len l + 1)%Z.
Proof. unfold len. change (List.length (a :: l)) with (S (List.length l)). lia. Qed.

Lemma value_count_cons (c : Category) (r : Row) (rows : list Row) :
  BreadthAnalyzer.value_count c (r :: rows) =
  ((if Category_eqb (category r) c then 1 else 0)
   + BreadthAnalyzer.value_count c rows)%Z.
Proof.
  unfold BreadthAnalyzer.value_count. simpl filter.
  destruct (Category_eqb (category r) c); [rewrite len_cons|]; lia.
Qed.

Lemma value_count_nonneg (c : Category) (rows : list Row) :
  (0 <= BreadthAnalyzer.value_count c rows)%Z.
Proof. apply len_nonneg. Qed.

Lemma value_counts_total (rows : list Row) :
  (BreadthAnalyzer.value_count StrongBull rows
   + BreadthAnalyzer.value_count WeakBull rows
   + BreadthAnalyzer.value_count Neutral rows
   + BreadthAnalyzer.value_count WeakBear rows
   + BreadthAnalyzer.value_count StrongBear rows = len rows)%Z.
Proof.
  induction rows as [|r rows IH]; [reflexivity|].
  rewrite !value_count_cons, len_cons.
  destruct (category r); cbn [Category_eqb]; lia.
Qed.

Lemma value_count_all_neutral (c : Category) (rows : list Row) :
  (forall r, In r rows -> category r = Neutral) ->
  c <> Neutral -> BreadthAnalyzer.value_count c rows = 0%Z.
Proof.
  intros Hall Hc. induction rows as [|r rows IH]; [reflexivity|].
  rewrite value_count_cons, IH by (intros; apply Hall; right; assumption).
  rewrite (Hall r) by (left; reflexivity).
  destruct c; cbn [Category_eqb]; try reflexivity; congruence.
Qed.

Lemma numerator_bounds (rows : list Row) :
  (- 2 * len rows <= BreadthAnalyzer.numerator rows <= 2 * len rows)%Z.
Proof.
  unfold BreadthAnalyzer.numerator.
  pose proof (value_counts_total rows).
  pose proof (value_count_nonneg StrongBull rows).
  pose proof (value_count_nonneg WeakBull rows).
  pose proof (value_count_nonneg Neutral rows).
  pose proof (value_count_nonneg WeakBear rows).
  pose proof (value_count_nonneg StrongBear rows).
  lia.
Qed.

Lemma quotient_bounds (num den : Z) :
  (0 < den)%Z -> (- 2 * den <= num <= 2 * den)%Z ->
  inject_Z (- 2) <= inject_Z num / inject_Z den <= inject_Z 2.
Proof.
  intros Hden [Hlo Hhi].
  assert (Hd : 0 < inject_Z den).
  { change 0 with (inject_Z 0). rewrite <- Zlt_Qlt. assumption. }
  split.
  - apply Qle_shift_div_l; [assumption|].
    rewrite <- inject_Z_mult, <- Zle_Qle. assumption.
  - apply Qle_shift_div_r; [assumption|].
    rewrite <- inject_Z_mult, <- Zle_Qle. assumption.
Qed.

Lemma unrounded_score_bounds (rows : list Row) :
  inject_Z (- 2) <= BreadthAnalyzer.unrounded_score rows <= inject_Z 2.
Proof.
  unfold BreadthAnalyzer.unrounded_score.
  destruct (len rows >? 0)%Z eqn:Hpos.
  - apply quotient_bounds; [lia | apply numerator_bounds].
  - split; discriminate.
Qed.

(** The float quotient is within half a unit of its last binary place of
    the exact one, and [round] within half a thousandth of the float. *)
Lemma stored_score_near (rows : list Row) :
  let q := BreadthAnalyzer.unrounded_score rows in
  - ((1 # 2000) + pow2 (- 52)) <= py_round q 3 - q <= (1 # 2000) + pow2 (- 52).
Proof.
  intro q. destruct (unrounded_score_bounds rows) as [Hlo Hhi]. fold q in Hlo, Hhi.
  destruct (py_round_near q 3 1) as [N1 N2];
    [lia | exact Hlo | exact Hhi |].
  change (pow2 (1 - 53)) with (pow2 (- 52)) in N1, N2.
  assert (E : (1 # 2) / pow10 3 == 1 # 2000) by reflexivity.
  rewrite E in N1, N2. split; lra.
Qed.

(** C2, as the code has it.  The score of the snapshot is the weighted
    quotient (2 StrongBull + WeakBull - 2 StrongBear - WeakBear) / total,
    taken as 0 when the total is 0, as a float, rounded by [round] to three
    decimals: a whole number of thousandths within half a thousandth (and
    the rounding error 2^-52 of the float quotient) of the exact quotient.
    It lies in [-2, 2], is 0 for an all-Neutral table and for the empty
    table, and the total is the sum of the five category counts and the
    size of the table. *)
Theorem breadth_score_rounded_quotient (rows : list Row) :
  let bd := BreadthAnalyzer.calculate_breadth_score rows in
  let quotient :=
    if (BreadthAnalyzer.total bd =? 0)%Z then 0
    else inject_Z (2 * BreadthAnalyzer.strong_bulls bd
                   + 1 * BreadthAnalyzer.weak_bulls bd
                   - 2 * BreadthAnalyzer.strong_bears bd
                   - 1 * BreadthAnalyzer.weak_bears bd)
         / inject_Z (BreadthAnalyzer.total bd) in
  BreadthAnalyzer.score bd == py_round quotient 3
  /\ (exists thousandths : Z,
        BreadthAnalyzer.score bd == inject_Z thousandths / 1000)
  /\ - ((1 # 2000) + pow2 (- 52)) <= BreadthAnalyzer.score bd - quotient
       <= (1 # 2000) + pow2 (- 52)
  /\ - (2) <= BreadthAnalyzer.score bd <= 2
  /\ ((forall r, In r rows -> category r = Neutral) -> BreadthAnalyzer.score bd == 0)
  /\ BreadthAnalyzer.score (BreadthAnalyzer.calculate_breadth_score []) == 0
  /\ BreadthAnalyzer.total bd =
       (BreadthAnalyzer.strong_bulls bd + BreadthAnalyzer.weak_bulls bd
        + BreadthAnalyzer.neutral bd
        + BreadthAnalyzer.weak_bears bd + BreadthAnalyzer.strong_bears bd)%Z
  /\ BreadthAnalyzer.total bd = len rows.
Proof.
  intros bd quotient.
  assert (Hq : quotient == BreadthAnalyzer.unrounded_score rows).
  { unfold quotient, bd, BreadthAnalyzer.calculate_breadth_score.
    cbn [BreadthAnalyzer.total BreadthAnalyzer.strong_bulls
         BreadthAnalyzer.weak_bulls BreadthAnalyzer.strong_bears
         BreadthAnalyzer.weak_bears].
    unfold BreadthAnalyzer.unrounded_score, BreadthAnalyzer.numerator.
    pose proof (len_nonneg rows).
    destruct (len rows =? 0)%Z eqn:E0; destruct (len rows >? 0)%Z eqn:E1;
      try lia; [reflexivity|].
    match goal with
    | |- inject_Z ?a / _ == inject_Z ?b / _ => replace a with b by lia
    end.
    reflexivity. }
  assert (Hs : BreadthAnalyzer.score bd
               = py_round (BreadthAnalyzer.unrounded_score rows) 3) by reflexivity.
  assert (Hb : inject_Z (- 2) <= BreadthAnalyzer.score bd <= inject_Z 2).
  { rewrite Hs. apply (py_round_between (- 2)%Z 2%Z);
      [reflexivity | reflexivity | apply unrounded_score_bounds]. }
  split; [rewrite Hs, (py_round_compat _ _ 3 Hq); reflexivity|].
  split; [eexists; rewrite Hs; reflexivity|].
  split; [rewrite Hs, Hq; apply stored_score_near|].
  split; [exact Hb|].
  split; [|split; [reflexivity|split; [|reflexivity]]].
  - intro Hall.
    assert (Hnum : BreadthAnalyzer.numerator rows = 0%Z).
    { unfold BreadthAnalyzer.numerator.
      rewrite !(value_count_all_neutral _ rows Hall) by discriminate.
      reflexivity. }
    assert (H0 : inject_Z 0 <= BreadthAnalyzer.unrounded_score rows <= inject_Z 0).
    { unfold BreadthAnalyzer.unrounded_score. rewrite Hnum.
      destruct (len rows >? 0)%Z; [|split; discriminate].
      unfold Qdiv. rewrite Qmult_0_l. split; discriminate. }
    apply (py_round_between 0%Z 0%Z _ 3) in H0; [|reflexivity|reflexivity].
    rewrite Hs. apply Qle_antisym; apply H0.
  - symmetry. apply value_counts_total.
Qed.

Lemma breadth_score_rounded_quotient_witness :
  BreadthAnalyzer.score (BreadthAnalyzer.calculate_breadth_score all_flat) == 0.
Proof.
  apply (proj1 (proj2 (proj2 (proj2 (proj2
           (breadth_score_rounded_quotient all_flat)))))).
  intros r Hr. simpl in Hr.
  destruct Hr as [<-|[<-|[<-|[]]]]; reflexivity.
Defined.

(** C2, as stated, at one strong bull among three instruments: the stored
    score is 0.667 and not the quotient 2/3. *)
Lemma breadth_score_not_plain_quotient :
  let bd := BreadthAnalyzer.calculate_breadth_score
              (BreadthAnalyzer.classify_stocks one_in_three) in
  BreadthAnalyzer.total bd = 3%Z
  /\ BreadthAnalyzer.score bd == 667 # 1000
  /\ ~ BreadthAnalyzer.score bd ==
       inject_Z (2 * BreadthAnalyzer.strong_bulls bd
                 + 1 * BreadthAnalyzer.weak_bulls bd
                 - 2 * BreadthAnalyzer.strong_bears bd
                 - 1 * BreadthAnalyzer.weak_bears bd)
       / inject_Z (BreadthAnalyzer.total bd).
Proof.
  vm_compute. repeat split; intro H; discriminate H.
Qed.


(** ** Regime *)

Lemma regime_key_of_band (s : Q) :
  match BreadthAnalyzer.regime_key_of s with
  | EXTREME_BULL => Thresholds.EXTREME_BULL < s
  | STRONG_BULL => Thresholds.STRONG_BULL <= s <= Thresholds.EXTREME_BULL
  | WEAK_BULL => Thresholds.WEAK_BULL <= s < Thresholds.STRONG_BULL
  | NO_TRADE => Thresholds.NO_TRADE_LOW <= s < Thresholds.WEAK_BULL
  | WEAK_BEAR => Thresholds.WEAK_BEAR <= s < Thresholds.NO_TRADE_LOW
  | STRONG_BEAR => Thresholds.STRONG_BEAR <= s < Thresholds.WEAK_BEAR
  | EXTREME_BEAR => s < Thresholds.STRONG_BEAR
  end.
Proof.
  unfold BreadthAnalyzer.regime_key_of, Thresholds.EXTREME_BULL,
    Thresholds.STRONG_BULL, Thresholds.WEAK_BULL, Thresholds.NO_TRADE_LOW,
    Thresholds.WEAK_BEAR, Thresholds.STRONG_BEAR.
  by_comparisons.
Qed.

(** C3.  The regime [classify_regime] returns is the name of the band the
    stored score falls in, whatever the participation: the bands are tried
    from the top, the first one whose lower boundary the score reaches wins,
    the top boundary being strict and the others inclusive, so the seven
    bands partition the scores.  Six StrongBull and four WeakBear among ten
    instruments score 0.8, which is not above 0.8: the regime is STRONG
    BULL, not EXTREME BULL. *)
Theorem regime_first_band_from_top :
  (forall (bd : BreadthAnalyzer.breadth_data) (sd : BreadthAnalyzer.sector_data),
     fst (BreadthAnalyzer.classify_regime bd sd) =
     name (REGIMES (BreadthAnalyzer.regime_key_of (BreadthAnalyzer.score bd))))
  /\ (forall s : Q,
        match BreadthAnalyzer.regime_key_of s with
        | EXTREME_BULL => Thresholds.EXTREME_BULL < s
        | STRONG_BULL => Thresholds.STRONG_BULL <= s <= Thresholds.EXTREME_BULL
        | WEAK_BULL => Thresholds.WEAK_BULL <= s < Thresholds.STRONG_BULL
        | NO_TRADE => Thresholds.NO_TRADE_LOW <= s < Thresholds.WEAK_BULL
        | WEAK_BEAR => Thresholds.WEAK_BEAR <= s < Thresholds.NO_TRADE_LOW
        | STRONG_BEAR => Thresholds.STRONG_BEAR <= s < Thresholds.WEAK_BEAR
        | EXTREME_BEAR => s < Thresholds.STRONG_BEAR
        end)
  /\ (let rows := BreadthAnalyzer.classify_stocks six_up_four_down in
      let bd := BreadthAnalyzer.calculate_breadth_score rows in
      let sd := BreadthAnalyzer.calculate_sector_breadth rows in
      map category rows =
        [StrongBull; StrongBull; StrongBull; StrongBull; StrongBull; StrongBull;
         WeakBear; WeakBear; WeakBear; WeakBear]
      /\ BreadthAnalyzer.unrounded_score rows == 8 # 10
      /\ BreadthAnalyzer.score bd == 8 # 10
      /\ BreadthAnalyzer.regime_key_of (BreadthAnalyzer.score bd) = STRONG_BULL
      /\ fst (BreadthAnalyzer.classify_regime bd sd) = name (REGIMES STRONG_BULL)
      /\ fst (BreadthAnalyzer.classify_regime bd sd) <> name (REGIMES EXTREME_BULL)).
Proof.
  split; [reflexivity | split; [exact regime_key_of_band|]].
  vm_compute. repeat split. discriminate.
Qed.


(** ** Magnitude buckets *)

(** Away from -5 the buckets of a direction partition the moves of at least
    [STRONG_MOVE], and away from +5 and -5 the two directions mirror each
    other. *)
Lemma magnitude_buckets_elsewhere (pc : Q) :
  (Thresholds.STRONG_MOVE <= pc ->
   (Z.b2z (BreadthAnalyzer.is_explosive_up pc)
    + Z.b2z (BreadthAnalyzer.is_strong_up pc)
    + Z.b2z (BreadthAnalyzer.is_moderate_up pc) = 1)%Z)
  /\ (pc <= - Thresholds.STRONG_MOVE -> ~ pc == - Thresholds.EXPLOSIVE_MOVE ->
      (Z.b2z (BreadthAnalyzer.is_explosive_down pc)
       + Z.b2z (BreadthAnalyzer.is_strong_down pc)
       + Z.b2z (BreadthAnalyzer.is_moderate_down pc) = 1)%Z)
  /\ (~ pc == Thresholds.EXPLOSIVE_MOVE ->
      BreadthAnalyzer.is_explosive_up pc = BreadthAnalyzer.is_explosive_down (- pc)
      /\ BreadthAnalyzer.is_strong_up pc = BreadthAnalyzer.is_strong_down (- pc)
      /\ BreadthAnalyzer.is_moderate_up pc = BreadthAnalyzer.is_moderate_down (- pc)).
Proof.
  unfold BreadthAnalyzer.is_explosive_up, BreadthAnalyzer.is_strong_up,
    BreadthAnalyzer.is_moderate_up, BreadthAnalyzer.is_explosive_down,
    BreadthAnalyzer.is_strong_down, BreadthAnalyzer.is_moderate_down,
    Thresholds.STRONG_MOVE, Thresholds.STRONG_EXPLOSIVE, Thresholds.EXPLOSIVE_MOVE.
  repeat split; intros; by_comparisons.
Qed.

(** C4, at a move of exactly -5.0.  The code counts the instrument in none
    of the three down buckets, while a move of +5.0 is counted in
    [strong_up]: the mirror of [pc <= EXPLOSIVE_MOVE] would be
    [pc >= -EXPLOSIVE_MOVE], and the code has [pc > -EXPLOSIVE_MOVE]. *)
Theorem magnitude_minus_five_in_no_bucket :
  let down := BreadthAnalyzer.calculate_magnitude_analysis (single_row (- (5))) in
  let up := BreadthAnalyzer.calculate_magnitude_analysis (single_row 5) in
  BreadthAnalyzer.explosive_down down = 0%Z
  /\ BreadthAnalyzer.strong_down down = 0%Z
  /\ BreadthAnalyzer.moderate_down down = 0%Z
  /\ BreadthAnalyzer.explosive_up up = 0%Z
  /\ BreadthAnalyzer.strong_up up = 1%Z
  /\ BreadthAnalyzer.moderate_up up = 0%Z
  /\ BreadthAnalyzer.is_strong_up Thresholds.EXPLOSIVE_MOVE = true
  /\ BreadthAnalyzer.is_strong_down (- Thresholds.EXPLOSIVE_MOVE) = false.
Proof. vm_compute. repeat split. Qed.


(** ** History store *)

Lemma py_slice_last_map {A B : Type} (f : A -> B) (n : nat) (l : list A) :
  py_slice_last n (map f l) = map f (py_slice_last n l).
Proof.
  destruct n; [reflexivity|].
  unfold py_slice_last. rewrite length_map, skipn_map. reflexivity.
Qed.

Lemma py_slice_last_short {A : Type} (n : nat) (l : list A) :
  (List.length l <= n)%nat -> py_slice_last n l = l.
Proof.
  intro H. destruct n; [reflexivity|]. unfold py_slice_last.
  replace (List.length l - S n)%nat with 0%nat by lia. apply skipn_0.
Qed.

Lemma py_slice_last_length {A : Type} (n : nat) (l : list A) :
  (0 < n)%nat -> (List.length (py_slice_last n l) <= n)%nat.
Proof.
  intro H. destruct n; [lia|]. unfold py_slice_last.
  rewrite length_skipn. lia.
Qed.

(** A slice of at least one element keeps the element appended last. *)
Lemma py_slice_last_snoc {A : Type} (n : nat) (l : list A) (x : A) :
  (0 < n)%nat ->
  py_slice_last n (l ++ [x]) = skipn (List.length l + 1 - n) l ++ [x].
Proof.
  intro H. destruct n; [lia|]. unfold py_slice_last.
  rewrite length_app, skipn_app. simpl List.length.
  replace (List.length l + 1 - S n - List.length l)%nat with 0%nat by lia.
  reflexivity.
Qed.

Lemma NoDup_skipn {A : Type} (n : nat) (l : list A) :
  NoDup l -> NoDup (skipn n l).
Proof.
  intro H. rewrite <- (firstn_skipn n l) in H.
  exact (NoDup_app_remove_l _ _ H).
Qed.

Lemma In_skipn {A : Type} (n : nat) (l : list A) (x : A) :
  In x (skipn n l) -> In x l.
Proof.
  intro H. rewrite <- (firstn_skipn n l). apply in_or_app. right. exact H.
Qed.

Lemma without_date_cons (today : string) (h : json) (rest : list json) :
  HistoryManager.without_date today (h :: rest) =
  (d <- HistoryManager.getitem h "date" ;;
   kept <- HistoryManager.without_date today rest ;;
   Ok (if HistoryManager.ne_str d today then h :: kept else kept)).
Proof. reflexivity. Qed.

Lemma getitem_date (r : HistoryManager.HistoryRecord) :
  HistoryManager.getitem (HistoryManager.record_json r) "date" =
  Ok (JString (HistoryManager.date r)).
Proof. reflexivity. Qed.

Lemma without_date_records (today : string)
    (history : list HistoryManager.HistoryRecord) :
  HistoryManager.without_date today (map HistoryManager.record_json history) =
  Ok (map HistoryManager.record_json (filter (other_day today) history)).
Proof.
  induction history as [|r history IH]; [reflexivity|].
  cbn [map filter]. rewrite without_date_cons, getitem_date, IH.
  cbn [bind HistoryManager.ne_str]. unfold other_day.
  destruct (String.eqb (HistoryManager.date r) today); reflexivity.
Qed.

(** On a file in the persisted layout [save_score] is [append_or_replace]. *)
Lemma save_score_refines (d : datetime) (s : Q) (r : string) (f : backing_file)
    (history : list HistoryManager.HistoryRecord) :
  HistoryManager.load_history f = Ok (HistoryManager.history_json history) ->
  (forall document, HistoryManager.json_dump document f = Ok (Holds document)) ->
  HistoryManager.save_score d s r f =
  Ok (Holds (HistoryManager.history_json
               (append_or_replace (strftime_Ymd d) s r history))).
Proof.
  intros Hload Hwrite. unfold HistoryManager.save_score. rewrite Hload.
  unfold HistoryManager.history_json. cbn [HistoryManager.iter bind].
  rewrite without_date_records. cbn [bind]. rewrite Hwrite.
  unfold append_or_replace.
  rewrite <- py_slice_last_map, map_app. reflexivity.
Qed.

Lemma other_day_dates (today : string)
    (history : list HistoryManager.HistoryRecord) :
  ~ In today (map HistoryManager.date (filter (other_day today) history)).
Proof.
  rewrite in_map_iff. intros [r [Hd Hin]].
  apply filter_In in Hin. destruct Hin as [_ Hne].
  unfold other_day in Hne. rewrite Hd, String.eqb_refl in Hne. discriminate.
Qed.

Lemma filter_other_day_all (today : string)
    (l : list HistoryManager.HistoryRecord) :
  ~ In today (map HistoryManager.date l) -> filter (other_day today) l = l.
Proof.
  induction l as [|r l IH]; [reflexivity|].
  cbn [map filter]. intro Hnot. unfold other_day at 1.
  destruct (String.eqb_spec (HistoryManager.date r) today) as [E|E].
  - exfalso. apply Hnot. left. exact E.
  - cbn [negb]. rewrite IH; [reflexivity|].
    intro Hin. apply Hnot. right. exact Hin.
Qed.

(** Dropping a day keeps the dates pairwise distinct. *)
Lemma other_day_NoDup (today : string)
    (history : list HistoryManager.HistoryRecord) :
  NoDup (map HistoryManager.date history) ->
  NoDup (map HistoryManager.date (filter (other_day today) history)).
Proof.
  induction history as [|r history IH]; cbn [map filter]; intro Hnd.
  - constructor.
  - apply NoDup_cons_iff in Hnd. destruct Hnd as [Hfresh Hnd].
    destruct (other_day today r); [|exact (IH Hnd)].
    cbn [map]. constructor; [|exact (IH Hnd)].
    intro Hin. apply Hfresh.
    apply in_map_iff in Hin. destruct Hin as [x [Hx Hin]].
    apply filter_In in Hin.
    apply in_map_iff. exists x. split; [exact Hx | apply Hin].
Qed.

(** Under pairwise distinct dates a present date has exactly one record. *)
Lemma filter_other_day_length (today : string)
    (history : list HistoryManager.HistoryRecord) :
  NoDup (map HistoryManager.date history) ->
  In today (map HistoryManager.date history) ->
  (List.length (filter (other_day today) history) + 1 = List.length history)%nat.
Proof.
  induction history as [|r history IH]; [intros _ []|].
  cbn [map filter]. intros Hnd Hin.
  apply NoDup_cons_iff in Hnd. destruct Hnd as [Hnot Hnd].
  unfold other_day at 1.
  destruct (String.eqb_spec (HistoryManager.date r) today) as [E|E].
  - cbn [negb]. rewrite filter_other_day_all; [simpl List.length; lia|].
    rewrite <- E. exact Hnot.
  - cbn [negb]. simpl List.length. destruct Hin as [Hin|Hin]; [contradiction|].
    specialize (IH Hnd Hin). lia.
Qed.

Lemma append_or_replace_snoc (today : string) (s : Q) (r : string)
    (history : list HistoryManager.HistoryRecord) :
  append_or_replace today s r history =
  skipn (List.length (filter (other_day today) history) + 1 - Thresholds.HISTORY_DAYS)
        (filter (other_day today) history)
  ++ [{| HistoryManager.date := today;
         HistoryManager.score := s;
         HistoryManager.regime := r |}].
Proof.
  unfold append_or_replace. apply py_slice_last_snoc.
  unfold Thresholds.HISTORY_DAYS. lia.
Qed.

Lemma append_or_replace_length (today : string) (s : Q) (r : string)
    (history : list HistoryManager.HistoryRecord) :
  (List.length (append_or_replace today s r history) <= Thresholds.HISTORY_DAYS)%nat.
Proof.
  unfold append_or_replace. apply py_slice_last_length.
  unfold Thresholds.HISTORY_DAYS. lia.
Qed.

Lemma append_or_replace_idempotent (today : string) (s : Q) (r : string)
    (history : list HistoryManager.HistoryRecord) :
  append_or_replace today s r (append_or_replace today s r history) =
  append_or_replace today s r history.
Proof.
  pose proof (append_or_replace_length today s r history) as Hlen.
  rewrite (append_or_replace_snoc today s r history) in *.
  set (kept := skipn _ (filter (other_day today) history)) in *.
  assert (Hkept : filter (other_day today) kept = kept).
  { apply filter_other_day_all. intro Hin.
    apply (other_day_dates today history).
    apply in_map_iff in Hin. destruct Hin as [x [Hx Hin]].
    apply in_map_iff. exists x. split; [exact Hx|].
    unfold kept in Hin. apply In_skipn in Hin. exact Hin. }
  unfold append_or_replace at 1.
  rewrite filter_app, Hkept. cbn [filter]. unfold other_day at 1.
  cbn [HistoryManager.date]. rewrite String.eqb_refl. cbn [negb].
  rewrite app_nil_r. apply py_slice_last_short. exact Hlen.
Qed.

(** C5.  On a store whose records have pairwise distinct dates and which
    holds at most [HISTORY_DAYS] records, [save_score] writes the store
    [append_or_replace] describes: its dates are pairwise distinct, it holds
    at most [HISTORY_DAYS] records, the new record is in it, its length is
    that of the old store when the day was already recorded, and saving the
    same arguments again writes the same store. *)
Theorem save_score_keeps_store_invariants
    (history : list HistoryManager.HistoryRecord)
    (d : datetime) (s : Q) (r : string) :
  NoDup (map HistoryManager.date history) ->
  (List.length history <= Thresholds.HISTORY_DAYS)%nat ->
  let today := strftime_Ymd d in
  let history' := append_or_replace today s r history in
  HistoryManager.save_score d s r (Holds (HistoryManager.history_json history)) =
    Ok (Holds (HistoryManager.history_json history'))
  /\ NoDup (map HistoryManager.date history')
  /\ (List.length history' <= Thresholds.HISTORY_DAYS)%nat
  /\ In {| HistoryManager.date := today;
           HistoryManager.score := s;
           HistoryManager.regime := r |} history'
  /\ (In today (map HistoryManager.date history) ->
      List.length history' = List.length history)
  /\ HistoryManager.save_score d s r (Holds (HistoryManager.history_json history')) =
       Ok (Holds (HistoryManager.history_json history')).
Proof.
  intros Hnd Hcap today history'.
  split; [apply save_score_refines; reflexivity|].
  split.
  { unfold history'. rewrite append_or_replace_snoc, map_app, <- skipn_map.
    apply NoDup_app.
    - apply NoDup_skipn, other_day_NoDup, Hnd.
    - repeat constructor. intros [].
    - intros a Ha [<-|[]]. apply In_skipn in Ha.
      exact (other_day_dates _ _ Ha). }
  split; [apply append_or_replace_length|].
  split.
  { unfold history'. rewrite append_or_replace_snoc.
    apply in_or_app. right. left. reflexivity. }
  split.
  { intro Hin. unfold history', append_or_replace.
    pose proof (filter_other_day_length today history Hnd Hin) as Hlen.
    rewrite py_slice_last_short; rewrite length_app; simpl List.length; lia. }
  rewrite (save_score_refines d s r _ history') by reflexivity.
  fold today. unfold history'. rewrite append_or_replace_idempotent. reflexivity.
Qed.

Lemma save_score_keeps_store_invariants_witness :
  List.length (append_or_replace (strftime_Ymd evening) (8 # 10)
                 (name (REGIMES STRONG_BULL)) two_days) = 2%nat
  /\ HistoryManager.save_score evening (8 # 10) (name (REGIMES STRONG_BULL))
       (Holds (HistoryManager.history_json two_days)) =
     Ok (Holds (HistoryManager.history_json
                  (append_or_replace (strftime_Ymd evening) (8 # 10)
                     (name (REGIMES STRONG_BULL)) two_days))).
Proof.
  assert (Hnd : NoDup (map HistoryManager.date two_days)).
  { simpl. repeat constructor; simpl; intuition discriminate. }
  assert (Hcap : (List.length two_days <= Thresholds.HISTORY_DAYS)%nat).
  { vm_compute. lia. }
  pose proof (save_score_keeps_store_invariants two_days evening (8 # 10)
                (name (REGIMES STRONG_BULL)) Hnd Hcap) as H.
  cbv zeta in H. destruct H as [Hsave [_ [_ [_ [Hlen _]]]]].
  split; [|exact Hsave].
  apply Hlen. vm_compute. right. left. reflexivity.
Defined.


(** ** Where the rounding happens *)

(** A write that succeeds leaves a file that holds what was written. *)
Lemma json_dump_holds (document : json) (f f' : backing_file) :
  HistoryManager.json_dump document f = Ok f' -> f' = Holds document.
Proof.
  destruct f; cbn; intro H; try discriminate H; injection H as <-; reflexivity.
Qed.

Lemma save_score_appends (d : datetime) (s : Q) (r : string)
    (f f' : backing_file) :
  HistoryManager.save_score d s r f = Ok f' ->
  exists earlier : list json,
    f' = Holds (JArray (earlier ++ [HistoryManager.new_record (strftime_Ymd d) s r])).
Proof.
  unfold HistoryManager.save_score.
  destruct (HistoryManager.load_history f) as [history|e]; [|discriminate].
  cbn [bind].
  destruct (HistoryManager.iter history) as [elements|e]; [|discriminate].
  cbn [bind].
  destruct (HistoryManager.without_date (strftime_Ymd d) elements) as [kept|e];
    [|discriminate].
  cbn [bind].
  rewrite py_slice_last_snoc by (unfold Thresholds.HISTORY_DAYS; lia).
  intro H. apply json_dump_holds in H. subst f'. eexists. reflexivity.
Qed.

Lemma Ok_Some_pair_inj {A B : Type} (a a' : A) (b b' : B) :
  Ok (Some a, b) = Ok (Some a', b') -> a = a' /\ b = b'.
Proof. intro H. injection H as -> ->. split; reflexivity. Qed.

(** C6, as the code has it.  Rounding happens when the snapshot is built:
    the stored score is the float quotient rounded by [round] to three
    decimals and the stored bull/bear ratio the float ratio rounded to two;
    the regime is selected from that rounded score, and the record written
    to the history carries it. *)
Theorem rounding_when_snapshot_is_built
    (df : list Quote) (now : datetime) (f : backing_file) :
  let rows := BreadthAnalyzer.classify_stocks df in
  let bd := BreadthAnalyzer.calculate_breadth_score rows in
  let stored := py_round (BreadthAnalyzer.unrounded_score rows) Display.SCORE_DECIMALS in
  BreadthAnalyzer.score bd = stored
  /\ BreadthAnalyzer.bull_bear_ratio bd =
       pyfloat_round (BreadthAnalyzer.unrounded_ratio rows) Display.RATIO_DECIMALS
  /\ (forall sd : BreadthAnalyzer.sector_data,
        fst (BreadthAnalyzer.classify_regime bd sd) =
        name (REGIMES (BreadthAnalyzer.regime_key_of stored)))
  /\ (forall (st : App.session_state) (f' : backing_file),
        App.load_data df now f = Ok (Some st, f') ->
        BreadthAnalyzer.score (App.breadth_data st) = stored
        /\ App.regime st = name (REGIMES (BreadthAnalyzer.regime_key_of stored))
        /\ exists earlier : list json,
             f' = Holds (JArray (earlier ++
                    [HistoryManager.new_record (strftime_Ymd now) stored
                       (App.regime st)])))
  /\ (forall history : list HistoryManager.HistoryRecord,
        df <> [] ->
        HistoryManager.load_history f = Ok (HistoryManager.history_json history) ->
        (forall document,
           HistoryManager.json_dump document f = Ok (Holds document)) ->
        exists st : App.session_state,
          App.load_data df now f =
          Ok (Some st,
              Holds (HistoryManager.history_json
                       (append_or_replace (strftime_Ymd now) stored
                          (name (REGIMES (BreadthAnalyzer.regime_key_of stored)))
                          history)))).
Proof.
  intros rows bd stored.
  split; [reflexivity|]. split; [reflexivity|]. split; [reflexivity|]. split.
  - intros st f' Hload. unfold App.load_data in Hload.
    destruct df as [|q df]; [discriminate|].
    fold rows in Hload. fold bd in Hload.
    cbn [BreadthAnalyzer.classify_regime] in Hload.
    unfold BreadthAnalyzer.classify_regime in Hload.
    match type of Hload with
    | bind ?m _ = _ => destruct m as [f1|e] eqn:Hsave; [|discriminate]
    end.
    cbn [bind] in Hload. apply Ok_Some_pair_inj in Hload.
    destruct Hload as [<- <-]. cbn [App.breadth_data App.regime].
    split; [reflexivity|]. split; [reflexivity|].
    apply save_score_appends in Hsave. exact Hsave.
  - intros history Hne Hfile Hwrite. unfold App.load_data.
    destruct df as [|q df]; [contradiction|].
    fold rows. fold bd. unfold BreadthAnalyzer.classify_regime.
    rewrite (save_score_refines _ _ _ _ history Hfile Hwrite).
    cbn [bind]. eexists. reflexivity.
Qed.

Lemma rounding_when_snapshot_is_built_witness :
  exists st : App.session_state,
    App.load_data one_in_three evening Missing =
    Ok (Some st,
        Holds (HistoryManager.history_json
                 [{| HistoryManager.date := "2026-11-03";
                     HistoryManager.score := 667 # 1000;
                     HistoryManager.regime := name (REGIMES STRONG_BULL) |}])).
Proof.
  destruct (proj2 (proj2 (proj2 (proj2
              (rounding_when_snapshot_is_built one_in_three evening Missing))))
              [] ltac:(discriminate) eq_refl (fun _ => eq_refl)) as [st Hst].
  exists st. exact Hst.
Defined.

(** C6, as stated.  One strong bull among three instruments: the quotient is
    2/3, the snapshot stores 0.667 and the history receives 0.667.  28 weak
    bulls among 187 instruments: the quotient 28/187 lies in the NO TRADE
    band, the regime is selected from the stored 0.15 and is WEAK BULL. *)
Lemma stored_score_is_not_the_unrounded_one :
  (let rows := BreadthAnalyzer.classify_stocks one_in_three in
   let bd := BreadthAnalyzer.calculate_breadth_score rows in
   BreadthAnalyzer.unrounded_score rows == 2 # 3
   /\ BreadthAnalyzer.score bd == 667 # 1000
   /\ ~ BreadthAnalyzer.score bd == BreadthAnalyzer.unrounded_score rows
   /\ exists st : App.session_state,
        App.load_data one_in_three evening Missing =
        Ok (Some st,
            Holds (JArray [HistoryManager.new_record "2026-11-03" (667 # 1000)
                             (name (REGIMES STRONG_BULL))])))
  /\ (let rows := BreadthAnalyzer.classify_stocks near_weak_bull in
      let bd := BreadthAnalyzer.calculate_breadth_score rows in
      let sd := BreadthAnalyzer.calculate_sector_breadth rows in
      BreadthAnalyzer.unrounded_score rows == 28 # 187
      /\ BreadthAnalyzer.regime_key_of (BreadthAnalyzer.unrounded_score rows) = NO_TRADE
      /\ BreadthAnalyzer.score bd == 15 # 100
      /\ fst (BreadthAnalyzer.classify_regime bd sd) = name (REGIMES WEAK_BULL)).
Proof.
  split.
  - cbv zeta. split; [vm_compute; reflexivity|].
    split; [vm_compute; reflexivity|].
    split; [vm_compute; discriminate|].
    eexists. vm_compute. reflexivity.
  - vm_compute. repeat split.
Qed.

(** ** Composite indices on the empty table *)

Lemma int_truediv_nonzero (a b : Z) :
  b <> 0%Z -> int_truediv a b = Ok (inject_Z a / inject_Z b).
Proof.
  intro Hb. unfold int_truediv.
  destruct (b =? 0)%Z eqn:E; [|reflexivity].
  apply Z.eqb_eq in E. contradiction.
Qed.

(** With at least one row both computations return a value. *)
Lemma composite_indices_defined_on_rows (q : Quote) (df : list Quote) :
  (exists t, AdvancedAnalysis.calculate_market_temperature (q :: df) = Ok t)
  /\ (exists s, AdvancedAnalysis.detect_capitulation_or_euphoria (q :: df) = Ok s).
Proof.
  assert (Hlen : len (q :: df) <> 0%Z).
  { rewrite len_cons. pose proof (len_nonneg df). lia. }
  split.
  - unfold AdvancedAnalysis.calculate_market_temperature.
    rewrite int_truediv_nonzero by exact Hlen.
    cbn [bind]. eexists. reflexivity.
  - unfold AdvancedAnalysis.detect_capitulation_or_euphoria.
    rewrite !int_truediv_nonzero by exact Hlen.
    cbn [bind].
    match goal with |- context [if ?c then _ else _] => destruct c end;
      [eexists; reflexivity|].
    match goal with |- context [if ?c then _ else _] => destruct c end;
      eexists; reflexivity.
Qed.

(** C7, as the code has it.  The market temperature and the capitulation
    or euphoria detector return a value exactly on the tables with at
    least one row.  The table with no rows does not reach them: on it
    [load_data] returns before it stores a table or touches the history,
    so that the table of a session, the one the dashboard computes the
    two indices on, always has a row. *)
Theorem composite_indices_behind_the_empty_guard :
  (forall df : list Quote,
     (exists t, AdvancedAnalysis.calculate_market_temperature df = Ok t)
     <-> df <> [])
  /\ (forall df : list Quote,
        (exists s, AdvancedAnalysis.detect_capitulation_or_euphoria df = Ok s)
        <-> df <> [])
  /\ (forall (now : datetime) (f : backing_file),
        App.load_data [] now f = Ok (None, f))
  /\ (forall (df : list Quote) (now : datetime) (f f' : backing_file)
             (st : App.session_state),
        App.load_data df now f = Ok (Some st, f') ->
        App.df st = df
        /\ App.df st <> []
        /\ (exists t,
              AdvancedAnalysis.calculate_market_temperature (App.df st) = Ok t)
        /\ (exists s,
              AdvancedAnalysis.detect_capitulation_or_euphoria (App.df st) = Ok s)).
Proof.
  split; [|split; [|split]].
  - intro df. split.
    + intros [t Ht] ->. discriminate Ht.
    + intro Hne. destruct df as [|q df]; [contradiction|].
      apply (composite_indices_defined_on_rows q df).
  - intro df. split.
    + intros [s Hs] ->. discriminate Hs.
    + intro Hne. destruct df as [|q df]; [contradiction|].
      apply (composite_indices_defined_on_rows q df).
  - reflexivity.
  - intros df now f f' st Hload. unfold App.load_data in Hload.
    destruct df as [|q df]; [discriminate Hload|].
    unfold BreadthAnalyzer.classify_regime in Hload.
    match type of Hload with
    | bind ?m _ = _ => destruct m as [f1|e]; [|discriminate Hload]
    end.
    cbn [bind] in Hload. apply Ok_Some_pair_inj in Hload.
    destruct Hload as [<- _]. cbn [App.df].
    split; [reflexivity|]. split; [discriminate|].
    apply (composite_indices_defined_on_rows q df).
Qed.

Lemma composite_indices_behind_the_empty_guard_witness :
  exists t, AdvancedAnalysis.calculate_market_temperature one_in_three = Ok t.
Proof.
  edestruct (proj2 (proj2 (proj2 composite_indices_behind_the_empty_guard))
               one_in_three evening Missing) as [_ [_ [Ht _]]].
  - vm_compute. reflexivity.
  - exact Ht.
Defined.

(** C7, as stated, at the table with no rows.  Called on it, both
    computations divide by [len(df)] first and raise [ZeroDivisionError];
    [calculate_breadth_score] and [calculate_magnitude_analysis] guard the
    same division and return 0. *)
Lemma composite_indices_raise_on_empty_table :
  AdvancedAnalysis.calculate_market_temperature [] = Raise ZeroDivisionError
  /\ AdvancedAnalysis.detect_capitulation_or_euphoria [] = Raise ZeroDivisionError
  /\ BreadthAnalyzer.score (BreadthAnalyzer.calculate_breadth_score []) == 0
  /\ BreadthAnalyzer.ultra_score (BreadthAnalyzer.calculate_magnitude_analysis []) == 0.
Proof. repeat split. Qed.


(** ** Divergence *)

Lemma py_slice_last_app {A : Type} (l1 : list A) (x : A) (l2 : list A) :
  py_slice_last (List.length (x :: l2)) (l1 ++ x :: l2) = x :: l2.
Proof.
  unfold py_slice_last. cbn [List.length].
  rewrite length_app, skipn_app. cbn [List.length].
  replace (List.length l1 + S (List.length l2) - S (List.length l2))%nat
    with (List.length l1) by lia.
  rewrite skipn_all, Nat.sub_diag. reflexivity.
Qed.

Lemma last_three {A : Type} (l : list A) :
  (3 <= List.length l)%nat ->
  exists earlier a b c, l = earlier ++ [a; b; c].
Proof.
  intro H. exists (firstn (List.length l - 3) l).
  pose proof (firstn_skipn (List.length l - 3) l) as Hsplit.
  pose proof (length_skipn (List.length l - 3) l) as Hlen.
  destruct (skipn (List.length l - 3) l) as [|a [|b [|c [|x t]]]];
    simpl in Hlen; try lia.
  exists a, b, c. symmetry. exact Hsplit.
Qed.

Lemma detect_divergence_short (history : list HistoryManager.HistoryRecord)
    (current_score : Q) :
  HistoryManager.detect_divergence history current_score
    = (None, "Insufficient data"%string)
  <-> (List.length history < 3)%nat.
Proof.
  unfold HistoryManager.detect_divergence, len.
  destruct (Z.of_nat (List.length history) <? 3)%Z eqn:E.
  - apply Z.ltb_lt in E. split; [lia | reflexivity].
  - apply Z.ltb_ge in E. split; [|lia].
    repeat match goal with
    | |- context [if ?c then _ else _] => destruct c
    end; discriminate.
Qed.

Lemma detect_divergence_last_three
    (earlier : list HistoryManager.HistoryRecord)
    (r0 r1 r2 : HistoryManager.HistoryRecord) (current_score : Q) :
  HistoryManager.detect_divergence (earlier ++ [r0; r1; r2]) current_score =
  let s0 := HistoryManager.score r0 in
  let s1 := HistoryManager.score r1 in
  let s2 := HistoryManager.score r2 in
  if (current_score >? 0) && ((s0 >? s1) && (s1 >? s2))
  then (Some "bearish"%string,
        "⚠️ Breadth deteriorating - Distribution warning"%string)
  else if (current_score <? 0) && ((s0 <? s1) && (s1 <? s2))
  then (Some "bullish"%string,
        "✨ Breadth improving - Accumulation signal"%string)
  else (None, "No divergence"%string).
Proof.
  unfold HistoryManager.detect_divergence.
  replace (len (earlier ++ [r0; r1; r2]) <? 3)%Z with false.
  2:{ symmetry. apply Z.ltb_ge. unfold len. rewrite length_app.
      cbn [List.length]. lia. }
  pose proof (py_slice_last_app earlier r0 [r1; r2]) as Hlast.
  cbn [List.length] in Hlast. rewrite Hlast.
  cbn [map HistoryManager.all_adjacent]. rewrite !andb_true_r. reflexivity.
Qed.

(** C8.  [detect_divergence] answers "Insufficient data" exactly when the
    history has fewer than three records.  Otherwise, with [r0], [r1], [r2]
    the last three records in the order of the store, it answers bearish
    exactly when the current score is positive and their scores fall
    strictly, bullish exactly when the current score is negative and they
    rise strictly, and "No divergence" in every other case. *)
Theorem detect_divergence_cases
    (history : list HistoryManager.HistoryRecord) (current_score : Q) :
  (HistoryManager.detect_divergence history current_score
     = (None, "Insufficient data"%string)
   <-> (List.length history < 3)%nat)
  /\ ((3 <= List.length history)%nat ->
      exists earlier r0 r1 r2, history = earlier ++ [r0; r1; r2])
  /\ (forall earlier r0 r1 r2,
        history = earlier ++ [r0; r1; r2] ->
        let s0 := HistoryManager.score r0 in
        let s1 := HistoryManager.score r1 in
        let s2 := HistoryManager.score r2 in
        (HistoryManager.detect_divergence history current_score
           = (Some "bearish"%string,
              "⚠️ Breadth deteriorating - Distribution warning"%string)
         <-> 0 < current_score /\ s1 < s0 /\ s2 < s1)
        /\ (HistoryManager.detect_divergence history current_score
              = (Some "bullish"%string,
                 "✨ Breadth improving - Accumulation signal"%string)
            <-> current_score < 0 /\ s0 < s1 /\ s1 < s2)
        /\ (HistoryManager.detect_divergence history current_score
              = (None, "No divergence"%string)
            <-> ~ (0 < current_score /\ s1 < s0 /\ s2 < s1)
                /\ ~ (current_score < 0 /\ s0 < s1 /\ s1 < s2))).
Proof.
  split; [apply detect_divergence_short|].
  split; [apply last_three|].
  intros earlier r0 r1 r2 -> s0 s1 s2.
  rewrite detect_divergence_last_three. fold s0 s1 s2. cbv zeta.
  unfold Qgtb.
  destruct (Qltb_reflect 0 current_score), (Qltb_reflect current_score 0),
    (Qltb_reflect s1 s0), (Qltb_reflect s2 s1),
    (Qltb_reflect s0 s1), (Qltb_reflect s1 s2); cbn [andb];
    repeat split; intros; try discriminate; try reflexivity; try tauto; try lra.
Qed.

Lemma detect_divergence_cases_witness :
  HistoryManager.detect_divergence falling (5 # 100)
    = (Some "bearish"%string,
       "⚠️ Breadth deteriorating - Distribution warning"%string)
  /\ HistoryManager.detect_divergence rising (- (5 # 100))
       = (Some "bullish"%string,
          "✨ Breadth improving - Accumulation signal"%string)
  /\ exists earlier r0 r1 r2, falling = earlier ++ [r0; r1; r2].
Proof.
  split; [|split].
  - apply (proj1 (proj2 (proj2 (detect_divergence_cases falling (5 # 100)))
                   [] _ _ _ eq_refl)).
    vm_compute. repeat split.
  - apply (proj1 (proj2 (proj2 (proj2 (detect_divergence_cases rising (- (5 # 100))))
                   [] _ _ _ eq_refl))).
    vm_compute. repeat split.
  - apply (proj1 (proj2 (detect_divergence_cases falling 0))).
    vm_compute. lia.
Defined.

(** ** Fear and greed index *)

(** C9, as the code has it.  At a 3-day breadth average of exactly 0.8 the
    breadth sub-score is 87, the value of the band below, because the top
    boundary is the strict [> 0.8]; at each of the other boundaries of the
    table (0.6, 0.4, 0.2, 0.0, -0.2, -0.4, -0.6) the comparison is [>=] and
    the sub-score is the value of the band above. *)
Theorem breadth_subscore_at_boundaries
    (breadth_3day breadth_today vix_3day vix_day1 vix_day3 participation_3day : Q) :
  let c1 :=
    App.c1_raw (App.components
      (App.calculate_fear_greed_index breadth_3day breadth_today vix_3day
         vix_day1 vix_day3 participation_3day)) in
  (8 # 10 < breadth_3day -> c1 = 975 # 10)
  /\ (breadth_3day == 8 # 10 -> c1 = 87)
  /\ (breadth_3day == 6 # 10 -> c1 = 87)
  /\ (breadth_3day == 4 # 10 -> c1 = 72)
  /\ (breadth_3day == 2 # 10 -> c1 = 595 # 10)
  /\ (breadth_3day == 0 -> c1 = 495 # 10)
  /\ (breadth_3day == - (2 # 10) -> c1 = 395 # 10)
  /\ (breadth_3day == - (4 # 10) -> c1 = 295 # 10)
  /\ (breadth_3day == - (6 # 10) -> c1 = 17).
Proof.
  cbv zeta. unfold App.calculate_fear_greed_index.
  cbn [App.components App.c1_raw]. unfold App.breadth_subscore.
  repeat split; intro H; by_comparisons.
Qed.

Lemma breadth_subscore_at_boundaries_witness :
  App.c1_raw (App.components
    (App.calculate_fear_greed_index (8 # 10) (75 # 100) 15 16 14 55)) = 87
  /\ App.c1_raw (App.components
       (App.calculate_fear_greed_index (6 # 10) (75 # 100) 15 16 14 55)) = 87.
Proof.
  split.
  - apply (proj1 (proj2
      (breadth_subscore_at_boundaries (8 # 10) (75 # 100) 15 16 14 55))).
    reflexivity.
  - apply (proj1 (proj2 (proj2
      (breadth_subscore_at_boundaries (6 # 10) (75 # 100) 15 16 14 55)))).
    reflexivity.
Defined.

(** C9, as stated, at a 3-day breadth average of exactly 0.8: the sub-score
    is 87 and not 97.5. *)
Lemma breadth_subscore_at_top_boundary_is_lower :
  let c1 :=
    App.c1_raw (App.components
      (App.calculate_fear_greed_index (8 # 10) (75 # 100) 15 16 14 55)) in
  c1 == 87 /\ ~ c1 == 975 # 10.
Proof. vm_compute. split; [reflexivity | discriminate]. Qed.


(** ** Loading the history *)

(** C10, as the code has it.  [load_history] raises exactly when the test
    whether the file is there raises, which happens outside its [try]: on
    a directory that cannot be searched.  In every other state of the file
    it returns: the empty list when the file is not there and when opening
    or parsing it fails, and otherwise the parsed document as it is, which
    is a list exactly when the document is one, as it is after every
    [save_score].  A missing or corrupt file is therefore an empty history
    for the moving average, the trend and the divergence detector. *)
Theorem load_history_cases (f : backing_file) :
  (HistoryManager.exists_ f = Ok false ->
   HistoryManager.load_history f = Ok (JArray []))
  /\ (HistoryManager.exists_ f = Ok true ->
      forall e : exn,
        HistoryManager.json_load f = Raise e ->
        HistoryManager.load_history f = Ok (JArray []))
  /\ (HistoryManager.exists_ f = Ok true ->
      forall v : json,
        HistoryManager.json_load f = Ok v ->
        HistoryManager.load_history f = Ok v)
  /\ (forall e : exn,
        HistoryManager.load_history f = Raise e
        <-> HistoryManager.exists_ f = Raise e)
  /\ ((exists e : exn, HistoryManager.load_history f = Raise e)
      <-> f = Inaccessible)
  /\ (forall v : json,
        HistoryManager.load_history f = Ok v ->
        is_list v = false -> f = Holds v \/ f = ReadOnly v)
  /\ (forall (d : datetime) (s : Q) (r : string) (before : backing_file),
        HistoryManager.save_score d s r before = Ok f ->
        exists records : list json,
          HistoryManager.load_history f = Ok (JArray records))
  /\ (f = Missing \/ f = NoDirectory \/ f = Unreadable \/ f = Malformed ->
      HistoryManager.load_history f = Ok (HistoryManager.history_json [])
      /\ HistoryManager.get_moving_average [] Thresholds.AVERAGE_PERIOD = None
      /\ HistoryManager.get_trend [] 5 = Ok "Insufficient data"%string
      /\ forall current_score : Q,
           HistoryManager.detect_divergence [] current_score
           = (None, "Insufficient data"%string)).
Proof.
  split; [|split; [|split; [|split; [|split; [|split; [|split]]]]]].
  - destruct f; try reflexivity; discriminate.
  - intros Hthere e He.
    destruct f; try reflexivity; try discriminate He; discriminate Hthere.
  - intros Hthere v Hv. destruct f; try discriminate Hv; try discriminate Hthere;
      exact Hv.
  - intro e. destruct f; cbn; split; intro H; try discriminate H;
      injection H as <-; reflexivity.
  - split.
    + intros [e He]. destruct f; try discriminate He. reflexivity.
    + intros ->. exists PermissionError. reflexivity.
  - intros v Hv Hnot. destruct f; cbn in Hv; try discriminate Hv;
      injection Hv as <-; try discriminate Hnot; [left | right]; reflexivity.
  - intros d s r before Hsave.
    apply save_score_appends in Hsave. destruct Hsave as [earlier ->].
    eexists. reflexivity.
  - intros [->|[->|[->| ->]]]; repeat split.
Qed.

Lemma load_history_cases_witness :
  HistoryManager.load_history Missing = Ok (JArray [])
  /\ HistoryManager.load_history Malformed = Ok (HistoryManager.history_json [])
  /\ HistoryManager.load_history (Holds (HistoryManager.history_json two_days))
     = Ok (HistoryManager.history_json two_days).
Proof.
  split; [|split].
  - apply (proj1 (load_history_cases Missing)). reflexivity.
  - apply (proj2 (proj2 (proj2 (proj2 (proj2 (proj2 (proj2
             (load_history_cases Malformed)))))))).
    right. right. right. reflexivity.
  - apply (proj1 (proj2 (proj2
             (load_history_cases (Holds (HistoryManager.history_json two_days)))))).
    + reflexivity.
    + reflexivity.
Defined.

(** C10, as stated.  At a file that holds the JSON document [{}], what
    [load_history] returns is that dict, not a list; and in a directory
    that cannot be searched [load_history] raises. *)
Lemma load_history_not_always_a_list :
  HistoryManager.load_history (Holds (JObject [])) = Ok (JObject [])
  /\ is_list (JObject []) = false
  /\ HistoryManager.load_history Inaccessible = Raise PermissionError.
Proof. repeat split. Qed.

(** * Further properties of the code *)

(** ** Counting rows *)

Lemma count_rows_cons (p : Row -> bool) (r : Row) (df : list Row) :
  BreadthAnalyzer.count_rows p (r :: df) =
  (Z.b2z (p r) + BreadthAnalyzer.count_rows p df)%Z.
Proof.
  unfold BreadthAnalyzer.count_rows. cbn [filter].
  destruct (p r); [rewrite len_cons|]; cbn [Z.b2z]; lia.
Qed.

Lemma count_rows_nonneg (p : Row -> bool) (df : list Row) :
  (0 <= BreadthAnalyzer.count_rows p df)%Z.
Proof. apply len_nonneg. Qed.

Lemma count_rows_le_len (p : Row -> bool) (df : list Row) :
  (BreadthAnalyzer.count_rows p df <= len df)%Z.
Proof.
  induction df as [|r df IH]; [reflexivity|].
  rewrite count_rows_cons, len_cons. destruct (p r); cbn [Z.b2z]; lia.
Qed.

Lemma scaled_quotient_bounds (k num den : Z) :
  (0 < den)%Z -> (- k * den <= num <= k * den)%Z ->
  inject_Z (- k) <= inject_Z num / inject_Z den <= inject_Z k.
Proof.
  intros Hden [Hlo Hhi].
  assert (Hd : 0 < inject_Z den).
  { change 0 with (inject_Z 0). rewrite <- Zlt_Qlt. assumption. }
  split.
  - apply Qle_shift_div_l; [assumption|].
    rewrite <- inject_Z_mult, <- Zle_Qle. assumption.
  - apply Qle_shift_div_r; [assumption|].
    rewrite <- inject_Z_mult, <- Zle_Qle. assumption.
Qed.


(** ** Sector breadth *)

Lemma sector_bucket_counts (sector_df : list Row) :
  let e := BreadthAnalyzer.sector_breadth_entry sector_df in
  (0 <= BreadthAnalyzer.up_strong e)%Z
  /\ (0 <= BreadthAnalyzer.up_moderate e)%Z
  /\ (0 <= BreadthAnalyzer.down_moderate e)%Z
  /\ (0 <= BreadthAnalyzer.down_strong e)%Z
  /\ (BreadthAnalyzer.up_strong e + BreadthAnalyzer.up_moderate e
      + BreadthAnalyzer.down_moderate e + BreadthAnalyzer.down_strong e
      <= len sector_df)%Z.
Proof.
  cbv zeta. unfold BreadthAnalyzer.sector_breadth_entry.
  cbn [BreadthAnalyzer.up_strong BreadthAnalyzer.up_moderate
       BreadthAnalyzer.down_moderate BreadthAnalyzer.down_strong].
  repeat (split; [apply count_rows_nonneg|]).
  induction sector_df as [|r df IH]; [reflexivity|].
  rewrite !count_rows_cons, len_cons.
  assert (Hrow :
    (Z.b2z (pct_change r >? Thresholds.STRONG_MOVE)%Q
     + Z.b2z ((pct_change r >? Thresholds.MODERATE_MOVE)%Q
              && (pct_change r <=? Thresholds.STRONG_MOVE)%Q)
     + Z.b2z ((pct_change r <? - Thresholds.MODERATE_MOVE)%Q
              && (pct_change r >=? - Thresholds.STRONG_MOVE)%Q)
     + Z.b2z (pct_change r <? - Thresholds.STRONG_MOVE)%Q <= 1)%Z).
  { unfold Thresholds.STRONG_MOVE, Thresholds.MODERATE_MOVE.
    by_comparisons; lia. }
  lia.
Qed.

Lemma sector_breadth_loop_In (items : list (string * list string))
    (df : list Row) (sector : string) (e : BreadthAnalyzer.sector_entry) :
  In (sector, e) (BreadthAnalyzer.sector_breadth_loop items df) ->
  exists stocks : list string,
    In (sector, stocks) items
    /\ e = BreadthAnalyzer.sector_breadth_entry
             (filter (fun r : Row => BreadthAnalyzer.isin (symbol r) stocks) df)
    /\ (1 <= len (filter (fun r : Row => BreadthAnalyzer.isin (symbol r) stocks) df))%Z.
Proof.
  induction items as [|[s stocks] items IH]; [intros []|].
  cbn [BreadthAnalyzer.sector_breadth_loop].
  destruct (len (filter (fun r : Row => BreadthAnalyzer.isin (symbol r) stocks) df)
            =? 0)%Z eqn:E.
  - intro Hin. destruct (IH Hin) as [st [H1 H2]].
    exists st. split; [right; exact H1 | exact H2].
  - intros [Heq|Hin].
    + injection Heq as <- <-. exists stocks.
      split; [left; reflexivity|]. split; [reflexivity|].
      apply Z.eqb_neq in E.
      pose proof (len_nonneg
        (filter (fun r : Row => BreadthAnalyzer.isin (symbol r) stocks) df)).
      lia.
    + destruct (IH Hin) as [st [H1 H2]].
      exists st. split; [right; exact H1 | exact H2].
Qed.

Lemma sector_breadth_loop_length (items : list (string * list string))
    (df : list Row) :
  (len (BreadthAnalyzer.sector_breadth_loop items df) <= len items)%Z.
Proof.
  induction items as [|[s stocks] items IH]; [reflexivity|].
  cbn [BreadthAnalyzer.sector_breadth_loop]. rewrite len_cons.
  destruct (_ =? 0)%Z; [|rewrite len_cons]; lia.
Qed.

Lemma sector_breadth_loop_no_match (items : list (string * list string))
    (df : list Row) :
  (forall r sector stocks,
     In r df -> In (sector, stocks) items ->
     BreadthAnalyzer.isin (symbol r) stocks = false) ->
  BreadthAnalyzer.sector_breadth_loop items df = [].
Proof.
  intro Hno. induction items as [|[s stocks] items IH]; [reflexivity|].
  cbn [BreadthAnalyzer.sector_breadth_loop].
  assert (Hnone : filter (fun r : Row => BreadthAnalyzer.isin (symbol r) stocks) df = []).
  { assert (Hall : forall r, In r df ->
                BreadthAnalyzer.isin (symbol r) stocks = false).
    { intros r Hr. apply (Hno r s stocks Hr). left. reflexivity. }
    clear -Hall. induction df as [|r df IHdf]; [reflexivity|].
    cbn [filter]. rewrite (Hall r) by (left; reflexivity).
    apply IHdf. intros x Hx. apply Hall. right. exact Hx. }
  rewrite Hnone. cbn [len List.length Z.of_nat Z.eqb].
  apply IH. intros r sector st Hr Hin. apply (Hno r sector st Hr).
  right. exact Hin.
Qed.

(** X1.  What [calculate_sector_breadth] reports: only sectors of [SECTORS] with
    at least one row of the table, at most 21 of them, a bullish count
    between 0 and their number, and a participation between 0 and 100 that
    is 0 when no row belongs to any sector. *)
Theorem sector_breadth_report (df : list Row) :
  let sd := BreadthAnalyzer.calculate_sector_breadth df in
  (forall sector e,
     In (sector, e) (BreadthAnalyzer.sectors sd) ->
     exists stocks,
       In (sector, stocks) SECTORS
       /\ BreadthAnalyzer.sector_total e =
            len (filter (fun r : Row => BreadthAnalyzer.isin (symbol r) stocks) df)
       /\ (1 <= BreadthAnalyzer.sector_total e)%Z)
  /\ BreadthAnalyzer.total_count sd = len (BreadthAnalyzer.sectors sd)
  /\ (0 <= BreadthAnalyzer.bullish_count sd <= BreadthAnalyzer.total_count sd)%Z
  /\ (BreadthAnalyzer.total_count sd <= 21)%Z
  /\ 0 <= BreadthAnalyzer.participation_pct sd <= 100
  /\ ((forall r sector stocks,
         In r df -> In (sector, stocks) SECTORS ->
         BreadthAnalyzer.isin (symbol r) stocks = false) ->
      BreadthAnalyzer.sectors sd = []
      /\ BreadthAnalyzer.participation_pct sd == 0).
Proof.
  cbv zeta. unfold BreadthAnalyzer.calculate_sector_breadth.
  cbn [BreadthAnalyzer.sectors BreadthAnalyzer.total_count
       BreadthAnalyzer.bullish_count BreadthAnalyzer.participation_pct].
  set (sb := BreadthAnalyzer.sector_breadth_loop SECTORS df).
  set (bullish := filter _ sb).
  assert (Hb : (0 <= len bullish <= len sb)%Z).
  { split; [apply len_nonneg|]. unfold bullish, len.
    apply inj_le, filter_length_le. }
  split.
  { intros sector e Hin.
    destruct (sector_breadth_loop_In _ _ _ _ Hin) as [stocks [H1 [H2 H3]]].
    exists stocks. split; [exact H1|]. subst e. split; [reflexivity | exact H3]. }
  split; [reflexivity|]. split; [exact Hb|]. split.
  { apply (sector_breadth_loop_length SECTORS df). }
  split.
  { round_between 0%Z 100%Z.
    destruct (len sb >? 0)%Z eqn:E; [|split; discriminate].
    assert (Hq : inject_Z (- 0) <= inject_Z (len bullish) / inject_Z (len sb)
                 /\ inject_Z (len bullish) / inject_Z (len sb) <= inject_Z 1).
    { split.
      - apply Qle_shift_div_l.
        + change 0 with (inject_Z 0). rewrite <- Zlt_Qlt. lia.
        + rewrite <- inject_Z_mult, <- Zle_Qle. lia.
      - apply Qle_shift_div_r.
        + change 0 with (inject_Z 0). rewrite <- Zlt_Qlt. lia.
        + rewrite <- inject_Z_mult, <- Zle_Qle. lia. }
    change (inject_Z (- 0)) with 0 in Hq. change (inject_Z 1) with 1 in Hq.
    change (inject_Z 0) with 0. change (inject_Z 100) with 100. lra. }
  intro Hno. unfold bullish, sb.
  rewrite (sector_breadth_loop_no_match SECTORS df Hno).
  split; reflexivity.
Qed.

Lemma sector_breadth_report_witness :
  BreadthAnalyzer.sectors (BreadthAnalyzer.calculate_sector_breadth vix_only) = []
  /\ BreadthAnalyzer.participation_pct
       (BreadthAnalyzer.calculate_sector_breadth vix_only) == 0.
Proof.
  apply (proj2 (proj2 (proj2 (proj2 (proj2 (sector_breadth_report vix_only)))))).
  intros r sector stocks [<-|[]] Hin.
  assert (Hall : forallb (fun p : string * list string =>
                   negb (BreadthAnalyzer.isin "^INDIAVIX" (snd p))) SECTORS = true).
  { vm_compute. reflexivity. }
  rewrite forallb_forall in Hall. specialize (Hall _ Hin).
  apply negb_true_iff in Hall. exact Hall.
Defined.

Lemma sector_total_entry (sector_df : list Row) :
  BreadthAnalyzer.sector_total (BreadthAnalyzer.sector_breadth_entry sector_df) =
  len sector_df.
Proof.
  unfold BreadthAnalyzer.sector_breadth_entry.
  cbn [BreadthAnalyzer.sector_total]. reflexivity.
Qed.

Lemma sectors_loop (df : list Row) :
  BreadthAnalyzer.sectors (BreadthAnalyzer.calculate_sector_breadth df) =
  BreadthAnalyzer.sector_breadth_loop SECTORS df.
Proof. reflexivity. Qed.

Lemma sector_net_entry (sector_df : list Row) :
  let e := BreadthAnalyzer.sector_breadth_entry sector_df in
  BreadthAnalyzer.net e =
  (BreadthAnalyzer.up_strong e - BreadthAnalyzer.down_strong e)%Z.
Proof.
  cbv zeta. unfold BreadthAnalyzer.sector_breadth_entry.
  cbn [BreadthAnalyzer.net BreadthAnalyzer.up_strong BreadthAnalyzer.down_strong].
  reflexivity.
Qed.

Lemma sector_status_sign (sector_df : list Row) :
  let e := BreadthAnalyzer.sector_breadth_entry sector_df in
  match BreadthAnalyzer.status e with
  | Bullish => (BreadthAnalyzer.down_strong e < BreadthAnalyzer.up_strong e)%Z
  | Bearish => (BreadthAnalyzer.up_strong e < BreadthAnalyzer.down_strong e)%Z
  | NeutralSector => BreadthAnalyzer.up_strong e = BreadthAnalyzer.down_strong e
  end.
Proof.
  cbv zeta. unfold BreadthAnalyzer.sector_breadth_entry.
  cbn [BreadthAnalyzer.status BreadthAnalyzer.up_strong BreadthAnalyzer.down_strong].
  destruct (_ >? 0)%Z eqn:E1; cbv iota; [lia|].
  destruct (_ <? 0)%Z eqn:E2; cbv iota; lia.
Qed.

Lemma sector_score_bounds (sector_df : list Row) :
  (1 <= len sector_df)%Z ->
  - (2) <= BreadthAnalyzer.sector_score
             (BreadthAnalyzer.sector_breadth_entry sector_df) <= 2.
Proof.
  intro Hlen.
  pose proof (sector_bucket_counts sector_df) as Hc. cbv zeta in Hc.
  unfold BreadthAnalyzer.sector_breadth_entry in *.
  cbn [BreadthAnalyzer.up_strong BreadthAnalyzer.up_moderate
       BreadthAnalyzer.down_moderate BreadthAnalyzer.down_strong
       BreadthAnalyzer.sector_score] in *.
  round_between (- 2)%Z 2%Z; apply (scaled_quotient_bounds 2); lia.
Qed.

(** X2.  Every reported sector: its four buckets hold different rows, so they
    sum to at most its total; its score lies in [-2, 2]; its net is
    [up_strong - down_strong] and its status is the sign of the net. *)
Theorem sector_entry_report (df : list Row) (sector : string)
    (e : BreadthAnalyzer.sector_entry) :
  In (sector, e)
     (BreadthAnalyzer.sectors (BreadthAnalyzer.calculate_sector_breadth df)) ->
  (0 <= BreadthAnalyzer.up_strong e)%Z
  /\ (0 <= BreadthAnalyzer.up_moderate e)%Z
  /\ (0 <= BreadthAnalyzer.down_moderate e)%Z
  /\ (0 <= BreadthAnalyzer.down_strong e)%Z
  /\ (BreadthAnalyzer.up_strong e + BreadthAnalyzer.up_moderate e
      + BreadthAnalyzer.down_moderate e + BreadthAnalyzer.down_strong e
      <= BreadthAnalyzer.sector_total e)%Z
  /\ - (2) <= BreadthAnalyzer.sector_score e <= 2
  /\ BreadthAnalyzer.net e =
       (BreadthAnalyzer.up_strong e - BreadthAnalyzer.down_strong e)%Z
  /\ match BreadthAnalyzer.status e with
     | Bullish => (BreadthAnalyzer.down_strong e < BreadthAnalyzer.up_strong e)%Z
     | Bearish => (BreadthAnalyzer.up_strong e < BreadthAnalyzer.down_strong e)%Z
     | NeutralSector => BreadthAnalyzer.up_strong e = BreadthAnalyzer.down_strong e
     end.
Proof.
  intro Hin. rewrite sectors_loop in Hin.
  destruct (sector_breadth_loop_In _ _ _ _ Hin) as [stocks [_ [He Hlen]]].
  subst e.
  pose proof (sector_bucket_counts
    (filter (fun r : Row => BreadthAnalyzer.isin (symbol r) stocks) df)) as Hc.
  cbv zeta in Hc. destruct Hc as [H1 [H2 [H3 [H4 H5]]]].
  split; [exact H1|]. split; [exact H2|]. split; [exact H3|].
  split; [exact H4|]. split; [rewrite sector_total_entry; exact H5|].
  split; [apply sector_score_bounds; exact Hlen|].
  split; [apply sector_net_entry|]. apply sector_status_sign.
Qed.

Lemma sector_entry_report_witness :
  exists e : BreadthAnalyzer.sector_entry,
    In ("Bank"%string, e)
       (BreadthAnalyzer.sectors
          (BreadthAnalyzer.calculate_sector_breadth
             (BreadthAnalyzer.classify_stocks six_up_four_down)))
    /\ - (2) <= BreadthAnalyzer.sector_score e <= 2.
Proof.
  eexists. split.
  - vm_compute. left. reflexivity.
  - apply (sector_entry_report
             (BreadthAnalyzer.classify_stocks six_up_four_down) "Bank").
    vm_compute. left. reflexivity.
Defined.

(** ** Magnitude analysis *)

Lemma magnitude_row_buckets (pc : Q) :
  (Z.b2z (BreadthAnalyzer.is_explosive_up pc)
   + Z.b2z (BreadthAnalyzer.is_strong_up pc)
   + Z.b2z (BreadthAnalyzer.is_moderate_up pc)
   + Z.b2z (BreadthAnalyzer.is_explosive_down pc)
   + Z.b2z (BreadthAnalyzer.is_strong_down pc)
   + Z.b2z (BreadthAnalyzer.is_moderate_down pc) <= 1)%Z.
Proof.
  unfold BreadthAnalyzer.is_explosive_up, BreadthAnalyzer.is_strong_up,
    BreadthAnalyzer.is_moderate_up, BreadthAnalyzer.is_explosive_down,
    BreadthAnalyzer.is_strong_down, BreadthAnalyzer.is_moderate_down,
    Thresholds.STRONG_MOVE, Thresholds.STRONG_EXPLOSIVE, Thresholds.EXPLOSIVE_MOVE.
  by_comparisons; lia.
Qed.

(** X3.  The six buckets of [calculate_magnitude_analysis] hold different rows:
    their counts sum to at most the size of the table, and the ultra score
    lies in [-3, 3]. *)
Theorem magnitude_report (df : list Row) :
  let md := BreadthAnalyzer.calculate_magnitude_analysis df in
  (0 <= BreadthAnalyzer.explosive_up md)%Z
  /\ (0 <= BreadthAnalyzer.strong_up md)%Z
  /\ (0 <= BreadthAnalyzer.moderate_up md)%Z
  /\ (0 <= BreadthAnalyzer.explosive_down md)%Z
  /\ (0 <= BreadthAnalyzer.strong_down md)%Z
  /\ (0 <= BreadthAnalyzer.moderate_down md)%Z
  /\ (BreadthAnalyzer.explosive_up md + BreadthAnalyzer.strong_up md
      + BreadthAnalyzer.moderate_up md + BreadthAnalyzer.explosive_down md
      + BreadthAnalyzer.strong_down md + BreadthAnalyzer.moderate_down md
      <= len df)%Z
  /\ - (3) <= BreadthAnalyzer.ultra_score md <= 3.
Proof.
  cbv zeta. unfold BreadthAnalyzer.calculate_magnitude_analysis.
  cbn [BreadthAnalyzer.explosive_up BreadthAnalyzer.strong_up
       BreadthAnalyzer.moderate_up BreadthAnalyzer.explosive_down
       BreadthAnalyzer.strong_down BreadthAnalyzer.moderate_down
       BreadthAnalyzer.ultra_score].
  do 6 (split; [apply count_rows_nonneg|]).
  assert (Hsum :
    (BreadthAnalyzer.count_rows
       (fun r : Row => BreadthAnalyzer.is_explosive_up (pct_change r)) df
     + BreadthAnalyzer.count_rows
         (fun r : Row => BreadthAnalyzer.is_strong_up (pct_change r)) df
     + BreadthAnalyzer.count_rows
         (fun r : Row => BreadthAnalyzer.is_moderate_up (pct_change r)) df
     + BreadthAnalyzer.count_rows
         (fun r : Row => BreadthAnalyzer.is_explosive_down (pct_change r)) df
     + BreadthAnalyzer.count_rows
         (fun r : Row => BreadthAnalyzer.is_strong_down (pct_change r)) df
     + BreadthAnalyzer.count_rows
         (fun r : Row => BreadthAnalyzer.is_moderate_down (pct_change r)) df
     <= len df)%Z).
  { induction df as [|r df IH]; [reflexivity|].
    rewrite !count_rows_cons, len_cons.
    pose proof (magnitude_row_buckets (pct_change r)). lia. }
  split; [exact Hsum|].
  round_between (- 3)%Z 3%Z.
  destruct (len df >? 0)%Z eqn:E; [|split; discriminate].
  apply (scaled_quotient_bounds 3); [lia|].
  pose proof (count_rows_nonneg
    (fun r : Row => BreadthAnalyzer.is_explosive_up (pct_change r)) df).
  pose proof (count_rows_nonneg
    (fun r : Row => BreadthAnalyzer.is_strong_up (pct_change r)) df).
  pose proof (count_rows_nonneg
    (fun r : Row => BreadthAnalyzer.is_moderate_up (pct_change r)) df).
  pose proof (count_rows_nonneg
    (fun r : Row => BreadthAnalyzer.is_explosive_down (pct_change r)) df).
  pose proof (count_rows_nonneg
    (fun r : Row => BreadthAnalyzer.is_strong_down (pct_change r)) df).
  pose proof (count_rows_nonneg
    (fun r : Row => BreadthAnalyzer.is_moderate_down (pct_change r)) df).
  lia.
Qed.

Lemma Qeq_bool_reflect (x y : Q) : reflect (x == y) (Qeq_bool x y).
Proof. apply iff_reflect. symmetry. apply Qeq_bool_iff. Qed.

Lemma bull_row_buckets (pc vr : Q) :
  (Z.b2z (BreadthAnalyzer.is_explosive_up pc)
   + Z.b2z (BreadthAnalyzer.is_strong_up pc)
   + Z.b2z (BreadthAnalyzer.is_moderate_up pc)
   = Z.b2z (Category_eqb (classifier_rule pc vr) StrongBull)
     + Z.b2z (Category_eqb (classifier_rule pc vr) WeakBull)
     + Z.b2z (Qeq_bool pc Thresholds.STRONG_MOVE))%Z.
Proof.
  unfold BreadthAnalyzer.is_explosive_up, BreadthAnalyzer.is_strong_up,
    BreadthAnalyzer.is_moderate_up, classifier_rule,
    Thresholds.STRONG_MOVE, Thresholds.STRONG_EXPLOSIVE,
    Thresholds.EXPLOSIVE_MOVE, Thresholds.VOLUME_MULTIPLIER.
  destruct (Qeq_bool_reflect pc 2); by_comparisons.
Qed.

Lemma bear_row_buckets (pc vr : Q) :
  (Z.b2z (BreadthAnalyzer.is_explosive_down pc)
   + Z.b2z (BreadthAnalyzer.is_strong_down pc)
   + Z.b2z (BreadthAnalyzer.is_moderate_down pc)
   + Z.b2z (Qeq_bool pc (- Thresholds.EXPLOSIVE_MOVE))
   = Z.b2z (Category_eqb (classifier_rule pc vr) StrongBear)
     + Z.b2z (Category_eqb (classifier_rule pc vr) WeakBear)
     + Z.b2z (Qeq_bool pc (- Thresholds.STRONG_MOVE)))%Z.
Proof.
  unfold BreadthAnalyzer.is_explosive_down, BreadthAnalyzer.is_strong_down,
    BreadthAnalyzer.is_moderate_down, classifier_rule,
    Thresholds.STRONG_MOVE, Thresholds.STRONG_EXPLOSIVE,
    Thresholds.EXPLOSIVE_MOVE, Thresholds.VOLUME_MULTIPLIER.
  destruct (Qeq_bool_reflect pc (- (2))), (Qeq_bool_reflect pc (- (5)));
    by_comparisons.
Qed.

(** X4.  The magnitude buckets against the categories, on one classified table.
    The up buckets hold the bulls and the instruments up exactly
    [STRONG_MOVE], which are Neutral.  The down buckets hold the bears and
    the instruments down exactly [STRONG_MOVE], without those down exactly
    [EXPLOSIVE_MOVE]. *)
Theorem magnitude_buckets_and_categories (quotes : list Quote) :
  let rows := BreadthAnalyzer.classify_stocks quotes in
  let bd := BreadthAnalyzer.calculate_breadth_score rows in
  let md := BreadthAnalyzer.calculate_magnitude_analysis rows in
  (BreadthAnalyzer.explosive_up md + BreadthAnalyzer.strong_up md
   + BreadthAnalyzer.moderate_up md
   = BreadthAnalyzer.total_bulls bd
     + BreadthAnalyzer.count_rows
         (fun r : Row => Qeq_bool (pct_change r) Thresholds.STRONG_MOVE) rows)%Z
  /\ (BreadthAnalyzer.explosive_down md + BreadthAnalyzer.strong_down md
      + BreadthAnalyzer.moderate_down md
      + BreadthAnalyzer.count_rows
          (fun r : Row => Qeq_bool (pct_change r) (- Thresholds.EXPLOSIVE_MOVE)) rows
      = BreadthAnalyzer.total_bears bd
        + BreadthAnalyzer.count_rows
            (fun r : Row => Qeq_bool (pct_change r) (- Thresholds.STRONG_MOVE)) rows)%Z
  /\ (BreadthAnalyzer.total_bulls bd
      <= BreadthAnalyzer.explosive_up md + BreadthAnalyzer.strong_up md
         + BreadthAnalyzer.moderate_up md)%Z.
Proof.
  cbv zeta.
  unfold BreadthAnalyzer.calculate_breadth_score,
    BreadthAnalyzer.calculate_magnitude_analysis.
  cbn [BreadthAnalyzer.explosive_up BreadthAnalyzer.strong_up
       BreadthAnalyzer.moderate_up BreadthAnalyzer.explosive_down
       BreadthAnalyzer.strong_down BreadthAnalyzer.moderate_down
       BreadthAnalyzer.total_bulls BreadthAnalyzer.total_bears].
  assert (H : forall rows : list Row,
    rows = BreadthAnalyzer.classify_stocks quotes ->
    (BreadthAnalyzer.count_rows
       (fun r : Row => BreadthAnalyzer.is_explosive_up (pct_change r)) rows
     + BreadthAnalyzer.count_rows
         (fun r : Row => BreadthAnalyzer.is_strong_up (pct_change r)) rows
     + BreadthAnalyzer.count_rows
         (fun r : Row => BreadthAnalyzer.is_moderate_up (pct_change r)) rows
     = BreadthAnalyzer.value_count StrongBull rows
       + BreadthAnalyzer.value_count WeakBull rows
       + BreadthAnalyzer.count_rows
           (fun r : Row => Qeq_bool (pct_change r) Thresholds.STRONG_MOVE) rows)%Z
    /\ (BreadthAnalyzer.count_rows
          (fun r : Row => BreadthAnalyzer.is_explosive_down (pct_change r)) rows
        + BreadthAnalyzer.count_rows
            (fun r : Row => BreadthAnalyzer.is_strong_down (pct_change r)) rows
        + BreadthAnalyzer.count_rows
            (fun r : Row => BreadthAnalyzer.is_moderate_down (pct_change r)) rows
        + BreadthAnalyzer.count_rows
            (fun r : Row => Qeq_bool (pct_change r) (- Thresholds.EXPLOSIVE_MOVE)) rows
        = BreadthAnalyzer.value_count StrongBear rows
          + BreadthAnalyzer.value_count WeakBear rows
          + BreadthAnalyzer.count_rows
              (fun r : Row => Qeq_bool (pct_change r) (- Thresholds.STRONG_MOVE)) rows)%Z).
  { induction quotes as [|q quotes IH]; intros rows ->.
    - split; reflexivity.
    - rewrite classify_stocks_cons, classify_row. cbn [app].
      rewrite !count_rows_cons, !value_count_cons.
      cbn [quote category pct_change].
      repeat match goal with
      | |- context [if ?b then 1%Z else 0%Z] =>
          change (if b then 1%Z else 0%Z) with (Z.b2z b)
      end.
      pose proof (bull_row_buckets (pct_change q) (volume_ratio q)).
      pose proof (bear_row_buckets (pct_change q) (volume_ratio q)).
      destruct (IH _ eq_refl) as [IH1 IH2].
      split; lia. }
  destruct (H _ eq_refl) as [H1 H2].
  split; [exact H1|]. split; [exact H2|].
  pose proof (count_rows_nonneg
    (fun r : Row => Qeq_bool (pct_change r) Thresholds.STRONG_MOVE)
    (BreadthAnalyzer.classify_stocks quotes)).
  lia.
Qed.


(** ** Bull/bear ratio *)

(** X5.  The totals of the snapshot add up, and the bull/bear ratio is the
    infinite sentinel exactly when there is no bear, also when there is no
    bull either; otherwise it is a non-negative number, the float quotient
    of the two totals rounded by [round] to two decimals. *)
Theorem bull_bear_ratio_report (rows : list Row) :
  let bd := BreadthAnalyzer.calculate_breadth_score rows in
  BreadthAnalyzer.total_bulls bd =
    (BreadthAnalyzer.strong_bulls bd + BreadthAnalyzer.weak_bulls bd)%Z
  /\ BreadthAnalyzer.total_bears bd =
       (BreadthAnalyzer.strong_bears bd + BreadthAnalyzer.weak_bears bd)%Z
  /\ (BreadthAnalyzer.total_bulls bd + BreadthAnalyzer.total_bears bd
      + BreadthAnalyzer.neutral bd = BreadthAnalyzer.total bd)%Z
  /\ (BreadthAnalyzer.bull_bear_ratio bd = Inf
      <-> BreadthAnalyzer.total_bears bd = 0%Z)
  /\ (forall q : Q,
        BreadthAnalyzer.bull_bear_ratio bd = Finite q ->
        0 <= q
        /\ q = py_round (inject_Z (BreadthAnalyzer.total_bulls bd)
                         / inject_Z (BreadthAnalyzer.total_bears bd)) 2).
Proof.
  cbv zeta. unfold BreadthAnalyzer.calculate_breadth_score.
  cbn [BreadthAnalyzer.total_bulls BreadthAnalyzer.total_bears
       BreadthAnalyzer.strong_bulls BreadthAnalyzer.weak_bulls
       BreadthAnalyzer.strong_bears BreadthAnalyzer.weak_bears
       BreadthAnalyzer.neutral BreadthAnalyzer.total
       BreadthAnalyzer.bull_bear_ratio].
  pose proof (value_counts_total rows) as Htot.
  pose proof (value_count_nonneg StrongBull rows) as H1.
  pose proof (value_count_nonneg WeakBull rows) as H2.
  pose proof (value_count_nonneg StrongBear rows) as H3.
  pose proof (value_count_nonneg WeakBear rows) as H4.
  split; [reflexivity|]. split; [reflexivity|]. split; [lia|].
  unfold BreadthAnalyzer.unrounded_ratio.
  destruct (_ >? 0)%Z eqn:E; cbn [pyfloat_round].
  - split; [split; [discriminate | lia]|].
    intros q Hq. injection Hq as <-. split; [|reflexivity].
    apply py_round_nonneg, Qle_shift_div_l.
    + change 0 with (inject_Z 0). rewrite <- Zlt_Qlt. lia.
    + rewrite Qmult_0_l. change 0 with (inject_Z 0). rewrite <- Zle_Qle. lia.
  - split; [split; [lia | reflexivity]|]. intros q Hq. discriminate Hq.
Qed.

Lemma bull_bear_ratio_report_witness :
  0 <= 150 # 100
  /\ (BreadthAnalyzer.bull_bear_ratio
        (BreadthAnalyzer.calculate_breadth_score all_flat) = Inf).
Proof.
  split.
  - apply (proj2 (proj2 (proj2 (proj2
      (bull_bear_ratio_report
         (BreadthAnalyzer.classify_stocks six_up_four_down)))))).
    vm_compute. reflexivity.
  - apply (proj1 (proj2 (proj2 (proj2 (bull_bear_ratio_report all_flat))))).
    reflexivity.
Defined.

(** ** Regimes in order *)

(** X6.  A higher score never selects a more bearish regime. *)
Theorem regime_monotone (s s' : Q) :
  s <= s' ->
  (regime_rank (BreadthAnalyzer.regime_key_of s)
   <= regime_rank (BreadthAnalyzer.regime_key_of s'))%Z.
Proof.
  intro Hle.
  pose proof (regime_key_of_band s) as Hs.
  pose proof (regime_key_of_band s') as Hs'.
  unfold Thresholds.EXTREME_BULL, Thresholds.STRONG_BULL, Thresholds.WEAK_BULL,
    Thresholds.NO_TRADE_LOW, Thresholds.WEAK_BEAR, Thresholds.STRONG_BEAR in *.
  destruct (BreadthAnalyzer.regime_key_of s), (BreadthAnalyzer.regime_key_of s');
    cbn [regime_rank]; first [lia | exfalso; lra].
Qed.

Lemma regime_monotone_witness :
  (regime_rank (BreadthAnalyzer.regime_key_of (- (5 # 10)))
   <= regime_rank (BreadthAnalyzer.regime_key_of (2 # 10)))%Z.
Proof. apply regime_monotone. vm_compute. discriminate. Defined.

(** X7.  The narrow-leadership warning is appended to the action of the regime
    exactly when the participation is below [WEAK_PARTICIPATION] and the
    score is positive.  It then goes with a bull regime or with NO TRADE,
    never with a bear regime; in every other case the action is the one of
    the [REGIMES] table. *)
Theorem narrow_leadership_warning_cases
    (bd : BreadthAnalyzer.breadth_data) (sd : BreadthAnalyzer.sector_data) :
  let k := BreadthAnalyzer.regime_key_of (BreadthAnalyzer.score bd) in
  (BreadthAnalyzer.participation_pct sd < Thresholds.WEAK_PARTICIPATION
   /\ 0 < BreadthAnalyzer.score bd ->
   snd (BreadthAnalyzer.classify_regime bd sd) =
     (action (REGIMES k) ++ BreadthAnalyzer.narrow_leadership_warning)%string
   /\ (3 <= regime_rank k)%Z)
  /\ (~ (BreadthAnalyzer.participation_pct sd < Thresholds.WEAK_PARTICIPATION
         /\ 0 < BreadthAnalyzer.score bd) ->
      snd (BreadthAnalyzer.classify_regime bd sd) = action (REGIMES k)).
Proof.
  cbv zeta. unfold BreadthAnalyzer.classify_regime. cbn [snd].
  split.
  - intros [Hp Hs]. split.
    + apply Qltb_lt in Hp. apply Qgtb_gt in Hs. rewrite Hp, Hs. reflexivity.
    + pose proof (regime_key_of_band (BreadthAnalyzer.score bd)) as Hb.
      unfold Thresholds.EXTREME_BULL, Thresholds.STRONG_BULL,
        Thresholds.WEAK_BULL, Thresholds.NO_TRADE_LOW, Thresholds.WEAK_BEAR,
        Thresholds.STRONG_BEAR in Hb.
      destruct (BreadthAnalyzer.regime_key_of (BreadthAnalyzer.score bd));
        cbn [regime_rank]; first [lia | exfalso; lra].
  - intro Hnot.
    destruct (Qltb_reflect (BreadthAnalyzer.participation_pct sd)
                Thresholds.WEAK_PARTICIPATION) as [Hp|Hp]; [|reflexivity].
    unfold Qgtb.
    destruct (Qltb_reflect 0 (BreadthAnalyzer.score bd)) as [Hs|Hs];
      [|reflexivity].
    exfalso. apply Hnot. split; assumption.
Qed.

Lemma narrow_leadership_warning_cases_witness :
  snd (BreadthAnalyzer.classify_regime narrow_rally few_sectors_up) =
    (action (REGIMES NO_TRADE) ++ BreadthAnalyzer.narrow_leadership_warning)%string
  /\ snd (BreadthAnalyzer.classify_regime narrow_rally
            (BreadthAnalyzer.calculate_sector_breadth
               (BreadthAnalyzer.classify_stocks six_up_four_down))) =
     action (REGIMES NO_TRADE).
Proof.
  split.
  - apply (proj1 (narrow_leadership_warning_cases narrow_rally few_sectors_up)).
    vm_compute. split; reflexivity.
  - apply (proj2 (narrow_leadership_warning_cases narrow_rally
                    (BreadthAnalyzer.calculate_sector_breadth
                       (BreadthAnalyzer.classify_stocks six_up_four_down)))).
    vm_compute. intros [H _]. discriminate H.
Defined.

(** ** Reading the history *)

Lemma Qsum_bounds (lo hi : Q) (l : list Q) :
  (forall x, In x l -> lo <= x <= hi) ->
  lo * inject_Z (len l) <= Qsum l <= hi * inject_Z (len l).
Proof.
  induction l as [|x l IH]; intro Hall.
  - change (len (@nil Q)) with 0%Z. change (Qsum []) with 0.
    change (inject_Z 0) with 0. split; lra.
  - rewrite len_cons, inject_Z_plus. cbn [Qsum fold_right].
    fold (Qsum l).
    destruct (Hall x (or_introl eq_refl)) as [Hlo Hhi].
    destruct IH as [IHlo IHhi].
    { intros y Hy. apply Hall. right. exact Hy. }
    change (inject_Z 1) with 1. split; lra.
Qed.

Lemma mean_bounds (lo hi : Q) (l : list Q) :
  l <> [] ->
  (forall x, In x l -> lo <= x <= hi) ->
  lo <= Qsum l / inject_Z (len l) <= hi.
Proof.
  intros Hne Hall. destruct (Qsum_bounds lo hi l Hall) as [Hlo Hhi].
  assert (Hpos : 0 < inject_Z (len l)).
  { change 0 with (inject_Z 0). rewrite <- Zlt_Qlt.
    destruct l; [contradiction|]. rewrite len_cons.
    pose proof (len_nonneg l). lia. }
  split.
  - apply Qle_shift_div_l; assumption.
  - apply Qle_shift_div_r; assumption.
Qed.

Lemma py_slice_last_In {A : Type} (n : nat) (l : list A) (x : A) :
  In x (py_slice_last n l) -> In x l.
Proof.
  destruct n; [exact (fun H => H)|]. unfold py_slice_last. apply In_skipn.
Qed.

Lemma py_slice_last_nonempty {A : Type} (n : nat) (l : list A) :
  l <> [] -> py_slice_last n l <> [].
Proof.
  intros Hne Hnil. destruct n; [contradiction|].
  apply (f_equal (@List.length A)) in Hnil. unfold py_slice_last in Hnil.
  rewrite length_skipn in Hnil. cbn [List.length] in Hnil.
  destruct l; [contradiction|]. cbn [List.length] in Hnil. lia.
Qed.

(** *** The float sum of at most thirty scores

    Each addition rounds its two operands and its result; on sums that
    stay below 64 every rounding is off by at most [2 ^ -47], so that the
    float sum of [n] scores between -2 and 2 is within [n * 2 ^ -45] of
    the exact sum. *)
Lemma fold_float_add_near (rest : list Q) :
  forall (acc exact : Q) (k : nat),
  (1 <= k)%nat -> (k + List.length rest <= 30)%nat ->
  (forall x, In x rest -> - (2) <= x <= 2) ->
  - (inject_Z (Z.of_nat k) * 2) <= exact <= inject_Z (Z.of_nat k) * 2 ->
  - (inject_Z (Z.of_nat k) * pow2 (- 45)) <= acc - exact
    <= inject_Z (Z.of_nat k) * pow2 (- 45) ->
  - (inject_Z (Z.of_nat (k + List.length rest)) * pow2 (- 45))
    <= fold_left float_add rest acc - (exact + Qsum rest)
    <= inject_Z (Z.of_nat (k + List.length rest)) * pow2 (- 45).
Proof.
  induction rest as [|x rest IH]; intros acc exact k Hk Hn Hall Hexact Hacc.
  - cbn [fold_left Qsum fold_right List.length].
    rewrite Nat.add_0_r. lra.
  - cbn [fold_left Qsum fold_right List.length] in *.
    fold (Qsum rest).
    replace (k + S (List.length rest))%nat with (S k + List.length rest)%nat
      by lia.
    setoid_replace (exact + (x + Qsum rest)) with ((exact + x) + Qsum rest)
      by ring.
    destruct (Hall x (or_introl eq_refl)) as [Hx1 Hx2].
    assert (HK : inject_Z (Z.of_nat (S k)) == inject_Z (Z.of_nat k) + 1).
    { rewrite Nat2Z.inj_succ. unfold Z.succ. rewrite inject_Z_plus. reflexivity. }
    assert (HK1 : 1 <= inject_Z (Z.of_nat k)).
    { change 1 with (inject_Z 1). rewrite <- Zle_Qle. lia. }
    assert (HK29 : inject_Z (Z.of_nat k) <= 29).
    { change 29 with (inject_Z 29). rewrite <- Zle_Qle. lia. }
    set (K := inject_Z (Z.of_nat k)) in *.
    assert (He : 0 < pow2 (- 45)) by apply pow2_pos.
    assert (E47 : pow2 (6 - 53) == pow2 (- 45) * (1 # 4)) by reflexivity.
    assert (E52 : pow2 (1 - 53) == pow2 (- 45) * (1 # 128)) by reflexivity.
    assert (Esmall : pow2 (- 45) <= 1 # 1000) by (apply Qle_bool_iff; reflexivity).
    set (e := pow2 (- 45)) in *.
    assert (HKe : K * e <= 29 * e) by (apply Qmult_le_compat_r; lra).
    assert (HKe0 : 0 <= K * e) by (apply Qmult_le_0_compat; lra).
    destruct (binary64_near acc 6) as [A1 A2];
      [lia | change (pow2 6) with 64; lra | change (pow2 6) with 64; lra |].
    destruct (binary64_near x 1) as [X1 X2];
      [lia | change (pow2 1) with 2; lra | change (pow2 1) with 2; lra |].
    set (t := binary64 acc + binary64 x).
    destruct (binary64_near t 6) as [T1 T2];
      [lia | change (pow2 6) with 64; unfold t; lra
           | change (pow2 6) with 64; unfold t; lra |].
    apply IH.
    + lia.
    + lia.
    + intros y Hy. apply Hall. right. exact Hy.
    + rewrite HK. fold K. split; lra.
    + rewrite HK. fold K. unfold float_add. fold t.
      rewrite E47 in A1, A2, T1, T2. rewrite E52 in X1, X2.
      unfold t in *. split; lra.
Qed.

Lemma float_sum_near (scores : list Q) :
  scores <> [] -> (List.length scores <= 30)%nat ->
  (forall x, In x scores -> - (2) <= x <= 2) ->
  - (30 * pow2 (- 45)) <= float_sum scores - Qsum scores <= 30 * pow2 (- 45).
Proof.
  intros Hne Hlen Hall. destruct scores as [|first rest]; [contradiction|].
  cbn [float_sum Qsum fold_right List.length] in *. fold (Qsum rest).
  destruct (Hall first (or_introl eq_refl)) as [H1 H2].
  pose proof (pow2_pos (- 45)) as He.
  destruct (fold_float_add_near rest first first 1) as [A B].
  - lia.
  - lia.
  - intros x Hx. apply Hall. right. exact Hx.
  - change (inject_Z (Z.of_nat 1)) with 1. lra.
  - change (inject_Z (Z.of_nat 1)) with 1. lra.
  - assert (Hn : inject_Z (Z.of_nat (1 + List.length rest)) <= 30).
    { change 30 with (inject_Z 30). rewrite <- Zle_Qle. lia. }
    assert (Hne' : inject_Z (Z.of_nat (1 + List.length rest)) * pow2 (- 45)
                   <= 30 * pow2 (- 45))
      by (apply Qmult_le_compat_r; lra).
    split; lra.
Qed.

Lemma round_decimal_slack (a b : Z) (x : Q) (n : nat) :
  inject_Z a / pow10 n - (1 # 2) / pow10 n < x ->
  x < inject_Z b / pow10 n + (1 # 2) / pow10 n ->
  inject_Z a / pow10 n <= round_decimal x n <= inject_Z b / pow10 n.
Proof.
  intros Ha Hb. pose proof (pow10_pos n) as Hp.
  destruct (round_half_even_near (x * pow10 n)) as [N1 N2].
  set (m := round_half_even (x * pow10 n)) in *.
  assert (Ea : (inject_Z a / pow10 n - (1 # 2) / pow10 n) * pow10 n
               == inject_Z a - (1 # 2)) by (field; lra).
  assert (Eb : (inject_Z b / pow10 n + (1 # 2) / pow10 n) * pow10 n
               == inject_Z b + (1 # 2)) by (field; lra).
  assert (Ha' : inject_Z a - (1 # 2) < x * pow10 n).
  { rewrite <- Ea. apply Qmult_lt_compat_r; assumption. }
  assert (Hb' : x * pow10 n < inject_Z b + (1 # 2)).
  { rewrite <- Eb. apply Qmult_lt_compat_r; assumption. }
  assert (Hm : (a <= m <= b)%Z).
  { assert (A : inject_Z a < inject_Z m + 1) by lra.
    assert (B : inject_Z m < inject_Z b + 1) by lra.
    change 1 with (inject_Z 1) in A, B.
    rewrite <- inject_Z_plus in A, B. rewrite <- Zlt_Qlt in A, B. lia. }
  unfold round_decimal. fold m. split.
  - apply Qle_shift_div_l; [exact Hp|].
    setoid_replace (inject_Z a / pow10 n * pow10 n) with (inject_Z a)
      by (field; lra).
    rewrite <- Zle_Qle. lia.
  - apply Qle_shift_div_r; [exact Hp|].
    setoid_replace (inject_Z b / pow10 n * pow10 n) with (inject_Z b)
      by (field; lra).
    rewrite <- Zle_Qle. lia.
Qed.

(** The rounded float mean of at most thirty scores between -2 and 2 stays
    between any two bounds in thousandths that hold for the scores. *)
Lemma rounded_float_mean_bounds (lo hi : Z) (scores : list Q) :
  scores <> [] -> (List.length scores <= 30)%nat ->
  (- 2000 <= lo)%Z -> (hi <= 2000)%Z ->
  (forall x, In x scores -> inject_Z lo / pow10 3 <= x <= inject_Z hi / pow10 3) ->
  inject_Z lo / pow10 3
  <= py_round (float_sum scores / inject_Z (len scores)) 3
  <= inject_Z hi / pow10 3.
Proof.
  intros Hne Hlen Hlo Hhi Hall.
  assert (Hlo' : - (2) <= inject_Z lo / pow10 3).
  { apply Qle_shift_div_l; [apply pow10_pos|].
    change (- (2) * pow10 3) with (inject_Z (- 2000)). rewrite <- Zle_Qle. exact Hlo. }
  assert (Hhi' : inject_Z hi / pow10 3 <= 2).
  { apply Qle_shift_div_r; [apply pow10_pos|].
    change (2 * pow10 3) with (inject_Z 2000). rewrite <- Zle_Qle. exact Hhi. }
  assert (Hall2 : forall x, In x scores -> - (2) <= x <= 2).
  { intros x Hx. destruct (Hall x Hx). split; lra. }
  destruct (float_sum_near scores Hne Hlen Hall2) as [S1 S2].
  destruct (mean_bounds _ _ scores Hne Hall) as [M1 M2].
  assert (Hn : 1 <= inject_Z (len scores)).
  { change 1 with (inject_Z 1). rewrite <- Zle_Qle.
    destruct scores; [contradiction|]. rewrite len_cons.
    pose proof (len_nonneg scores). lia. }
  set (n := inject_Z (len scores)) in *.
  set (e := pow2 (- 45)) in *.
  assert (He : 0 < e) by apply pow2_pos.
  assert (Esmall : e <= 1 # 1000000) by (apply Qle_bool_iff; reflexivity).
  assert (E51 : pow2 (2 - 53) == e * (1 # 64)) by reflexivity.
  assert (Ehalf : (1 # 2) / pow10 3 == 1 # 2000) by reflexivity.
  (* the float mean is close to the exact one *)
  assert (Hq : - (30 * e) <= float_sum scores / n - Qsum scores / n <= 30 * e).
  { assert (Ed : float_sum scores / n - Qsum scores / n
                 == (float_sum scores - Qsum scores) / n) by (field; lra).
    rewrite Ed. split.
    - apply Qle_shift_div_l; [lra|].
      apply Qle_trans with (- (30 * e)); [|exact S1].
      assert (30 * e <= 30 * e * n).
      { rewrite <- (Qmult_1_r (30 * e)) at 1. apply Qmult_le_l; lra. }
      lra.
    - apply Qle_shift_div_r; [lra|].
      apply Qle_trans with (30 * e); [exact S2|].
      rewrite <- (Qmult_1_r (30 * e)) at 1. apply Qmult_le_l; lra. }
  set (q := float_sum scores / n) in *.
  destruct (binary64_near q 2) as [B1 B2];
    [lia | change (pow2 2) with 4; lra | change (pow2 2) with 4; lra |].
  rewrite E51 in B1, B2.
  unfold py_round. apply round_decimal_slack; rewrite Ehalf; lra.
Qed.



(** X9.  [get_trend] with a lookback of at least one never raises.  It answers
    "Insufficient data" on fewer than [lookback] records; otherwise it
    compares the newest record with the one [lookback - 1] places before it,
    so that a lookback of one always answers "Stable".  With a lookback of
    zero on the empty history it raises [IndexError]. *)
Theorem trend_report
    (history : list HistoryManager.HistoryRecord) (lookback : nat) :
  ((List.length history < lookback)%nat ->
   HistoryManager.get_trend history lookback = Ok "Insufficient data"%string)
  /\ (forall earlier oldest middle newest,
        history = earlier ++ oldest :: middle ++ [newest] ->
        lookback = S (S (List.length middle)) ->
        let result := HistoryManager.get_trend history lookback in
        (result = Ok "Improving"%string
         <-> HistoryManager.score oldest < HistoryManager.score newest)
        /\ (result = Ok "Deteriorating"%string
            <-> HistoryManager.score newest < HistoryManager.score oldest)
        /\ (result = Ok "Stable"%string
            <-> HistoryManager.score newest == HistoryManager.score oldest))
  /\ (history <> [] ->
      HistoryManager.get_trend history 1 = Ok "Stable"%string)
  /\ ((1 <= lookback)%nat ->
      forall e : exn, HistoryManager.get_trend history lookback <> Raise e)
  /\ HistoryManager.get_trend [] 0 = Raise IndexError.
Proof.
  split; [|split; [|split; [|split]]].
  - intro Hshort. unfold HistoryManager.get_trend, len.
    replace (Z.of_nat (List.length history) <? Z.of_nat lookback)%Z with true;
      [reflexivity|].
    symmetry. apply Z.ltb_lt. lia.
  - intros earlier oldest middle newest -> ->. cbv zeta.
    unfold HistoryManager.get_trend.
    replace (len (earlier ++ oldest :: middle ++ [newest])
             <? Z.of_nat (S (S (List.length middle))))%Z with false.
    2:{ symmetry. apply Z.ltb_ge. unfold len.
        rewrite length_app. cbn [List.length]. rewrite length_app.
        cbn [List.length]. lia. }
    pose proof (py_slice_last_app earlier oldest (middle ++ [newest])) as Hw.
    cbn [List.length] in Hw. rewrite length_app in Hw. cbn [List.length] in Hw.
    replace (S (List.length middle + 1)) with (S (S (List.length middle))) in Hw
      by lia.
    rewrite Hw. cbn [map]. rewrite map_app. cbn [map].
    replace (List.last (HistoryManager.score oldest
                        :: map HistoryManager.score middle
                           ++ [HistoryManager.score newest])
               (HistoryManager.score oldest))
      with (HistoryManager.score newest).
    2:{ symmetry.
        change (HistoryManager.score oldest
                :: map HistoryManager.score middle ++ [HistoryManager.score newest])
          with ((HistoryManager.score oldest :: map HistoryManager.score middle)
                ++ [HistoryManager.score newest]).
        apply last_last. }
    unfold Qgtb.
    destruct (Qltb_reflect (HistoryManager.score oldest)
                (HistoryManager.score newest)),
             (Qltb_reflect (HistoryManager.score newest)
                (HistoryManager.score oldest));
      repeat split; intros; try discriminate; try reflexivity; try lra.
  - intro Hne. unfold HistoryManager.get_trend.
    destruct history as [|r0 history]; [contradiction|].
    replace (len (r0 :: history) <? Z.of_nat 1)%Z with false.
    2:{ symmetry. apply Z.ltb_ge. rewrite len_cons.
        pose proof (len_nonneg history). lia. }
    destruct (@exists_last _ (r0 :: history)) as [front [newest Heq]];
      [discriminate|].
    rewrite Heq.
    pose proof (py_slice_last_app front newest []) as Hw.
    cbn [List.length] in Hw. rewrite Hw. cbn [map List.last].
    unfold Qgtb.
    destruct (Qltb_reflect (HistoryManager.score newest)
                (HistoryManager.score newest)); [lra | reflexivity].
  - intros Hpos e. unfold HistoryManager.get_trend.
    destruct (len history <? Z.of_nat lookback)%Z eqn:E; [discriminate|].
    apply Z.ltb_ge in E. unfold len in E.
    assert (Hne : history <> []).
    { intros ->. cbn [List.length] in E. lia. }
    pose proof (py_slice_last_nonempty lookback history Hne) as Hw.
    destruct (py_slice_last lookback history) as [|r recent]; [contradiction|].
    cbn [map]. discriminate.
  - reflexivity.
Qed.

Lemma trend_report_witness :
  HistoryManager.get_trend falling 3 = Ok "Deteriorating"%string
  /\ HistoryManager.get_trend two_days 5 = Ok "Insufficient data"%string
  /\ HistoryManager.get_trend two_days 1 = Ok "Stable"%string.
Proof.
  split; [|split].
  - apply (proj1 (proj2 (proj1 (proj2 (trend_report falling 3))
             [] _ [_] _ eq_refl eq_refl))).
    vm_compute. reflexivity.
  - apply (proj1 (trend_report two_days 5)). vm_compute. lia.
  - apply (proj1 (proj2 (proj2 (trend_report two_days 1)))). discriminate.
Defined.


(** ** Writing the history *)

Lemma append_or_replace_NoDup (today : string) (s : Q) (r : string)
    (history : list HistoryManager.HistoryRecord) :
  NoDup (map HistoryManager.date history) ->
  NoDup (map HistoryManager.date (append_or_replace today s r history)).
Proof.
  intro Hnd. rewrite append_or_replace_snoc, map_app, <- skipn_map.
  apply NoDup_app.
  - apply NoDup_skipn, other_day_NoDup, Hnd.
  - repeat constructor. intros [].
  - intros a Ha [<-|[]]. apply In_skipn in Ha.
    exact (other_day_dates _ _ Ha).
Qed.

(** X10.  A write for a new day on a full store drops the oldest record and
    keeps the others in their order, with the new record last. *)
Theorem save_score_drops_oldest
    (oldest : HistoryManager.HistoryRecord)
    (rest : list HistoryManager.HistoryRecord)
    (d : datetime) (s : Q) (r : string) :
  List.length (oldest :: rest) = Thresholds.HISTORY_DAYS ->
  ~ In (strftime_Ymd d) (map HistoryManager.date (oldest :: rest)) ->
  HistoryManager.save_score d s r
    (Holds (HistoryManager.history_json (oldest :: rest))) =
  Ok (Holds (HistoryManager.history_json
               (rest ++ [{| HistoryManager.date := strftime_Ymd d;
                            HistoryManager.score := s;
                            HistoryManager.regime := r |}]))).
Proof.
  intros Hfull Hnew.
  rewrite (save_score_refines d s r _ (oldest :: rest)) by reflexivity.
  do 3 f_equal. rewrite append_or_replace_snoc.
  rewrite (filter_other_day_all _ _ Hnew), Hfull.
  replace (Thresholds.HISTORY_DAYS + 1 - Thresholds.HISTORY_DAYS)%nat
    with 1%nat by lia.
  reflexivity.
Qed.

Lemma save_score_drops_oldest_witness :
  exists kept : list HistoryManager.HistoryRecord,
    List.length kept = 29%nat
    /\ HistoryManager.save_score evening (8 # 10) (name (REGIMES STRONG_BULL))
         (Holds (HistoryManager.history_json september)) =
       Ok (Holds (HistoryManager.history_json
                    (kept ++ [{| HistoryManager.date := "2026-11-03";
                                 HistoryManager.score := 8 # 10;
                                 HistoryManager.regime :=
                                   name (REGIMES STRONG_BULL) |}]))).
Proof.
  exists (tl september). split; [reflexivity|].
  apply (save_score_drops_oldest (hd (written_record (evening, 0, ""%string))
                                     september) (tl september)).
  - reflexivity.
  - vm_compute. intuition discriminate.
Defined.

Lemma append_or_replace_length_min (today : string) (s : Q) (r : string)
    (history : list HistoryManager.HistoryRecord) :
  List.length (append_or_replace today s r history) =
  Nat.min Thresholds.HISTORY_DAYS
    (S (List.length (filter (other_day today) history))).
Proof.
  rewrite append_or_replace_snoc, length_app, length_skipn.
  cbn [List.length]. unfold Thresholds.HISTORY_DAYS. lia.
Qed.

Lemma record_json_inj (a b : HistoryManager.HistoryRecord) :
  HistoryManager.record_json a = HistoryManager.record_json b -> a = b.
Proof.
  destruct a, b. unfold HistoryManager.record_json, HistoryManager.new_record.
  cbn [HistoryManager.date HistoryManager.score HistoryManager.regime].
  intro H. injection H as -> -> ->. reflexivity.
Qed.

(** The persisted layout determines the records. *)
Lemma history_json_inj (h h' : list HistoryManager.HistoryRecord) :
  HistoryManager.history_json h = HistoryManager.history_json h' -> h = h'.
Proof.
  unfold HistoryManager.history_json. intro H. injection H as H.
  revert h' H. induction h as [|a h IH]; intros [|b h'] H;
    try discriminate H; [reflexivity|].
  cbn [map] in H.
  remember (HistoryManager.record_json a) as ja eqn:Eja.
  remember (HistoryManager.record_json b) as jb eqn:Ejb.
  injection H as Hhead Htail. subst ja jb.
  f_equal; [apply record_json_inj; exact Hhead | apply IH; exact Htail].
Qed.

Lemma save_all_cons (d : datetime) (s : Q) (r : string)
    (rest : list (datetime * Q * string)) (f : backing_file) :
  save_all ((d, s, r) :: rest) f =
  (f' <- HistoryManager.save_score d s r f ;; save_all rest f').
Proof. reflexivity. Qed.

(** X11.  A run of writes that starts without a file in a directory that
    can be written, with a corrupt file that can be written, or with a
    store that can be written and has at most [HISTORY_DAYS] records of
    pairwise distinct dates never raises, and leaves such a store again;
    after at least one write the file exists and its last record is the
    one of the last write.  Started on a store that cannot be opened for
    writing, or in a directory that cannot be searched, the first write
    raises [PermissionError]; without the directory it raises
    [FileNotFoundError]. *)
Theorem save_all_keeps_store
    (writes : list (datetime * Q * string)) (f : backing_file)
    (history : list HistoryManager.HistoryRecord) :
  NoDup (map HistoryManager.date history) ->
  (List.length history <= Thresholds.HISTORY_DAYS)%nat ->
  (f = Missing /\ history = [] \/ f = Malformed /\ history = []
   \/ f = Holds (HistoryManager.history_json history) ->
   exists (f' : backing_file) (history' : list HistoryManager.HistoryRecord),
     save_all writes f = Ok f'
     /\ HistoryManager.load_history f' = Ok (HistoryManager.history_json history')
     /\ NoDup (map HistoryManager.date history')
     /\ (List.length history' <= Thresholds.HISTORY_DAYS)%nat
     /\ (forall w, writes <> [] -> exists earlier,
           history' = earlier ++ [written_record (List.last writes w)]
           /\ f' = Holds (HistoryManager.history_json history')))
  /\ (writes <> [] ->
      f = Inaccessible \/ f = Unreadable
      \/ f = ReadOnly (HistoryManager.history_json history) ->
      save_all writes f = Raise PermissionError)
  /\ (writes <> [] -> f = NoDirectory ->
      save_all writes f = Raise FileNotFoundError).
Proof.
  intros Hnd Hcap. split; [|split].
  - intro Hf.
    assert (Hload : HistoryManager.load_history f
                    = Ok (HistoryManager.history_json history)).
    { destruct Hf as [[-> ->]|[[-> ->]| ->]]; reflexivity. }
    assert (Hwrite : forall document,
              HistoryManager.json_dump document f = Ok (Holds document)).
    { destruct Hf as [[-> ->]|[[-> ->]| ->]]; reflexivity. }
    clear Hf. revert f history Hload Hwrite Hnd Hcap.
    induction writes as [|[[d s] r] writes IH];
      intros f history Hload Hwrite Hnd Hcap.
    + exists f, history. repeat split; try assumption.
      intros w Hne. contradiction.
    + rewrite save_all_cons, (save_score_refines d s r f history Hload Hwrite).
      cbn [bind].
      set (h1 := append_or_replace (strftime_Ymd d) s r history).
      destruct (IH (Holds (HistoryManager.history_json h1)) h1 eq_refl
                  (fun _ => eq_refl))
        as [f' [h' [Hrun [Hl [Hnd' [Hcap' Hlast]]]]]].
      { apply append_or_replace_NoDup, Hnd. }
      { apply append_or_replace_length. }
      exists f', h'. repeat split; try assumption.
      intros w _. destruct writes as [|w1 writes].
      * cbn [save_all] in Hrun. injection Hrun as <-.
        cbn [HistoryManager.load_history HistoryManager.exists_
             HistoryManager.json_load bind] in Hl.
        assert (Heq : h' = h1).
        { symmetry. apply history_json_inj. congruence. }
        subst h'. unfold h1. rewrite append_or_replace_snoc.
        eexists. split; reflexivity.
      * destruct (Hlast w) as [earlier [He Hf']]; [discriminate|].
        exists earlier. split; [|exact Hf'].
        rewrite He. reflexivity.
  - intros Hne Hf. destruct writes as [|[[d s] r] writes]; [contradiction|].
    rewrite save_all_cons.
    destruct Hf as [->|[->| ->]]; [reflexivity| |].
    + unfold HistoryManager.save_score.
      cbn [HistoryManager.load_history HistoryManager.exists_
           HistoryManager.json_load HistoryManager.iter bind
           HistoryManager.without_date HistoryManager.json_dump].
      reflexivity.
    + unfold HistoryManager.save_score.
      cbn [HistoryManager.load_history HistoryManager.exists_
           HistoryManager.json_load bind].
      unfold HistoryManager.history_json. cbn [HistoryManager.iter bind].
      rewrite without_date_records. reflexivity.
  - intros Hne ->. destruct writes as [|[[d s] r] writes]; [contradiction|].
    reflexivity.
Qed.

Lemma save_all_keeps_store_witness :
  exists (f' : backing_file) (history' : list HistoryManager.HistoryRecord),
    save_all three_evenings Missing = Ok f'
    /\ HistoryManager.load_history f' = Ok (HistoryManager.history_json history')
    /\ NoDup (map HistoryManager.date history')
    /\ (List.length history' <= Thresholds.HISTORY_DAYS)%nat.
Proof.
  destruct (proj1 (save_all_keeps_store three_evenings Missing []
                     ltac:(constructor) ltac:(cbn; lia)))
    as [f' [h' [H1 [H2 [H3 [H4 _]]]]]].
  - left. split; reflexivity.
  - exists f', h'. repeat split; assumption.
Defined.

Lemma without_date_keyerror (today : string) (before : list json)
    (kv : list (string * json)) (rest : list json) :
  (forall h, In h before -> exists v, HistoryManager.getitem h "date" = Ok v) ->
  HistoryManager.getitem (JObject kv) "date" = Raise KeyError ->
  HistoryManager.without_date today (before ++ JObject kv :: rest) = Raise KeyError.
Proof.
  intros Hbefore Hkey. induction before as [|h before IH].
  - cbn [app]. rewrite without_date_cons, Hkey. reflexivity.
  - cbn [app]. rewrite without_date_cons.
    destruct (Hbefore h (or_introl eq_refl)) as [v ->]. cbn [bind].
    rewrite IH; [reflexivity|].
    intros x Hx. apply Hbefore. right. exact Hx.
Qed.

(** X12.  [save_score] has no handler of its own, so what the stored document
    makes it raise reaches the caller.  A document that is [null], a
    boolean or a number raises [TypeError].  A list raises [KeyError] when
    its first element without a readable ["date"] is a dict lacking the
    key, and raises in any case when some element has no readable
    ["date"].  The empty dict [{}] is taken like the empty list: the store
    written holds the new record alone. *)
Theorem save_score_on_other_documents (d : datetime) (s : Q) (r : string) :
  HistoryManager.save_score d s r (Holds JNull) = Raise TypeError
  /\ (forall b, HistoryManager.save_score d s r (Holds (JBool b)) = Raise TypeError)
  /\ (forall q, HistoryManager.save_score d s r (Holds (JNumber q)) = Raise TypeError)
  /\ (forall before kv rest,
        (forall h, In h before ->
           exists v, HistoryManager.getitem h "date" = Ok v) ->
        (forall p, In p kv -> fst p <> "date"%string) ->
        HistoryManager.save_score d s r
          (Holds (JArray (before ++ JObject kv :: rest))) = Raise KeyError)
  /\ (forall elements,
        (exists h, In h elements
           /\ forall v, HistoryManager.getitem h "date" <> Ok v) ->
        exists e, HistoryManager.save_score d s r (Holds (JArray elements)) = Raise e)
  /\ HistoryManager.save_score d s r (Holds (JObject [])) =
       Ok (Holds (JArray [HistoryManager.new_record (strftime_Ymd d) s r]))
  /\ HistoryManager.save_score d s r (Holds (JArray [])) =
       Ok (Holds (JArray [HistoryManager.new_record (strftime_Ymd d) s r])).
Proof.
  split; [reflexivity|]. split; [reflexivity|]. split; [reflexivity|].
  split; [|split; [|split; reflexivity]].
  - intros before kv rest Hbefore Hkv.
    unfold HistoryManager.save_score.
    cbn [HistoryManager.load_history HistoryManager.exists_
         HistoryManager.json_load HistoryManager.iter bind].
    rewrite without_date_keyerror; [reflexivity | exact Hbefore |].
    cbn [HistoryManager.getitem].
    replace (find (fun p : string * json => (fst p =? "date")%string) kv)
      with (@None (string * json)); [reflexivity|].
    symmetry. induction kv as [|p kv IH]; [reflexivity|].
    cbn [find].
    replace (fst p =? "date")%string with false.
    + apply IH. intros x Hx. apply Hkv. right. exact Hx.
    + symmetry. apply String.eqb_neq. apply Hkv. left. reflexivity.
  - intros elements [h [Hin Hbad]].
    unfold HistoryManager.save_score.
    cbn [HistoryManager.load_history HistoryManager.exists_
         HistoryManager.json_load HistoryManager.iter bind].
    assert (Hraise : exists e,
              HistoryManager.without_date (strftime_Ymd d) elements = Raise e).
    { induction elements as [|x elements IH]; [destruct Hin|].
      rewrite without_date_cons.
      destruct (HistoryManager.getitem x "date") as [v|e] eqn:Ex.
      - destruct Hin as [->|Hin]; [exfalso; exact (Hbad v Ex)|].
        cbn [bind]. destruct (IH Hin) as [e ->]. exists e. reflexivity.
      - exists e. reflexivity. }
    destruct Hraise as [e ->]. exists e. reflexivity.
Qed.

Lemma save_score_on_other_documents_witness :
  HistoryManager.save_score evening (8 # 10) (name (REGIMES STRONG_BULL))
    (Holds (JArray [HistoryManager.record_json
                      (written_record (evening, 1 # 10, ""%string));
                    JObject [("score"%string, JNumber (3 # 10))]])) =
    Raise KeyError
  /\ exists e,
       HistoryManager.save_score evening (8 # 10) (name (REGIMES STRONG_BULL))
         (Holds (JArray [JNumber 1])) = Raise e.
Proof.
  split.
  - apply (proj1 (proj2 (proj2 (proj2
             (save_score_on_other_documents evening (8 # 10)
                (name (REGIMES STRONG_BULL))))))
             [HistoryManager.record_json
                (written_record (evening, 1 # 10, ""%string))]).
    + intros h [<-|[]]. eexists. reflexivity.
    + intros p [<-|[]]. discriminate.
  - apply (proj1 (proj2 (proj2 (proj2 (proj2
             (save_score_on_other_documents evening (8 # 10)
                (name (REGIMES STRONG_BULL)))))))).
    exists (JNumber 1). split; [left; reflexivity|]. intros v H. discriminate H.
Defined.


(** ** The key of a day *)

Lemma digit_inj (a b : nat) : digit a = digit b -> (a mod 10 = b mod 10)%nat.
Proof.
  unfold digit. intro H. apply (f_equal nat_of_ascii) in H.
  pose proof (Nat.mod_upper_bound a 10 ltac:(discriminate)).
  pose proof (Nat.mod_upper_bound b 10 ltac:(discriminate)).
  rewrite !nat_ascii_embedding in H by lia. lia.
Qed.

Lemma same_digits (n m : nat) :
  (n mod 10 = m mod 10)%nat -> (n / 10 = m / 10)%nat -> n = m.
Proof.
  intros Hm Hd.
  rewrite (Nat.div_mod_eq n 10), (Nat.div_mod_eq m 10), Hm, Hd. reflexivity.
Qed.

Lemma four_digits (y y' : nat) :
  (y < 100 * 100)%nat -> (y' < 100 * 100)%nat ->
  ((y / 1000) mod 10 = (y' / 1000) mod 10)%nat ->
  ((y / 100) mod 10 = (y' / 100) mod 10)%nat ->
  ((y / 10) mod 10 = (y' / 10) mod 10)%nat ->
  (y mod 10 = y' mod 10)%nat -> y = y'.
Proof.
  intros Hy Hy' H3 H2 H1 H0.
  apply same_digits; [exact H0|].
  apply same_digits; [exact H1|].
  rewrite !Nat.Div0.div_div. change (10 * 10)%nat with 100%nat.
  apply same_digits; [exact H2|].
  rewrite !Nat.Div0.div_div. change (100 * 10)%nat with 1000%nat.
  apply same_digits; [exact H3|].
  rewrite !Nat.Div0.div_div.
  rewrite !Nat.div_small; [reflexivity| |].
  - change (1000 * 10)%nat with (100 * 100)%nat. exact Hy'.
  - change (1000 * 10)%nat with (100 * 100)%nat. exact Hy.
Qed.

Lemma two_digits (m m' : nat) :
  (m < 100)%nat -> (m' < 100)%nat ->
  ((m / 10) mod 10 = (m' / 10) mod 10)%nat ->
  (m mod 10 = m' mod 10)%nat -> m = m'.
Proof.
  intros Hm Hm' H1 H0.
  apply same_digits; [exact H0|].
  apply same_digits; [exact H1|].
  rewrite !Nat.Div0.div_div. change (10 * 10)%nat with 100%nat.
  rewrite !Nat.div_small by assumption. reflexivity.
Qed.

Lemma String_inj (a b : ascii) (s t : string) :
  String a s = String b t -> a = b /\ s = t.
Proof. intro H. injection H as -> ->. split; reflexivity. Qed.

(** The key [save_score] stores a record under depends on the calendar day
    only, and two different days of the years 0 to 9999 never share a key. *)
Lemma strftime_Ymd_same_day (d1 d2 : datetime) :
  (year d1 < 100 * 100)%nat -> (month d1 < 100)%nat -> (day d1 < 100)%nat ->
  (year d2 < 100 * 100)%nat -> (month d2 < 100)%nat -> (day d2 < 100)%nat ->
  (strftime_Ymd d1 = strftime_Ymd d2
   <-> year d1 = year d2 /\ month d1 = month d2 /\ day d1 = day d2).
Proof.
  intros Hy1 Hm1 Hd1 Hy2 Hm2 Hd2. unfold strftime_Ymd. split.
  - intro H.
    apply String_inj in H. destruct H as [Y3 H].
    apply String_inj in H. destruct H as [Y2 H].
    apply String_inj in H. destruct H as [Y1 H].
    apply String_inj in H. destruct H as [Y0 H].
    apply String_inj in H. destruct H as [_ H].
    apply String_inj in H. destruct H as [M1 H].
    apply String_inj in H. destruct H as [M0 H].
    apply String_inj in H. destruct H as [_ H].
    apply String_inj in H. destruct H as [D1 H].
    apply String_inj in H. destruct H as [D0 _].
    repeat split.
    + apply four_digits; try assumption; apply digit_inj; assumption.
    + apply two_digits; try assumption; apply digit_inj; assumption.
    + apply two_digits; try assumption; apply digit_inj; assumption.
  - intros [-> [-> ->]]. reflexivity.
Qed.

Lemma strftime_Ymd_same_day_witness :
  strftime_Ymd evening = strftime_Ymd late_evening.
Proof.
  apply strftime_Ymd_same_day; cbn; lia.
Defined.

(** ** A stored score read back *)

(** X14.  After a write the one-day moving average is the score just written,
    rounded to three decimals; a score that [calculate_breadth_score]
    stored, being rounded already, is read back as it was written. *)
Theorem moving_average_after_save
    (history : list HistoryManager.HistoryRecord)
    (d : datetime) (s : Q) (r : string) :
  let history' := append_or_replace (strftime_Ymd d) s r history in
  HistoryManager.save_score d s r (Holds (HistoryManager.history_json history)) =
    Ok (Holds (HistoryManager.history_json history'))
  /\ HistoryManager.get_moving_average history' 1 = Some (py_round s 3)
  /\ (forall rows : list Row,
        s = BreadthAnalyzer.score (BreadthAnalyzer.calculate_breadth_score rows) ->
        HistoryManager.get_moving_average history' 1 = Some s).
Proof.
  intro history'.
  split; [apply save_score_refines; reflexivity|].
  assert (Hma : HistoryManager.get_moving_average history' 1 = Some (py_round s 3)).
  { unfold history'. rewrite append_or_replace_snoc.
    set (earlier := skipn _ _).
    unfold HistoryManager.get_moving_average.
    replace (len (earlier ++ [_]) <? 1)%Z with false.
    2:{ symmetry. apply Z.ltb_ge. unfold len. rewrite length_app.
        cbn [List.length]. lia. }
    pose proof (py_slice_last_app earlier
      {| HistoryManager.date := strftime_Ymd d;
         HistoryManager.score := s;
         HistoryManager.regime := r |} []) as Hw.
    cbn [List.length] in Hw. rewrite Hw.
    cbn [map HistoryManager.score]. f_equal.
    apply py_round_compat. unfold float_sum, len.
    cbn [fold_left List.length Z.of_nat].
    change (inject_Z (Z.pos (Pos.of_succ_nat 0))) with 1. field. }
  split; [exact Hma|].
  intros rows ->. rewrite Hma. f_equal.
  unfold BreadthAnalyzer.calculate_breadth_score.
  cbn [BreadthAnalyzer.score].
  apply (py_round_idempotent _ 3 1); [lia | reflexivity |].
  exact (py_round_between (- 2) 2 _ 3 eq_refl eq_refl
           (unrounded_score_bounds rows)).
Qed.

Lemma moving_average_after_save_witness :
  HistoryManager.get_moving_average
    (append_or_replace (strftime_Ymd evening)
       (BreadthAnalyzer.score
          (BreadthAnalyzer.calculate_breadth_score
             (BreadthAnalyzer.classify_stocks one_in_three)))
       (name (REGIMES STRONG_BULL)) two_days) 1
  = Some (BreadthAnalyzer.score
            (BreadthAnalyzer.calculate_breadth_score
               (BreadthAnalyzer.classify_stocks one_in_three))).
Proof.
  apply (proj2 (proj2 (moving_average_after_save two_days evening _ _))
           (BreadthAnalyzer.classify_stocks one_in_three)).
  reflexivity.
Defined.

(** ** Market temperature and sentiment *)

Lemma fraction_bounds (a b : Z) :
  (0 <= a <= b)%Z -> (0 < b)%Z -> 0 <= inject_Z a / inject_Z b <= 1.
Proof.
  intros [Ha Hab] Hb.
  assert (Hpos : 0 < inject_Z b).
  { change 0 with (inject_Z 0). rewrite <- Zlt_Qlt. exact Hb. }
  split.
  - apply Qle_shift_div_l; [exact Hpos|].
    rewrite Qmult_0_l. change 0 with (inject_Z 0). rewrite <- Zle_Qle. exact Ha.
  - apply Qle_shift_div_r; [exact Hpos|].
    rewrite Qmult_1_l, <- Zle_Qle. exact Hab.
Qed.

Lemma filter_len_bounds {A : Type} (p : A -> bool) (l : list A) :
  (0 <= len (filter p l) <= len l)%Z.
Proof.
  split; [apply len_nonneg|]. unfold len. apply inj_le, filter_length_le.
Qed.

Lemma clamp_bounds (x : Q) : 0 <= Qmin (Qmax x 0) 30 <= 30.
Proof.
  split; [|apply Q.le_min_r].
  apply Q.min_glb; [apply Q.le_max_r | discriminate].
Qed.

(** X15.  On a table with at least one row the market temperature is computed
    and stays on its scale: the breadth component lies in [0, 40], the
    momentum and volume components in [0, 30], the temperature in
    [0, 100]. *)
Theorem market_temperature_scale (q : Quote) (df : list Quote) :
  exists t : AdvancedAnalysis.market_temperature,
    AdvancedAnalysis.calculate_market_temperature (q :: df) = Ok t
    /\ 0 <= AdvancedAnalysis.temperature t <= 100
    /\ 0 <= AdvancedAnalysis.breadth (AdvancedAnalysis.components t) <= 40
    /\ 0 <= AdvancedAnalysis.momentum (AdvancedAnalysis.components t) <= 30
    /\ 0 <= AdvancedAnalysis.volume_component (AdvancedAnalysis.components t) <= 30.
Proof.
  assert (Hlen : (0 < len (q :: df))%Z).
  { rewrite len_cons. pose proof (len_nonneg df). lia. }
  unfold AdvancedAnalysis.calculate_market_temperature.
  rewrite int_truediv_nonzero by lia. cbn [bind].
  eexists. split; [reflexivity|].
  cbn [AdvancedAnalysis.temperature AdvancedAnalysis.components
       AdvancedAnalysis.breadth AdvancedAnalysis.momentum
       AdvancedAnalysis.volume_component].
  pose proof (fraction_bounds _ _
    (filter_len_bounds (fun r : Quote => (pct_change r >? 0)%Q) (q :: df)) Hlen)
    as Hfrac.
  set (frac := inject_Z _ / inject_Z _) in *.
  pose proof (clamp_bounds
    ((AdvancedAnalysis.mean (map pct_change (q :: df)) + 2) / 4 * 30)) as Hm.
  set (m := Qmin (Qmax ((AdvancedAnalysis.mean (map pct_change (q :: df)) + 2)
                        / 4 * 30) 0) 30) in *.
  pose proof (clamp_bounds
    ((AdvancedAnalysis.mean (map volume_ratio (q :: df)) - (5 # 10))
     / (15 # 10) * 30)) as Hv.
  set (v := Qmin (Qmax ((AdvancedAnalysis.mean (map volume_ratio (q :: df))
                         - (5 # 10)) / (15 # 10) * 30) 0) 30) in *.
  split; [round_between 0%Z 100%Z; change (inject_Z 0) with 0;
          change (inject_Z 100) with 100; lra|].
  split; [round_between 0%Z 40%Z; change (inject_Z 0) with 0;
          change (inject_Z 40) with 40; lra|].
  split; [round_between 0%Z 30%Z; exact Hm|].
  round_between 0%Z 30%Z; exact Hv.
Qed.

Lemma percent_above_fifteen (a b : Z) :
  (0 < b)%Z ->
  ((inject_Z a / inject_Z b * 100 >? 15) = true <-> (15 * b < 100 * a)%Z).
Proof.
  intro Hb.
  assert (Hpos : 0 < inject_Z b).
  { change 0 with (inject_Z 0). rewrite <- Zlt_Qlt. exact Hb. }
  rewrite Qgtb_gt, Zlt_Qlt, !inject_Z_mult.
  change (inject_Z 15) with 15. change (inject_Z 100) with 100.
  assert (E : inject_Z a / inject_Z b * 100 * inject_Z b == 100 * inject_Z a).
  { field. lra. }
  split; intro H.
  - rewrite <- E. apply Qmult_lt_compat_r; assumption.
  - apply Qmult_lt_r with (inject_Z b); [exact Hpos|]. rewrite E. exact H.
Qed.

(** X16.  On a table with at least one row the sentiment detector answers:
    CAPITULATION exactly when more than 15% of the instruments fell by
    more than 5%, also when as many rose by more than 5%; EUPHORIA
    exactly when that is not the case and more than 15% rose by more than
    5%; NORMAL otherwise.  The share it reports lies in [0, 100]. *)
Theorem sentiment_cases (q : Quote) (df : list Quote) :
  let n := len (q :: df) in
  let stats := AdvancedAnalysis.calculate_magnitude_stats (q :: df) in
  let down := AdvancedAnalysis.explosive_down stats in
  let up := AdvancedAnalysis.explosive_up stats in
  exists s : AdvancedAnalysis.sentiment,
    AdvancedAnalysis.detect_capitulation_or_euphoria (q :: df) = Ok s
    /\ (AdvancedAnalysis.condition s = "CAPITULATION"%string
        <-> (15 * n < 100 * down)%Z)
    /\ (AdvancedAnalysis.condition s = "EUPHORIA"%string
        <-> ~ (15 * n < 100 * down)%Z /\ (15 * n < 100 * up)%Z)
    /\ (AdvancedAnalysis.condition s = "NORMAL"%string
        <-> ~ (15 * n < 100 * down)%Z /\ ~ (15 * n < 100 * up)%Z)
    /\ 0 <= AdvancedAnalysis.explosive_moves_pct s <= 100.
Proof.
  intros n stats down up.
  assert (Hlen : (0 < n)%Z).
  { unfold n. rewrite len_cons. pose proof (len_nonneg df). lia. }
  assert (Hdown : (0 <= down <= n)%Z) by apply filter_len_bounds.
  assert (Hup : (0 <= up <= n)%Z) by apply filter_len_bounds.
  unfold AdvancedAnalysis.detect_capitulation_or_euphoria.
  fold stats. fold down. fold up. fold n.
  rewrite !int_truediv_nonzero by lia. cbn [bind].
  pose proof (percent_above_fifteen down n Hlen) as Hd.
  pose proof (percent_above_fifteen up n Hlen) as Hu.
  pose proof (fraction_bounds down n Hdown Hlen) as Fd.
  pose proof (fraction_bounds up n Hup Hlen) as Fu.
  destruct (inject_Z down / inject_Z n * 100 >? 15) eqn:Ed.
  - eexists. split; [reflexivity|].
    cbn [AdvancedAnalysis.condition AdvancedAnalysis.explosive_moves_pct].
    assert (Hyes : (15 * n < 100 * down)%Z) by (apply Hd; reflexivity).
    repeat split; intros; try discriminate; try tauto.
    + round_between 0%Z 100%Z. change (inject_Z 0) with 0.
      change (inject_Z 100) with 100. lra.
    + round_between 0%Z 100%Z. change (inject_Z 0) with 0.
      change (inject_Z 100) with 100. lra.
  - assert (Hno : ~ (15 * n < 100 * down)%Z).
    { intro H. apply Hd in H. discriminate H. }
    destruct (inject_Z up / inject_Z n * 100 >? 15) eqn:Eu.
    + eexists. split; [reflexivity|].
      cbn [AdvancedAnalysis.condition AdvancedAnalysis.explosive_moves_pct].
      assert (Hyes : (15 * n < 100 * up)%Z) by (apply Hu; reflexivity).
      repeat split; intros; try discriminate; try tauto.
      * round_between 0%Z 100%Z. change (inject_Z 0) with 0.
        change (inject_Z 100) with 100. lra.
      * round_between 0%Z 100%Z. change (inject_Z 0) with 0.
        change (inject_Z 100) with 100. lra.
    + assert (Hno' : ~ (15 * n < 100 * up)%Z).
      { intro H. apply Hu in H. discriminate H. }
      eexists. split; [reflexivity|].
      cbn [AdvancedAnalysis.condition AdvancedAnalysis.explosive_moves_pct].
      repeat split; intros; try discriminate; try tauto.
Qed.

(** ** Fear and greed: range and monotonicity *)

(** Walks down an [if]/[elif] chain, one comparison at a time. *)
Ltac walk_chain :=
  unfold Qgtb, Qgeb, Qleb in *;
  repeat match goal with
  | |- context [if Qltb ?x ?y then _ else _] =>
      destruct (Qltb_reflect x y); cbv iota
  | |- context [if Qle_bool ?x ?y then _ else _] =>
      destruct (Qleb_reflect x y); cbv iota
  end.

Lemma breadth_subscore_range (x : Q) :
  45 # 10 <= App.breadth_subscore x <= 975 # 10.
Proof. unfold App.breadth_subscore. walk_chain; split; discriminate. Qed.

Lemma momentum_subscore_range (x : Q) : 7 <= App.momentum_subscore x <= 100.
Proof. unfold App.momentum_subscore. walk_chain; split; discriminate. Qed.

Lemma vix_level_subscore_range (x : Q) :
  45 # 10 <= App.vix_level_subscore x <= 95.
Proof. unfold App.vix_level_subscore. walk_chain; split; discriminate. Qed.

Lemma vix_direction_subscore_range (x : Q) :
  0 <= App.vix_direction_subscore x <= 100.
Proof. unfold App.vix_direction_subscore. walk_chain; split; discriminate. Qed.

Lemma participation_subscore_range (x : Q) :
  17 <= App.participation_subscore x <= 100.
Proof. unfold App.participation_subscore. walk_chain; split; discriminate. Qed.

(** X17.  Whatever the inputs, the fear and greed index lies between 5.675 and
    97.75, inside its nominal scale of 0 to 100; both ends are reached. *)
Theorem fear_greed_index_range
    (breadth_3day breadth_today vix_3day vix_day1 vix_day3 participation_3day : Q) :
  5675 # 1000
  <= App.total_index
       (App.calculate_fear_greed_index breadth_3day breadth_today vix_3day
          vix_day1 vix_day3 participation_3day)
  <= 9775 # 100
  /\ App.total_index
       (App.calculate_fear_greed_index (- (1)) (- (2)) 30 10 20 0)
     == 5675 # 1000
  /\ App.total_index
       (App.calculate_fear_greed_index 1 2 10 20 10 90)
     == 9775 # 100.
Proof.
  split; [|split; reflexivity].
  unfold App.calculate_fear_greed_index. cbn [App.total_index].
  pose proof (breadth_subscore_range breadth_3day).
  pose proof (momentum_subscore_range (breadth_today - breadth_3day)).
  pose proof (vix_level_subscore_range vix_3day).
  pose proof (vix_direction_subscore_range (vix_day3 - vix_day1)).
  pose proof (participation_subscore_range participation_3day).
  lra.
Qed.

(** X18.  The five sub-score tables are monotone: a higher breadth average, a
    higher breadth momentum and a higher participation never lower their
    sub-scores, a higher volatility level and a larger rise of it never
    raise theirs. *)
Theorem subscores_monotone (x y : Q) :
  x <= y ->
  App.breadth_subscore x <= App.breadth_subscore y
  /\ App.momentum_subscore x <= App.momentum_subscore y
  /\ App.vix_level_subscore y <= App.vix_level_subscore x
  /\ App.vix_direction_subscore y <= App.vix_direction_subscore x
  /\ App.participation_subscore x <= App.participation_subscore y.
Proof.
  intro Hxy. repeat split.
  - unfold App.breadth_subscore. walk_chain; first [discriminate | exfalso; lra].
  - unfold App.momentum_subscore. walk_chain; first [discriminate | exfalso; lra].
  - unfold App.vix_level_subscore. walk_chain; first [discriminate | exfalso; lra].
  - unfold App.vix_direction_subscore.
    walk_chain; first [discriminate | exfalso; lra].
  - unfold App.participation_subscore.
    walk_chain; first [discriminate | exfalso; lra].
Qed.

Lemma subscores_monotone_witness :
  App.breadth_subscore (3 # 10) <= App.breadth_subscore (7 # 10)
  /\ App.vix_level_subscore 22 <= App.vix_level_subscore 13.
Proof.
  split.
  - apply (subscores_monotone (3 # 10) (7 # 10)). discriminate.
  - apply (proj1 (proj2 (proj2 (subscores_monotone 13 22 ltac:(discriminate))))).
Defined.

(** ** Trading signals *)

(** X19.  [generate_trading_signals] returns at most one signal.  SELL is given
    exactly below -0.5 whatever the participation, BUY exactly above 0.5
    with a participation above 70, WARNING on a positive score with a
    participation below 40, NEUTRAL strictly between -0.2 and 0.2 unless
    the warning applies; no signal at all is given from -0.5 to -0.2, and
    from 0.2 upwards with a participation of at least 40 short of a BUY. *)
Theorem trading_signal_cases (breadth_score sector_participation : Q) :
  let signals :=
    AdvancedAnalysis.generate_trading_signals breadth_score sector_participation in
  let types := map AdvancedAnalysis.signal_type signals in
  (List.length signals <= 1)%nat
  /\ (types = ["BUY"%string]
      <-> 5 # 10 < breadth_score /\ 70 < sector_participation)
  /\ (types = ["WARNING"%string]
      <-> 0 < breadth_score /\ sector_participation < 40)
  /\ (types = ["SELL"%string] <-> breadth_score < - (5 # 10))
  /\ (types = ["NEUTRAL"%string]
      <-> (- (2 # 10) < breadth_score /\ breadth_score < 2 # 10)
          /\ ~ (0 < breadth_score /\ sector_participation < 40))
  /\ (signals = []
      <-> (2 # 10 <= breadth_score /\ 40 <= sector_participation
           /\ ~ (5 # 10 < breadth_score /\ 70 < sector_participation))
          \/ (- (5 # 10) <= breadth_score /\ breadth_score <= - (2 # 10))).
Proof.
  cbv zeta. unfold AdvancedAnalysis.generate_trading_signals, Qgtb.
  destruct (Qltb_reflect (5 # 10) breadth_score),
           (Qltb_reflect 70 sector_participation),
           (Qltb_reflect 0 breadth_score),
           (Qltb_reflect sector_participation 40),
           (Qltb_reflect breadth_score (- (5 # 10))),
           (Qltb_reflect (- (2 # 10)) breadth_score),
           (Qltb_reflect breadth_score (2 # 10));
    cbn [andb map AdvancedAnalysis.signal_type List.length];
    (split; [lia|]);
    intuition (try discriminate; try reflexivity; try lra).
Qed.

(** ** Sector leaders and laggards *)

Section SortedReverse.

Context {A : Type} (key : A -> Q).

Lemma insert_descending_perm (x : A) (l : list A) :
  Permutation (BreadthAnalyzer.insert_descending key x l) (x :: l).
Proof.
  induction l as [|y l IH]; [reflexivity|].
  cbn [BreadthAnalyzer.insert_descending].
  destruct (key y >? key x); [|reflexivity].
  rewrite IH. apply perm_swap.
Qed.

Lemma sorted_reverse_perm (l : list A) :
  Permutation (BreadthAnalyzer.sorted_reverse key l) l.
Proof.
  induction l as [|x l IH]; [reflexivity|].
  unfold BreadthAnalyzer.sorted_reverse in *. cbn [fold_right].
  rewrite insert_descending_perm. apply perm_skip. exact IH.
Qed.

Lemma insert_descending_sorted (x : A) (l : list A) :
  StronglySorted (descending key) l ->
  StronglySorted (descending key) (BreadthAnalyzer.insert_descending key x l).
Proof.
  induction l as [|y l IH]; intro Hs.
  - repeat constructor.
  - cbn [BreadthAnalyzer.insert_descending].
    apply StronglySorted_inv in Hs. destruct Hs as [Hl Hy].
    unfold Qgtb. destruct (Qltb_reflect (key x) (key y)) as [Hlt|Hge].
    + constructor; [apply IH; exact Hl|].
      apply Forall_forall. intros z Hz.
      apply (Permutation_in _ (insert_descending_perm x l)) in Hz.
      destruct Hz as [<-|Hz].
      * unfold descending. lra.
      * rewrite Forall_forall in Hy. apply Hy. exact Hz.
    + constructor; [constructor; assumption|].
      constructor; [unfold descending; lra|].
      rewrite Forall_forall in *. intros z Hz.
      specialize (Hy z Hz). unfold descending in *. lra.
Qed.

Lemma sorted_reverse_sorted (l : list A) :
  StronglySorted (descending key) (BreadthAnalyzer.sorted_reverse key l).
Proof.
  induction l as [|x l IH]; [constructor|].
  unfold BreadthAnalyzer.sorted_reverse in *. cbn [fold_right].
  apply insert_descending_sorted. exact IH.
Qed.

Lemma descending_across (l1 l2 : list A) :
  StronglySorted (descending key) (l1 ++ l2) ->
  forall x y, In x l1 -> In y l2 -> key y <= key x.
Proof.
  induction l1 as [|a l1 IH]; intros Hs x y Hx Hy; [destruct Hx|].
  cbn [app] in Hs. apply StronglySorted_inv in Hs. destruct Hs as [Hl Ha].
  destruct Hx as [<-|Hx].
  - rewrite Forall_forall in Ha. apply Ha. apply in_or_app. right. exact Hy.
  - apply (IH Hl x y Hx Hy).
Qed.

Lemma descending_prefix (l1 l2 : list A) :
  StronglySorted (descending key) (l1 ++ l2) -> StronglySorted (descending key) l1.
Proof.
  induction l1 as [|a l1 IH]; intro Hs; [constructor|].
  cbn [app] in Hs. apply StronglySorted_inv in Hs. destruct Hs as [Hl Ha].
  constructor; [apply IH; exact Hl|].
  rewrite Forall_forall in *. intros z Hz. apply Ha.
  apply in_or_app. left. exact Hz.
Qed.

End SortedReverse.


(** X20.  The leaders are the sectors with the three highest scores, in
    descending order, and the laggards those with the three lowest: both
    are taken from the reported sectors, each has [min(3, n)] members for
    [n] reported sectors, no sector outside the leaders scores higher than
    a leader and none outside the laggards scores lower than a laggard.
    With three sectors or fewer the two lists are the same list. *)
Theorem sector_leaders_laggards_report (sd : BreadthAnalyzer.sector_data) :
  let leaders := fst (BreadthAnalyzer.get_sector_leaders_laggards sd) in
  let laggards := snd (BreadthAnalyzer.get_sector_leaders_laggards sd) in
  let n := List.length (BreadthAnalyzer.sectors sd) in
  List.length leaders = Nat.min 3 n
  /\ List.length laggards = Nat.min 3 n
  /\ (forall x, In x leaders \/ In x laggards -> In x (BreadthAnalyzer.sectors sd))
  /\ StronglySorted (descending entry_score) leaders
  /\ (forall x y,
        In x leaders -> In y (BreadthAnalyzer.sectors sd) -> ~ In y leaders ->
        entry_score y <= entry_score x)
  /\ (forall x y,
        In x laggards -> In y (BreadthAnalyzer.sectors sd) -> ~ In y laggards ->
        entry_score x <= entry_score y)
  /\ ((n <= 3)%nat -> leaders = laggards).
Proof.
  cbv zeta. unfold BreadthAnalyzer.get_sector_leaders_laggards. cbn [fst snd].
  change (fun x : string * BreadthAnalyzer.sector_entry =>
            BreadthAnalyzer.sector_score (snd x)) with entry_score.
  set (sorted := BreadthAnalyzer.sorted_reverse entry_score (BreadthAnalyzer.sectors sd)).
  pose proof (sorted_reverse_perm entry_score (BreadthAnalyzer.sectors sd)) as Hperm.
  pose proof (sorted_reverse_sorted entry_score (BreadthAnalyzer.sectors sd)) as Hsorted.
  fold sorted in Hperm, Hsorted.
  pose proof (Permutation_length Hperm) as Hlen.
  assert (Hlag : py_slice_last 3 sorted = skipn (List.length sorted - 3) sorted)
    by reflexivity.
  rewrite Hlag.
  split; [rewrite length_firstn, Hlen; reflexivity|].
  split; [rewrite length_skipn, Hlen; lia|].
  split.
  { intros x [Hx|Hx]; apply (Permutation_in _ Hperm).
    - rewrite <- (firstn_skipn 3 sorted). apply in_or_app. left. exact Hx.
    - apply (In_skipn _ _ _ Hx). }
  split.
  { apply (descending_prefix entry_score _ (skipn 3 sorted)).
    rewrite firstn_skipn. exact Hsorted. }
  split.
  { intros x y Hx Hy Hnot.
    apply (descending_across entry_score (firstn 3 sorted) (skipn 3 sorted));
      [rewrite firstn_skipn; exact Hsorted | exact Hx |].
    apply (Permutation_in _ (Permutation_sym Hperm)) in Hy.
    rewrite <- (firstn_skipn 3 sorted) in Hy.
    apply in_app_or in Hy. destruct Hy as [Hy|Hy]; [contradiction | exact Hy]. }
  split.
  { intros x y Hx Hy Hnot.
    apply (descending_across entry_score
             (firstn (List.length sorted - 3) sorted)
             (skipn (List.length sorted - 3) sorted));
      [rewrite firstn_skipn; exact Hsorted | | exact Hx].
    apply (Permutation_in _ (Permutation_sym Hperm)) in Hy.
    rewrite <- (firstn_skipn (List.length sorted - 3) sorted) in Hy.
    apply in_app_or in Hy. destruct Hy as [Hy|Hy]; [exact Hy | contradiction]. }
  intro Hsmall.
  rewrite firstn_all2 by lia.
  replace (List.length sorted - 3)%nat with 0%nat by lia. reflexivity.
Qed.

Lemma sector_leaders_laggards_report_witness :
  let sd := BreadthAnalyzer.calculate_sector_breadth
              (BreadthAnalyzer.classify_stocks one_in_three) in
  fst (BreadthAnalyzer.get_sector_leaders_laggards sd) =
  snd (BreadthAnalyzer.get_sector_leaders_laggards sd).
Proof.
  cbv zeta.
  apply (proj2 (proj2 (proj2 (proj2 (proj2 (proj2
    (sector_leaders_laggards_report
       (BreadthAnalyzer.calculate_sector_breadth
          (BreadthAnalyzer.classify_stocks one_in_three))))))))).
  vm_compute. lia.
Defined.


(** ** Sparkline *)

Lemma str_append_assoc (a b c : string) :
  ((a ++ b) ++ c = a ++ (b ++ c))%string.
Proof.
  induction a as [|ch a IH]; [reflexivity|].
  cbn [String.append]. rewrite IH. reflexivity.
Qed.

Lemma fold_left_Qmin_le (l : list Q) (a : Q) :
  fold_left Qmin l a <= a /\ forall x, In x l -> fold_left Qmin l a <= x.
Proof.
  revert a. induction l as [|y l IH]; intro a; cbn [fold_left].
  - split; [apply Qle_refl | intros x []].
  - destruct (IH (Qmin a y)) as [H1 H2]. split.
    + apply Qle_trans with (Qmin a y); [exact H1 | apply Q.le_min_l].
    + intros x [<-|Hx]; [|apply H2; exact Hx].
      apply Qle_trans with (Qmin a y); [exact H1 | apply Q.le_min_r].
Qed.

Lemma fold_left_Qmax_ge (l : list Q) (a : Q) :
  a <= fold_left Qmax l a /\ forall x, In x l -> x <= fold_left Qmax l a.
Proof.
  revert a. induction l as [|y l IH]; intro a; cbn [fold_left].
  - split; [apply Qle_refl | intros x []].
  - destruct (IH (Qmax a y)) as [H1 H2]. split.
    + apply Qle_trans with (Qmax a y); [apply Q.le_max_l | exact H1].
    + intros x [<-|Hx]; [|apply H2; exact Hx].
      apply Qle_trans with (Qmax a y); [apply Q.le_max_r | exact H1].
Qed.

(** The float operations of the loop, between the ends of the series. *)
Lemma float_sub_mono (a b c : Q) : a <= b -> float_sub a c <= float_sub b c.
Proof.
  intro H. unfold float_sub. apply binary64_mono.
  pose proof (binary64_mono a b H). lra.
Qed.

Lemma float_sub_same (a b : Q) : a == b -> float_sub a b == 0.
Proof.
  intro H. unfold float_sub. rewrite binary64_zero; [reflexivity|].
  rewrite (binary64_compat a b H). ring.
Qed.

Lemma float_sub_compat (a b c : Q) : a == b -> float_sub a c == float_sub b c.
Proof.
  intro H. apply Qle_antisym; apply float_sub_mono; lra.
Qed.

Section Normalized.

Variables lo hi : Q.
Hypothesis range_not_zero : ~ float_sub hi lo == 0.
Hypothesis lo_le_hi : lo <= hi.

Let range_val := float_sub hi lo.
Let normalized (v : Q) : Q :=
  float_mul (float_div (float_sub v lo) range_val) 7.

Lemma range_val_pos : 0 < range_val.
Proof.
  assert (H : float_sub lo lo <= range_val) by (apply float_sub_mono, lo_le_hi).
  rewrite float_sub_same in H by reflexivity.
  destruct (Qle_lt_or_eq _ _ H) as [Hlt|Heq]; [exact Hlt|].
  exfalso. apply range_not_zero. symmetry. exact Heq.
Qed.

Lemma range_val_float : binary64 range_val == range_val.
Proof. apply binary64_idempotent. Qed.

Lemma float_div_unit (v : Q) :
  lo <= v <= hi -> 0 <= float_div (float_sub v lo) range_val <= 1.
Proof.
  intros [Hlo Hhi]. pose proof range_val_pos as Hr.
  pose proof range_val_float as Hf.
  assert (Ha : 0 <= float_sub v lo).
  { rewrite <- (float_sub_same lo lo) by reflexivity.
    apply float_sub_mono, Hlo. }
  assert (Hb : float_sub v lo <= range_val) by apply float_sub_mono, Hhi.
  assert (Ha' : 0 <= binary64 (float_sub v lo)) by apply binary64_nonneg, Ha.
  assert (Hb' : binary64 (float_sub v lo) <= range_val).
  { rewrite <- Hf. apply binary64_mono, Hb. }
  unfold float_div. apply binary64_between; [reflexivity | reflexivity |].
  rewrite Hf. split.
  - apply Qle_shift_div_l; [exact Hr | lra].
  - apply Qle_shift_div_r; [exact Hr | lra].
Qed.

Lemma normalized_bounds (v : Q) : lo <= v <= hi -> 0 <= normalized v <= 7.
Proof.
  intro Hv. destruct (float_div_unit v Hv) as [H0 H1].
  assert (Hq : 0 <= binary64 (float_div (float_sub v lo) range_val) <= 1).
  { apply binary64_between; [reflexivity | reflexivity | split; assumption]. }
  unfold normalized, float_mul.
  apply binary64_between; [reflexivity | reflexivity |].
  assert (E7 : binary64 7 == 7) by reflexivity. rewrite E7.
  destruct Hq. split; lra.
Qed.

Lemma normalized_mono (v v' : Q) :
  lo <= v -> v <= v' -> v' <= hi -> normalized v <= normalized v'.
Proof.
  intros Hlo Hvv Hhi. pose proof range_val_pos as Hr.
  pose proof range_val_float as Hf.
  assert (Ha : binary64 (float_sub v lo) <= binary64 (float_sub v' lo))
    by apply binary64_mono, float_sub_mono, Hvv.
  assert (Hq : float_div (float_sub v lo) range_val
               <= float_div (float_sub v' lo) range_val).
  { unfold float_div. apply binary64_mono. rewrite Hf.
    apply Qle_shift_div_l; [exact Hr|].
    setoid_replace (binary64 (float_sub v lo) / range_val * range_val)
      with (binary64 (float_sub v lo)) by (field; lra).
    exact Ha. }
  unfold normalized, float_mul. apply binary64_mono.
  assert (E7 : binary64 7 == 7) by reflexivity. rewrite E7.
  pose proof (binary64_mono _ _ Hq). lra.
Qed.

Lemma normalized_lowest (v : Q) : v == lo -> normalized v == 0.
Proof.
  intro Hv. unfold normalized, float_mul, float_div.
  rewrite (binary64_zero (float_sub v lo)) by (apply float_sub_same, Hv).
  assert (E : 0 / binary64 range_val == 0) by (unfold Qdiv; ring).
  rewrite (binary64_zero _ E).
  rewrite binary64_zero; [reflexivity|].
  change (binary64 0) with 0. ring.
Qed.

Lemma normalized_highest (v : Q) : v == hi -> normalized v == 7.
Proof.
  intro Hv. pose proof range_val_pos as Hr. pose proof range_val_float as Hf.
  assert (Ea : binary64 (float_sub v lo) == range_val).
  { rewrite <- Hf. apply binary64_compat, float_sub_compat, Hv. }
  assert (Eq : float_div (float_sub v lo) range_val == 1).
  { unfold float_div.
    assert (E1 : binary64 (float_sub v lo) / binary64 range_val == 1).
    { rewrite Ea, Hf. field. lra. }
    rewrite (binary64_compat _ _ E1). reflexivity. }
  unfold normalized, float_mul.
  assert (E : binary64 (float_div (float_sub v lo) range_val) * binary64 7 == 7).
  { rewrite (binary64_compat _ _ Eq).
    assert (E1 : binary64 1 == 1) by reflexivity.
    assert (E7 : binary64 7 == 7) by reflexivity.
    rewrite E1, E7. ring. }
  rewrite (binary64_compat _ _ E). reflexivity.
Qed.

End Normalized.

Lemma str_index_tick (i : Z) :
  (0 <= i <= 7)%Z ->
  str_index BreadthVisualizer.ticks i =
  Ok (nth (Z.to_nat i) BreadthVisualizer.ticks EmptyString).
Proof.
  intro Hi.
  assert (Hcases : i = 0%Z \/ i = 1%Z \/ i = 2%Z \/ i = 3%Z \/ i = 4%Z
                   \/ i = 5%Z \/ i = 6%Z \/ i = 7%Z) by lia.
  destruct Hcases as [->|[->|[->|[->|[->|[->|[->| ->]]]]]]]; reflexivity.
Qed.

Lemma py_int_nonneg (x : Q) : 0 <= x -> py_int x = Qfloor x.
Proof.
  intro Hx. unfold py_int.
  destruct (Qltb_reflect x 0); [lra | reflexivity].
Qed.

Lemma Qfloor_bounds (x : Q) (lo hi : Z) :
  inject_Z lo <= x <= inject_Z hi -> (lo <= Qfloor x <= hi)%Z.
Proof.
  intros [Hlo Hhi]. split.
  - rewrite <- (Qfloor_Z lo). apply Qfloor_resp_le. exact Hlo.
  - rewrite <- (Qfloor_Z hi). apply Qfloor_resp_le. exact Hhi.
Qed.

Lemma sparkline_loop_ticks (values : list Q) (lo hi : Q) (text : string) :
  ~ float_sub hi lo == 0 -> lo <= hi ->
  (forall v, In v values -> lo <= v <= hi) ->
  BreadthVisualizer.sparkline_loop values lo (float_sub hi lo) text =
  Ok (text ++ join (map (tick_of lo (float_sub hi lo)) values))%string.
Proof.
  intros Hr Hle. revert text.
  induction values as [|v values IH]; intros text Hall.
  - cbn. induction text as [|c text IHt]; [reflexivity|].
    cbn [String.append]. injection IHt as <-. reflexivity.
  - cbn [BreadthVisualizer.sparkline_loop].
    pose proof (normalized_bounds lo hi Hr Hle v (Hall v (or_introl eq_refl)))
      as Hn.
    rewrite py_int_nonneg by apply Hn.
    rewrite str_index_tick by (apply Qfloor_bounds; exact Hn).
    cbn [bind]. rewrite IH by (intros x Hx; apply Hall; right; exact Hx).
    cbn [map join fold_right]. rewrite str_append_assoc.
    unfold tick_of at 2, tick_index. rewrite py_int_nonneg by apply Hn.
    reflexivity.
Qed.


Lemma create_sparkline_flat (a b : Q) (others : list Q) (width : Z) :
  float_sub (fold_left Qmax (b :: others) a) (fold_left Qmin (b :: others) a) == 0 ->
  BreadthVisualizer.create_sparkline (a :: b :: others) width =
  Ok (str_repeat "─" (Z.to_nat width)).
Proof.
  intro Heq. unfold BreadthVisualizer.create_sparkline.
  apply Qeq_bool_iff in Heq. rewrite Heq. reflexivity.
Qed.

Lemma create_sparkline_ticks (a b : Q) (others : list Q) (width : Z) :
  let lo := fold_left Qmin (b :: others) a in
  let hi := fold_left Qmax (b :: others) a in
  ~ float_sub hi lo == 0 -> lo <= hi ->
  (forall v, In v (a :: b :: others) -> lo <= v <= hi) ->
  BreadthVisualizer.create_sparkline (a :: b :: others) width =
  Ok (join (map (tick_of lo (float_sub hi lo)) (a :: b :: others))).
Proof.
  intros lo hi Hne Hle Hin. unfold BreadthVisualizer.create_sparkline.
  fold lo. fold hi.
  replace (Qeq_bool (float_sub hi lo) 0) with false.
  2:{ symmetry. apply not_true_iff_false. intro Hb.
      apply Qeq_bool_iff in Hb. contradiction. }
  rewrite (sparkline_loop_ticks (a :: b :: others) lo hi ""%string Hne Hle Hin).
  reflexivity.
Qed.

(** X21.  [create_sparkline] never raises: the index into the eight ticks,
    computed with float operations, is always between 0 and 7.  On fewer
    than two values it answers "N/A", on a series whose float range is
    zero, as that of a constant series is, a line of [width] dashes;
    otherwise it draws one tick per value, the lowest tick for the minimum
    and the highest for the maximum, and never a lower tick for a higher
    value. *)
Theorem sparkline_report (values : list Q) (width : Z) :
  ((List.length values < 2)%nat ->
   BreadthVisualizer.create_sparkline values width = Ok "N/A"%string)
  /\ (exists text : string,
        BreadthVisualizer.create_sparkline values width = Ok text)
  /\ (forall first second rest,
        values = first :: second :: rest ->
        let lo := fold_left Qmin (second :: rest) first in
        let hi := fold_left Qmax (second :: rest) first in
        let range_val := float_sub hi lo in
        (forall v, In v values -> lo <= v <= hi)
        /\ (hi == lo -> range_val == 0)
        /\ (range_val == 0 ->
            BreadthVisualizer.create_sparkline values width =
            Ok (str_repeat "─" (Z.to_nat width)))
        /\ (~ range_val == 0 ->
            BreadthVisualizer.create_sparkline values width =
              Ok (join (map (tick_of lo range_val) values))
            /\ (forall v, In v values ->
                  (tick_index lo range_val v <= 7)%nat
                  /\ (v == lo -> tick_of lo range_val v = "▁"%string)
                  /\ (v == hi -> tick_of lo range_val v = "█"%string))
            /\ (forall v v', In v values -> In v' values -> v <= v' ->
                  (tick_index lo range_val v <= tick_index lo range_val v')%nat))).
Proof.
  assert (Hmain : forall first second rest,
    values = first :: second :: rest ->
    let lo := fold_left Qmin (second :: rest) first in
    let hi := fold_left Qmax (second :: rest) first in
    let range_val := float_sub hi lo in
    (forall v, In v values -> lo <= v <= hi)
    /\ (hi == lo -> range_val == 0)
    /\ (range_val == 0 ->
        BreadthVisualizer.create_sparkline values width =
        Ok (str_repeat "─" (Z.to_nat width)))
    /\ (~ range_val == 0 ->
        BreadthVisualizer.create_sparkline values width =
          Ok (join (map (tick_of lo range_val) values))
        /\ (forall v, In v values ->
              (tick_index lo range_val v <= 7)%nat
              /\ (v == lo -> tick_of lo range_val v = "▁"%string)
              /\ (v == hi -> tick_of lo range_val v = "█"%string))
        /\ (forall v v', In v values -> In v' values -> v <= v' ->
              (tick_index lo range_val v <= tick_index lo range_val v')%nat))).
  { intros first second rest -> lo hi range_val.
    assert (Hin : forall v, In v (first :: second :: rest) -> lo <= v <= hi).
    { intros v [<-|Hv].
      - split; [apply (proj1 (fold_left_Qmin_le _ _))
               | apply (proj1 (fold_left_Qmax_ge _ _))].
      - split; [apply (proj2 (fold_left_Qmin_le _ _))
               | apply (proj2 (fold_left_Qmax_ge _ _))]; exact Hv. }
    assert (Hle : lo <= hi).
    { destruct (Hin first (or_introl eq_refl)). lra. }
    split; [exact Hin|].
    split; [intro Heq; apply float_sub_same, Heq|].
    split; [intro Heq; apply create_sparkline_flat; exact Heq|].
    intro Hne.
    split; [apply (create_sparkline_ticks first second rest width Hne Hle Hin)|].
    split.
    - intros v Hv.
      pose proof (normalized_bounds lo hi Hne Hle v (Hin v Hv)) as Hn.
      pose proof (Qfloor_bounds _ 0 7 Hn) as Hf.
      unfold tick_of, tick_index, range_val.
      rewrite py_int_nonneg by apply Hn.
      split; [lia|]. split; intro Hv'.
      + rewrite (Qfloor_comp _ _ (normalized_lowest lo hi v Hv')). reflexivity.
      + rewrite (Qfloor_comp _ _ (normalized_highest lo hi Hne Hle v Hv')).
        reflexivity.
    - intros v v' Hv Hv' Hvv.
      pose proof (normalized_bounds lo hi Hne Hle v (Hin v Hv)) as Hn.
      pose proof (normalized_bounds lo hi Hne Hle v' (Hin v' Hv')) as Hn'.
      unfold tick_index, range_val.
      rewrite !py_int_nonneg by (apply Hn || apply Hn').
      apply Z2Nat.inj_le;
        [apply (Qfloor_bounds _ 0 7 Hn) | apply (Qfloor_bounds _ 0 7 Hn') |].
      apply Qfloor_resp_le.
      apply (normalized_mono lo hi Hne Hle);
        [apply (Hin v Hv) | exact Hvv | apply (Hin v' Hv')]. }
  split; [|split; [|exact Hmain]].
  - intro Hshort. destruct values as [|a [|b rest]]; try reflexivity.
    cbn [List.length] in Hshort. lia.
  - destruct values as [|a [|b rest]]; try (eexists; reflexivity).
    destruct (Hmain a b rest eq_refl) as [_ [_ [Hflat Hticks]]].
    destruct (Qeq_bool_reflect
                (float_sub (fold_left Qmax (b :: rest) a)
                   (fold_left Qmin (b :: rest) a)) 0) as [He|Hne].
    + eexists. apply Hflat. exact He.
    + eexists. apply Hticks. exact Hne.
Qed.

Lemma sparkline_report_witness :
  BreadthVisualizer.create_sparkline week_scores 50 =
    Ok "▃▁▆▄█"%string
  /\ BreadthVisualizer.create_sparkline close_scores 50 =
     Ok "▁▁█"%string
  /\ BreadthVisualizer.create_sparkline [3 # 10] 50 = Ok "N/A"%string.
Proof.
  split; [|split].
  - destruct (proj2 (proj2 (proj2 (proj2 (proj2 (sparkline_report week_scores 50))
                _ _ _ eq_refl)))) as [Htext _].
    + vm_compute. discriminate.
    + rewrite Htext. vm_compute. reflexivity.
  - destruct (proj2 (proj2 (proj2 (proj2 (proj2 (sparkline_report close_scores 50))
                _ _ _ eq_refl)))) as [Htext _].
    + vm_compute. discriminate.
    + rewrite Htext. vm_compute. reflexivity.
  - apply (proj1 (sparkline_report [3 # 10] 50)). cbn. lia.
Defined.


(** ** A write and the other days *)

(** X13.  A write touches the record of its own calendar day only.  Written at
    another time of a day already recorded, it replaces that record; and a
    record of any other day of the years 0 to 9999 is still in the store
    after the write, as long as the store was not full. *)
Theorem save_score_replaces_own_day_only
    (history : list HistoryManager.HistoryRecord)
    (earlier d : datetime) (s : Q) (r : string)
    (old : HistoryManager.HistoryRecord) :
  (year earlier < 100 * 100)%nat -> (month earlier < 100)%nat ->
  (day earlier < 100)%nat ->
  (year d < 100 * 100)%nat -> (month d < 100)%nat -> (day d < 100)%nat ->
  In old history ->
  HistoryManager.date old = strftime_Ymd earlier ->
  let history' := append_or_replace (strftime_Ymd d) s r history in
  HistoryManager.save_score d s r (Holds (HistoryManager.history_json history)) =
    Ok (Holds (HistoryManager.history_json history'))
  /\ (year earlier = year d /\ month earlier = month d /\ day earlier = day d ->
      In old history' ->
      old = {| HistoryManager.date := strftime_Ymd d;
               HistoryManager.score := s;
               HistoryManager.regime := r |})
  /\ (~ (year earlier = year d /\ month earlier = month d /\ day earlier = day d) ->
      (List.length history < Thresholds.HISTORY_DAYS)%nat ->
      In old history').
Proof.
  intros Hy1 Hm1 Hd1 Hy2 Hm2 Hd2 Hin Hdate history'.
  split; [apply save_score_refines; reflexivity|].
  unfold history'. rewrite append_or_replace_snoc.
  split.
  - intros Hsame Hx.
    assert (Hxd : HistoryManager.date old = strftime_Ymd d).
    { rewrite Hdate. apply (strftime_Ymd_same_day earlier d); assumption. }
    apply in_app_or in Hx. destruct Hx as [Hx|[<-|[]]].
    + exfalso. apply In_skipn in Hx.
      apply (other_day_dates (strftime_Ymd d) history).
      apply in_map_iff. exists old. split; assumption.
    + reflexivity.
  - intros Hother Hroom. apply in_or_app. left.
    assert (Hkept : In old (filter (other_day (strftime_Ymd d)) history)).
    { apply filter_In. split; [exact Hin|].
      unfold other_day. rewrite Hdate. apply negb_true_iff.
      apply String.eqb_neq. intro Heq.
      apply Hother. apply (strftime_Ymd_same_day earlier d); assumption. }
    pose proof (filter_length_le (other_day (strftime_Ymd d)) history) as Hle.
    replace (List.length (filter (other_day (strftime_Ymd d)) history) + 1
             - Thresholds.HISTORY_DAYS)%nat with 0%nat by lia.
    exact Hkept.
Qed.

Lemma save_score_replaces_own_day_only_witness :
  In {| HistoryManager.date := "2026-11-02";
        HistoryManager.score := 412 # 1000;
        HistoryManager.regime := name (REGIMES STRONG_BULL) |}
     (append_or_replace (strftime_Ymd late_evening) (2 # 10)
        (name (REGIMES WEAK_BULL)) two_days).
Proof.
  apply (proj2 (proj2
    (save_score_replaces_own_day_only two_days previous_evening late_evening
       (2 # 10) (name (REGIMES WEAK_BULL))
       {| HistoryManager.date := "2026-11-02";
          HistoryManager.score := 412 # 1000;
          HistoryManager.regime := name (REGIMES STRONG_BULL) |}
       ltac:(cbn; lia) ltac:(cbn; lia) ltac:(cbn; lia)
       ltac:(cbn; lia) ltac:(cbn; lia) ltac:(cbn; lia)
       ltac:(left; reflexivity) eq_refl))).
  - cbn. lia.
  - vm_compute. lia.
Defined.
